(** * taskschedule: the scheduling and execution-dispatch core

    A shallow embedding of [tasks/models.py], [tasks/tasks.py],
    [tasks/forms.py] and the writing views of [tasks/views.py] of the
    taskschedule Django application, the properties of the
    natural-language specification that can be settled on it, and
    further properties of the code.

    Conventions of the embedding:
    - a Python [str] is a [string] whose characters are read as the
      code points 0..255;
    - a Python [int] is a [Z]; a Python [float] is a binary64 value of
      [SpecFloat];
    - an aware [datetime] is the number of microseconds since the Unix
      epoch (UTC), a [timedelta] a number of microseconds;
    - the database is a record of two tables, each a list of rows in
      the order the model's default query returns them;
    - code that can raise runs in a state-and-exception monad; the
      clock, the UUID source, the message broker, the file system and
      the child process are fields of the world that the code reads. *)

From Stdlib Require Import ZArith List Bool Ascii String Lia.
From Stdlib Require Import DecimalString DecimalZ DecimalPos DecimalFacts.
From Stdlib Require Import Floats.SpecFloat.
From stdpp Require Import base option gmap strings.

Import ListNotations.
Local Open Scope string_scope.
Local Open Scope Z_scope.

(* ===================================================================== *)
(** * Python strings *)
(* ===================================================================== *)

Module PyStr.

Definition code (c : ascii) : Z := Z.of_N (N_of_ascii c).

(** [str.isspace] on a single code point below 256
    (the characters [str.strip] and [str.split] treat as blank). *)
Definition isspace (c : ascii) : bool :=
  let n := code c in
  ((9 <=? n) && (n <=? 13)) || ((28 <=? n) && (n <=? 32))
  || (n =? 133) || (n =? 160).

(** The blanks [int(str)] skips: the C-locale blanks, plus the two
    non-ASCII blanks below 256, which [int] first rewrites to a space. *)
Definition int_space (c : ascii) : bool :=
  let n := code c in
  ((9 <=? n) && (n <=? 13)) || (n =? 32) || (n =? 133) || (n =? 160).

(** Value of a decimal digit; [\d] and [int] agree below 256. *)
Definition digit_of (c : ascii) : option Z :=
  let n := code c in
  if (48 <=? n) && (n <=? 57) then Some (n - 48) else None.

Definition isdigit (c : ascii) : bool :=
  match digit_of c with Some _ => true | None => false end.

Fixpoint forall_chars (p : ascii -> bool) (s : string) : bool :=
  match s with
  | EmptyString => true
  | String c r => p c && forall_chars p r
  end.

Fixpoint lstrip_by (p : ascii -> bool) (s : string) : string :=
  match s with
  | EmptyString => EmptyString
  | String c r => if p c then lstrip_by p r else s
  end.

Fixpoint rstrip_by (p : ascii -> bool) (s : string) : string :=
  match s with
  | EmptyString => EmptyString
  | String c r =>
      match rstrip_by p r with
      | EmptyString => if p c then EmptyString else String c EmptyString
      | r' => String c r'
      end
  end.

(** [s.strip()] *)
Definition strip (s : string) : string := rstrip_by isspace (lstrip_by isspace s).

(** [s.split()]: maximal runs of non-blank characters.  [cur] is the
    run being read, kept reversed. *)
Fixpoint split_acc (cur : list ascii) (s : string) : list string :=
  let flush := match cur with
               | [] => []
               | _ => [string_of_list_ascii (rev cur)]
               end in
  match s with
  | EmptyString => flush
  | String c r =>
      if isspace c then flush ++ split_acc [] r
      else split_acc (c :: cur) r
  end.

Definition split (s : string) : list string := split_acc [] s.

(** [c in s] for a one-character [c] *)
Fixpoint contains (c : ascii) (s : string) : bool :=
  match s with
  | EmptyString => false
  | String d r => Ascii.eqb c d || contains c r
  end.

(** Truth value of a string: non-empty. *)
Definition truthy (s : string) : bool :=
  match s with EmptyString => false | _ => true end.

(** [str(n)] for an [int] *)
Definition str_of_int (n : Z) : string := NilZero.string_of_int (Z.to_int n).

(** The digit scan of [int(str)] after a first digit: further digits,
    with single underscores allowed between two digits.  Returns the
    value and what follows the numeral. *)
Fixpoint scan_digits (acc : Z) (prev_us : bool) (s : string) : option (Z * string) :=
  match s with
  | EmptyString => if prev_us then None else Some (acc, EmptyString)
  | String c r =>
      match digit_of c with
      | Some d => scan_digits (10 * acc + d) false r
      | None =>
          if Ascii.eqb c "_" then
            if prev_us then None else scan_digits acc true r
          else if prev_us then None else Some (acc, s)
      end
  end.

Definition scan_numeral (s : string) : option (Z * string) :=
  match s with
  | EmptyString => None
  | String c r =>
      match digit_of c with
      | Some d => scan_digits d false r
      | None => None
      end
  end.

(** [int(s)] in base 10: [Some n], or [None] for [ValueError]. *)
Definition int (s : string) : option Z :=
  let s1 := lstrip_by int_space s in
  let '(neg, s2) :=
    match s1 with
    | String c r =>
        if Ascii.eqb c "-" then (true, r)
        else if Ascii.eqb c "+" then (false, r)
        else (false, s1)
    | EmptyString => (false, s1)
    end in
  match scan_numeral s2 with
  | Some (v, rest) =>
      if forall_chars int_space rest then Some (if neg then - v else v) else None
  | None => None
  end.

End PyStr.

(* ===================================================================== *)
(** * Exceptions and the outcome of a call *)
(* ===================================================================== *)

(** The exception classes the three modules can meet.  Every one of
    them derives from [Exception]; the interrupts that do not
    ([KeyboardInterrupt], [SystemExit]) are not faults of the program
    and are left out. *)
Inductive exn_class : Type :=
  | Exception
  | ValueError
  | UnicodeDecodeError          (* a ValueError *)
  | TypeError
  | ZeroDivisionError           (* an ArithmeticError *)
  | OverflowError               (* an ArithmeticError *)
  | OSError                     (* IOError is the same class *)
  | FileNotFoundError           (* an OSError *)
  | PermissionError             (* an OSError *)
  | TimeoutExpired              (* subprocess.TimeoutExpired *)
  | TaskExecution_DoesNotExist
  | TaskDefinition_DoesNotExist
  | DatabaseError
  | IntegrityError              (* a DatabaseError *)
  | OperationalError            (* the broker connection failing *)
  | ValidationError.            (* django.core.exceptions *)

Definition exn_class_eqb (a b : exn_class) : bool :=
  match a, b with
  | Exception, Exception | ValueError, ValueError
  | UnicodeDecodeError, UnicodeDecodeError | TypeError, TypeError
  | ZeroDivisionError, ZeroDivisionError | OverflowError, OverflowError
  | OSError, OSError | FileNotFoundError, FileNotFoundError
  | PermissionError, PermissionError | TimeoutExpired, TimeoutExpired
  | TaskExecution_DoesNotExist, TaskExecution_DoesNotExist
  | TaskDefinition_DoesNotExist, TaskDefinition_DoesNotExist
  | DatabaseError, DatabaseError | IntegrityError, IntegrityError
  | OperationalError, OperationalError
  | ValidationError, ValidationError => true
  | _, _ => false
  end.

(** Direct base class, [None] for [Exception] itself. *)
Definition base_class (c : exn_class) : option exn_class :=
  match c with
  | Exception => None
  | UnicodeDecodeError => Some ValueError
  | FileNotFoundError | PermissionError => Some OSError
  | IntegrityError => Some DatabaseError
  | _ => Some Exception
  end.

(** [issubclass c d]; the hierarchy is at most three levels deep. *)
Definition issubclass (c d : exn_class) : bool :=
  exn_class_eqb c d
  || match base_class c with
     | None => false
     | Some b =>
         exn_class_eqb b d
         || match base_class b with
            | None => false
            | Some b' => exn_class_eqb b' d
            end
     end.

(** A raised exception: its class and [str(e)]. *)
Record exn : Type := MkExn { exn_cls : exn_class; exn_str : string }.

Definition isinstance (e : exn) (c : exn_class) : bool := issubclass (exn_cls e) c.

Inductive outcome (A : Type) : Type :=
  | Ok (a : A)
  | Raise (e : exn).
Arguments Ok {A} a.
Arguments Raise {A} e.

Definition returns {A} (o : outcome A) : bool :=
  match o with Ok _ => true | Raise _ => false end.

(** ** State-and-exception monad.  A raised exception keeps the state
    reached so far: nothing is rolled back. *)
Module Py.
Section Monad.
Context {S : Type}.

Definition M (A : Type) : Type := S -> S * outcome A.

Definition ret {A} (a : A) : M A := fun s => (s, Ok a).
Definition raise {A} (e : exn) : M A := fun s => (s, Raise e).
Definition bind {A B} (m : M A) (k : A -> M B) : M B :=
  fun s => match m s with
           | (s', Ok a) => k a s'
           | (s', Raise e) => (s', Raise e)
           end.
Definition lift {A} (o : outcome A) : M A := fun s => (s, o).
Definition modify (f : S -> S) : M unit := fun s => (f s, Ok tt).

(** [try: body / except ...: handler]; the handler re-raises what
    no clause matches. *)
Definition try_except {A} (body : M A) (handler : exn -> M A) : M A :=
  fun s => match body s with
           | (s', Ok a) => (s', Ok a)
           | (s', Raise e) => handler e s'
           end.

(** [try: body / finally: cleanup]; an exception of the cleanup
    replaces the outcome of the body. *)
Definition try_finally {A} (body : M A) (cleanup : M unit) : M A :=
  fun s => match body s with
           | (s', o) =>
               match cleanup s' with
               | (s'', Ok _) => (s'', o)
               | (s'', Raise e) => (s'', Raise e)
               end
           end.

(** [for x in xs: body x] *)
Fixpoint for_each {A} (xs : list A) (body : A -> M unit) : M unit :=
  match xs with
  | [] => ret tt
  | x :: rest => bind (body x) (fun _ => for_each rest body)
  end.
End Monad.
Arguments M : clear implicits.
End Py.

Notation "x <- m ;; k" := (Py.bind m (fun x => k))
  (at level 100, m at next level, right associativity).
Notation "m ;;; k" := (Py.bind m (fun _ => k))
  (at level 100, right associativity).

(** The same sequencing for pure code that can raise. *)
Definition obind {A B} (o : outcome A) (k : A -> outcome B) : outcome B :=
  match o with Ok a => k a | Raise e => Raise e end.

(** [int(s)] as a call: [ValueError] where the literal is invalid. *)
Definition py_int (s : string) : outcome Z :=
  match PyStr.int s with
  | Some n => Ok n
  | None =>
      Raise (MkExn ValueError ("invalid literal for int() with base 10: " +:+ s))
  end.

(* ===================================================================== *)
(** * datetime *)
(* ===================================================================== *)

Module datetime.

(** An aware datetime: microseconds since 1970-01-01T00:00:00Z. *)
Definition datetime := Z.
(** A timedelta: microseconds. *)
Definition timedelta := Z.

Definition us_per_second : Z := 1000000.
Definition us_per_day : Z := 86400 * us_per_second.

(** [datetime.min] and [datetime.max] (years 1 to 9999). *)
Definition min : datetime := -62135596800 * us_per_second.
Definition max : datetime := 253402300800 * us_per_second - 1.

Definition overflow (msg : string) : exn := MkExn OverflowError msg.

(** The constructor normalises to days, seconds and microseconds and
    refuses a day count of magnitude above 999999999. *)
Definition make_timedelta (us : Z) : outcome timedelta :=
  let days := us / us_per_day in
  if (-999999999 <=? days) && (days <=? 999999999) then Ok us
  else Raise (overflow ("days=" +:+ PyStr.str_of_int days
                        +:+ "; must have magnitude <= 999999999")).

(** [timedelta(seconds=n)] and [timedelta(hours=n)] for an [int] n. *)
Definition timedelta_seconds (n : Z) : outcome timedelta :=
  make_timedelta (n * us_per_second).
Definition timedelta_hours (n : Z) : outcome timedelta :=
  make_timedelta (n * 3600 * us_per_second).

(** [dt + td] *)
Definition add (dt : datetime) (td : timedelta) : outcome datetime :=
  let r := dt + td in
  if (min <=? r) && (r <=? max) then Ok r
  else Raise (overflow "date value out of range").

(** [a - b] for two datetimes; always in the timedelta range. *)
Definition diff (a b : datetime) : timedelta := a - b.

Definition in_range (dt : datetime) : Prop := min <= dt <= max.

(** Calendar fields in UTC. *)
Definition minute (dt : datetime) : Z := (dt / (60 * us_per_second)) mod 60.
Definition hour (dt : datetime) : Z := (dt / (3600 * us_per_second)) mod 24.
Definition toordinal_epoch (dt : datetime) : Z := dt / us_per_day.
(** Day of the week as cron counts it: 0 is Sunday.  The epoch was a
    Thursday. *)
Definition cron_weekday (dt : datetime) : Z := (toordinal_epoch dt + 4) mod 7.

(** Year, month and day of a day count since the epoch (proleptic
    Gregorian calendar, era arithmetic on 400-year cycles). *)
Definition civil_from_days (days : Z) : Z * Z * Z :=
  let z := days + 719468 in
  let era := z / 146097 in
  let doe := z - era * 146097 in
  let yoe := (doe - doe / 1460 + doe / 36524 - doe / 146096) / 365 in
  let y := yoe + era * 400 in
  let doy := doe - (365 * yoe + yoe / 4 - yoe / 100) in
  let mp := (5 * doy + 2) / 153 in
  let d := doy - (153 * mp + 2) / 5 + 1 in
  let m := if mp <? 10 then mp + 3 else mp - 9 in
  (if m <=? 2 then y + 1 else y, m, d).

Definition month (dt : datetime) : Z :=
  let '(_, m, _) := civil_from_days (toordinal_epoch dt) in m.
Definition day (dt : datetime) : Z :=
  let '(_, _, d) := civil_from_days (toordinal_epoch dt) in d.
Definition year (dt : datetime) : Z :=
  let '(y, _, _) := civil_from_days (toordinal_epoch dt) in y.

End datetime.

(* ===================================================================== *)
(** * Python floats and values *)
(* ===================================================================== *)

Module PyFloat.

(** binary64 *)
Definition prec : Z := 53.
Definition emax : Z := 1024.

Definition float := spec_float.

Definition is_infinite (x : float) : bool :=
  match x with S754_infinity _ => true | _ => false end.

(** An [int] as an exact (not normalised) operand of a correctly
    rounded operation. *)
Definition exact (n : Z) : float :=
  match n with
  | Z0 => S754_zero false
  | Zpos p => S754_finite false p 0
  | Zneg p => S754_finite true p 0
  end.

(** [float(n)]: the nearest binary64, [OverflowError] beyond the range. *)
Definition of_int (n : Z) : outcome float :=
  let x := binary_normalize prec emax n 0 false in
  if is_infinite x
  then Raise (MkExn OverflowError "int too large to convert to float")
  else Ok x.

(** [a / b] on two [int]s: the correctly rounded quotient. *)
Definition int_truediv (a b : Z) : outcome float :=
  if b =? 0 then Raise (MkExn ZeroDivisionError "division by zero")
  else
    let q := SFdiv prec emax (exact a) (exact b) in
    if is_infinite q
    then Raise (MkExn OverflowError "integer division result too large for a float")
    else Ok q.

(** [x * n] for a float [x] and an [int] [n] *)
Definition mul_int (x : float) (n : Z) : outcome float :=
  obind (of_int n) (fun y => Ok (SFmul prec emax x y)).

(** Nearest integer to [n / d] for [d > 0], ties to the even one. *)
Definition div_half_even (n d : Z) : Z :=
  let q := n / d in
  let r := n mod d in
  match 2 * r ?= d with
  | Lt => q
  | Gt => q + 1
  | Eq => if Z.even q then q else q + 1
  end.

(** The integer nearest to [m * 2^e * 10^ndigits], ties to even. *)
Definition scaled_half_even (m : positive) (e : Z) (ndigits : nat) : Z :=
  let n := Zpos m * 10 ^ Z.of_nat ndigits in
  match e with
  | Zneg k => div_half_even n (2 ^ Zpos k)
  | _ => n * 2 ^ e
  end.

(** [round(x, ndigits)] for [ndigits >= 0] below the cut-off where
    [round] returns [x] itself: the decimal with [ndigits] places
    nearest to the exact value of [x] (ties to even), converted back
    to the nearest binary64. *)
Definition round (x : float) (ndigits : nat) : outcome float :=
  match x with
  | S754_finite s m e =>
      let q := scaled_half_even m e ndigits in
      let r := SFdiv prec emax (exact (if s then - q else q))
                               (exact (10 ^ Z.of_nat ndigits)) in
      let r := match r with S754_zero _ => S754_zero s | _ => r end in
      if is_infinite r
      then Raise (MkExn OverflowError "rounded value too large to represent")
      else Ok r
  | _ => Ok x
  end.

End PyFloat.

Inductive pyval : Type :=
  | PyNone
  | PyInt (n : Z)
  | PyFloatV (x : PyFloat.float)
  | PyString (s : string).

Definition pyval_of_option {A} (f : A -> pyval) (o : option A) : pyval :=
  match o with Some a => f a | None => PyNone end.

(* ===================================================================== *)
(** * models.py: the rows *)
(* ===================================================================== *)

Module TaskDefinition.

Record t : Type := Build {
  id : string;                         (* UUID, in its text form *)
  name : string;
  status : string;                     (* draft, active, paused, inactive *)
  script_file : option string;         (* name of the uploaded file *)
  script_content : option string;      (* inline text; None when unset *)
  schedule_type : string;              (* once, interval, cron *)
  schedule_value : string;
  environment_variables : string;
  timeout_seconds : Z;
  max_retries : Z;
  last_run_at : option datetime.datetime;
  next_run_at : option datetime.datetime;
  total_runs : Z;
  successful_runs : Z;
  failed_runs : Z
}.

Definition set_next_run_at (v : option datetime.datetime) (r : t) : t :=
  Build (id r) (name r) (status r) (script_file r) (script_content r)
        (schedule_type r) (schedule_value r) (environment_variables r)
        (timeout_seconds r) (max_retries r) (last_run_at r) v
        (total_runs r) (successful_runs r) (failed_runs r).

Definition set_last_run_at (v : option datetime.datetime) (r : t) : t :=
  Build (id r) (name r) (status r) (script_file r) (script_content r)
        (schedule_type r) (schedule_value r) (environment_variables r)
        (timeout_seconds r) (max_retries r) v (next_run_at r)
        (total_runs r) (successful_runs r) (failed_runs r).

Definition set_total_runs (v : Z) (r : t) : t :=
  Build (id r) (name r) (status r) (script_file r) (script_content r)
        (schedule_type r) (schedule_value r) (environment_variables r)
        (timeout_seconds r) (max_retries r) (last_run_at r) (next_run_at r)
        v (successful_runs r) (failed_runs r).

Definition set_successful_runs (v : Z) (r : t) : t :=
  Build (id r) (name r) (status r) (script_file r) (script_content r)
        (schedule_type r) (schedule_value r) (environment_variables r)
        (timeout_seconds r) (max_retries r) (last_run_at r) (next_run_at r)
        (total_runs r) v (failed_runs r).

Definition set_failed_runs (v : Z) (r : t) : t :=
  Build (id r) (name r) (status r) (script_file r) (script_content r)
        (schedule_type r) (schedule_value r) (environment_variables r)
        (timeout_seconds r) (max_retries r) (last_run_at r) (next_run_at r)
        (total_runs r) (successful_runs r) v.

(** The range of a [PositiveIntegerField]. *)
Definition positive_integer_field (v : Z) : Prop := 0 <= v <= 2147483647.

End TaskDefinition.

Module TaskExecution.

Record t : Type := Build {
  id : string;
  task_id : string;                    (* the foreign key *)
  status : string;   (* pending, running, success, failure, timeout, cancelled *)
  celery_task_id : string;
  started_at : option datetime.datetime;
  completed_at : option datetime.datetime;
  created_at : datetime.datetime;
  output : string;
  error_output : string;
  exit_code : option Z;
  execution_time_seconds : option PyFloat.float
}.

Definition set_status (v : string) (r : t) : t :=
  Build (id r) (task_id r) v (celery_task_id r) (started_at r) (completed_at r)
        (created_at r) (output r) (error_output r) (exit_code r)
        (execution_time_seconds r).
Definition set_celery_task_id (v : string) (r : t) : t :=
  Build (id r) (task_id r) (status r) v (started_at r) (completed_at r)
        (created_at r) (output r) (error_output r) (exit_code r)
        (execution_time_seconds r).
Definition set_started_at (v : option datetime.datetime) (r : t) : t :=
  Build (id r) (task_id r) (status r) (celery_task_id r) v (completed_at r)
        (created_at r) (output r) (error_output r) (exit_code r)
        (execution_time_seconds r).
Definition set_completed_at (v : option datetime.datetime) (r : t) : t :=
  Build (id r) (task_id r) (status r) (celery_task_id r) (started_at r) v
        (created_at r) (output r) (error_output r) (exit_code r)
        (execution_time_seconds r).
Definition set_output (v : string) (r : t) : t :=
  Build (id r) (task_id r) (status r) (celery_task_id r) (started_at r)
        (completed_at r) (created_at r) v (error_output r) (exit_code r)
        (execution_time_seconds r).
Definition set_error_output (v : string) (r : t) : t :=
  Build (id r) (task_id r) (status r) (celery_task_id r) (started_at r)
        (completed_at r) (created_at r) (output r) v (exit_code r)
        (execution_time_seconds r).
Definition set_exit_code (v : option Z) (r : t) : t :=
  Build (id r) (task_id r) (status r) (celery_task_id r) (started_at r)
        (completed_at r) (created_at r) (output r) (error_output r) v
        (execution_time_seconds r).
Definition set_execution_time_seconds (v : option PyFloat.float) (r : t) : t :=
  Build (id r) (task_id r) (status r) (celery_task_id r) (started_at r)
        (completed_at r) (created_at r) (output r) (error_output r)
        (exit_code r) v.

(** The terminal statuses. *)
Definition terminal (s : string) : bool :=
  String.eqb s "success" || String.eqb s "failure"
  || String.eqb s "timeout" || String.eqb s "cancelled".

End TaskExecution.

(* ===================================================================== *)
(** * The world the code runs in *)
(* ===================================================================== *)

(** What [subprocess.run] returns. *)
Record CompletedProcess : Type := {
  returncode : Z;
  stdout : string;
  stderr : string
}.

(** The collaborators outside the program.  Each is a function of its
    arguments; a fault is a raised exception.  The broker only queues
    the message: the worker runs it later, outside the dispatch cycle. *)
Record Services : Type := {
  (** successive readings of [timezone.now()] *)
  clock : nat -> datetime.datetime;
  (** successive values of [uuid.uuid4()] *)
  uuid_source : nat -> string;
  (** [execute_python_script.delay(id)]: the id of the queued message *)
  broker_delay : string -> outcome string;
  (** [open(path, 'r')] followed by [read()] *)
  open_read : string -> outcome string;
  (** writing the script to a fresh [NamedTemporaryFile]: its path *)
  tmp_create : string -> outcome string;
  (** [subprocess.run([sys.executable, path], env=..., timeout=...)] *)
  subprocess_run : string -> gmap string string -> Z -> outcome CompletedProcess;
  os_unlink : string -> outcome unit;
  os_environ : gmap string string
}.

Record World : Type := {
  services : Services;
  tasks : list TaskDefinition.t;          (* table, in default query order *)
  executions : list TaskExecution.t;      (* table, newest first *)
  ticks : nat;                            (* clock readings taken so far *)
  uuids_drawn : nat
}.

Definition set_tasks (v : list TaskDefinition.t) (w : World) : World :=
  {| services := services w; tasks := v; executions := executions w;
     ticks := ticks w; uuids_drawn := uuids_drawn w |}.
Definition set_executions (v : list TaskExecution.t) (w : World) : World :=
  {| services := services w; tasks := tasks w; executions := v;
     ticks := ticks w; uuids_drawn := uuids_drawn w |}.
Definition tick (w : World) : World :=
  {| services := services w; tasks := tasks w; executions := executions w;
     ticks := S (ticks w); uuids_drawn := uuids_drawn w |}.
Definition draw_uuid (w : World) : World :=
  {| services := services w; tasks := tasks w; executions := executions w;
     ticks := ticks w; uuids_drawn := S (uuids_drawn w) |}.

(** The reading [timezone.now()] gives next. *)
Definition now_of (w : World) : datetime.datetime := clock (services w) (ticks w).

Module timezone.
Definition now : Py.M World datetime.datetime :=
  fun w => (tick w, Ok (now_of w)).
End timezone.

Module uuid.
Definition uuid4 : Py.M World string :=
  fun w => (draw_uuid w, Ok (uuid_source (services w) (uuids_drawn w))).
End uuid.

(** ** The object manager: queries and saves *)
Module objects.

Definition find_task (k : string) (rows : list TaskDefinition.t) : option TaskDefinition.t :=
  List.find (fun r => String.eqb (TaskDefinition.id r) k) rows.

Definition find_execution (k : string) (rows : list TaskExecution.t) : option TaskExecution.t :=
  List.find (fun r => String.eqb (TaskExecution.id r) k) rows.

Definition no_rows : exn :=
  MkExn DatabaseError "Save with update_fields did not affect any rows.".

(** [TaskExecution.objects.get(id=k)] *)
Definition get_execution (k : string) : Py.M World TaskExecution.t :=
  fun w => match find_execution k (executions w) with
           | Some r => (w, Ok r)
           | None => (w, Raise (MkExn TaskExecution_DoesNotExist
                                 "TaskExecution matching query does not exist."))
           end.

(** [execution.task]: the related row, loaded on first access. *)
Definition get_task (k : string) : Py.M World TaskDefinition.t :=
  fun w => match find_task k (tasks w) with
           | Some r => (w, Ok r)
           | None => (w, Raise (MkExn TaskDefinition_DoesNotExist
                                 "TaskDefinition matching query does not exist."))
           end.

(** [obj.save(update_fields=...)]: [copy obj row] is the row with the
    named fields taken from the object.  The row is found by primary
    key; saving an object whose row is gone raises. *)
Definition update_task_rows (obj : TaskDefinition.t)
    (copy : TaskDefinition.t -> TaskDefinition.t -> TaskDefinition.t)
    (rows : list TaskDefinition.t) : list TaskDefinition.t :=
  map (fun r => if String.eqb (TaskDefinition.id r) (TaskDefinition.id obj)
                then copy obj r else r) rows.

Definition save_task (obj : TaskDefinition.t)
    (copy : TaskDefinition.t -> TaskDefinition.t -> TaskDefinition.t) : Py.M World unit :=
  fun w =>
    match find_task (TaskDefinition.id obj) (tasks w) with
    | None => (w, Raise no_rows)
    | Some _ => (set_tasks (update_task_rows obj copy (tasks w)) w, Ok tt)
    end.

Definition update_execution_rows (obj : TaskExecution.t)
    (copy : TaskExecution.t -> TaskExecution.t -> TaskExecution.t)
    (rows : list TaskExecution.t) : list TaskExecution.t :=
  map (fun r => if String.eqb (TaskExecution.id r) (TaskExecution.id obj)
                then copy obj r else r) rows.

Definition save_execution (obj : TaskExecution.t)
    (copy : TaskExecution.t -> TaskExecution.t -> TaskExecution.t) : Py.M World unit :=
  fun w =>
    match find_execution (TaskExecution.id obj) (executions w) with
    | None => (w, Raise no_rows)
    | Some _ => (set_executions (update_execution_rows obj copy (executions w)) w, Ok tt)
    end.

(** [TaskExecution.objects.create(task=task)]: a new row with the
    field defaults, a fresh primary key and [created_at] read from the
    clock.  A primary key already in the table is refused. *)
Definition create_execution (task : TaskDefinition.t) : Py.M World TaskExecution.t :=
  uid <- uuid.uuid4 ;;
  created <- timezone.now ;;
  let row := TaskExecution.Build uid (TaskDefinition.id task) "pending" ""
               None None created "" "" None None in
  rows <- (fun w => (w, Ok (executions w))) ;;
  match find_execution uid rows with
  | Some _ => Py.raise (MkExn IntegrityError "UNIQUE constraint failed: tasks_taskexecution.id")
  | None => Py.modify (set_executions (row :: rows)) ;;; Py.ret row
  end.

(** The [update_fields] lists the code saves with: the row [row] with
    the listed fields taken from the object [obj]. *)
(* ['status', 'started_at'] *)
Definition fields_started (obj row : TaskExecution.t) : TaskExecution.t :=
  TaskExecution.set_started_at (TaskExecution.started_at obj)
    (TaskExecution.set_status (TaskExecution.status obj) row).

(* ['status', 'completed_at', 'output', 'error_output', 'exit_code',
    'execution_time_seconds'] *)
Definition fields_completed (obj row : TaskExecution.t) : TaskExecution.t :=
  TaskExecution.set_execution_time_seconds (TaskExecution.execution_time_seconds obj)
    (TaskExecution.set_exit_code (TaskExecution.exit_code obj)
      (TaskExecution.set_error_output (TaskExecution.error_output obj)
        (TaskExecution.set_output (TaskExecution.output obj)
          (TaskExecution.set_completed_at (TaskExecution.completed_at obj)
            (TaskExecution.set_status (TaskExecution.status obj) row))))).

(* ['celery_task_id'] *)
Definition fields_celery_task_id (obj row : TaskExecution.t) : TaskExecution.t :=
  TaskExecution.set_celery_task_id (TaskExecution.celery_task_id obj) row.

(* ['total_runs', 'successful_runs', 'failed_runs', 'last_run_at'] *)
Definition fields_statistics (obj row : TaskDefinition.t) : TaskDefinition.t :=
  TaskDefinition.set_last_run_at (TaskDefinition.last_run_at obj)
    (TaskDefinition.set_failed_runs (TaskDefinition.failed_runs obj)
      (TaskDefinition.set_successful_runs (TaskDefinition.successful_runs obj)
        (TaskDefinition.set_total_runs (TaskDefinition.total_runs obj) row))).

(* ['next_run_at'] *)
Definition fields_next_run_at (obj row : TaskDefinition.t) : TaskDefinition.t :=
  TaskDefinition.set_next_run_at (TaskDefinition.next_run_at obj) row.

(** [TaskDefinition.objects.filter(status='active', next_run_at__lte=now)];
    a NULL [next_run_at] satisfies no comparison. *)
Definition is_due (now : datetime.datetime) (r : TaskDefinition.t) : bool :=
  String.eqb (TaskDefinition.status r) "active"
  && match TaskDefinition.next_run_at r with
     | Some t => t <=? now
     | None => false
     end.

Definition filter_due (now : datetime.datetime) : Py.M World (list TaskDefinition.t) :=
  fun w => (w, Ok (List.filter (is_due now) (tasks w))).

End objects.

(** ** The objects a method call works on: the execution [self] and the
    related task object it caches as [self.task].  They are mutated in
    place, so they are part of the state. *)
Record Frame : Type := {
  world : World;
  self : TaskExecution.t;
  self_task : TaskDefinition.t
}.

Definition in_world {A} (m : Py.M World A) : Py.M Frame A :=
  fun fr => let '(w', o) := m (world fr) in
            ({| world := w'; self := self fr; self_task := self_task fr |}, o).

Definition update_self (f : TaskExecution.t -> TaskExecution.t) : Py.M Frame unit :=
  Py.modify (fun fr => {| world := world fr; self := f (self fr); self_task := self_task fr |}).

Definition update_self_task (f : TaskDefinition.t -> TaskDefinition.t) : Py.M Frame unit :=
  Py.modify (fun fr => {| world := world fr; self := self fr; self_task := f (self_task fr) |}).

(** Run a method body on the objects [e] and [t]; the objects are
    dropped at the end, the world is kept. *)
Definition with_objects {A} (e : TaskExecution.t) (t : TaskDefinition.t)
    (m : Py.M Frame A) : Py.M World A :=
  fun w => let '(fr, o) := m {| world := w; self := e; self_task := t |} in
           (world fr, o).

(* ===================================================================== *)
(** * models.py: the methods *)
(* ===================================================================== *)

(** [TaskDefinition.success_rate] *)
Definition success_rate (self : TaskDefinition.t) : outcome pyval :=
  if TaskDefinition.total_runs self =? 0 then Ok (PyInt 0)
  else
    obind (PyFloat.int_truediv (TaskDefinition.successful_runs self)
                               (TaskDefinition.total_runs self)) (fun ratio =>
    obind (PyFloat.mul_int ratio 100) (fun pct =>
    obind (PyFloat.round pct 1) (fun r =>
    Ok (PyFloatV r)))).

(** Truth value of the file field: a file name is set. *)
Definition file_field_truthy (f : option string) : bool :=
  match f with Some n => PyStr.truthy n | None => false end.

(** [self.script_content or ""] *)
Definition or_empty (o : option string) : string :=
  match o with
  | Some s => if PyStr.truthy s then s else ""
  | None => ""
  end.

(** [TaskDefinition.get_script_content] *)
Definition get_script_content (self : TaskDefinition.t) : Py.M World string :=
  let fallback := Py.ret (or_empty (TaskDefinition.script_content self)) in
  match TaskDefinition.script_file self with
  | Some path =>
      if PyStr.truthy path then
        content <- Py.try_except
                     (text <- (fun w => (w, open_read (services w) path)) ;;
                      Py.ret (Some text))
                     (fun e => if isinstance e FileNotFoundError || isinstance e OSError
                               then Py.ret None
                               else Py.raise e) ;;
        match content with
        | Some text => Py.ret text
        | None => fallback
        end
      else fallback
  | None => fallback
  end.

(** [s.split(sep)] for a one-character separator: every separator cuts. *)
Fixpoint split_on_acc (sep : ascii) (cur : list ascii) (s : string) : list string :=
  match s with
  | EmptyString => [string_of_list_ascii (rev cur)]
  | String c r =>
      if Ascii.eqb c sep
      then string_of_list_ascii (rev cur) :: split_on_acc sep [] r
      else split_on_acc sep (c :: cur) r
  end.
Definition split_on (sep : ascii) (s : string) : list string := split_on_acc sep [] s.

(** [line.split(sep, 1)] when [sep in line]: the text before and after
    the first separator. *)
Fixpoint split_once_acc (sep : ascii) (cur : list ascii) (s : string) : option (string * string) :=
  match s with
  | EmptyString => None
  | String c r =>
      if Ascii.eqb c sep then Some (string_of_list_ascii (rev cur), r)
      else split_once_acc sep (c :: cur) r
  end.
Definition split_once (sep : ascii) (s : string) : option (string * string) :=
  split_once_acc sep [] s.

Definition newline : ascii := ascii_of_nat 10.

(** [TaskDefinition.get_environment_dict] *)
Definition get_environment_dict (self : TaskDefinition.t) : gmap string string :=
  if PyStr.truthy (TaskDefinition.environment_variables self) then
    fold_left
      (fun (env_dict : gmap string string) line =>
         match split_once "=" line with
         | Some (key, value) => <[PyStr.strip key := PyStr.strip value]> env_dict
         | None => env_dict
         end)
      (split_on newline (PyStr.strip (TaskDefinition.environment_variables self)))
      ∅
  else ∅.

(** [timedelta.total_seconds()] *)
Definition total_seconds (td : datetime.timedelta) : PyFloat.float :=
  SFdiv PyFloat.prec PyFloat.emax (PyFloat.exact td) (PyFloat.exact datetime.us_per_second).

(** [TaskExecution.duration] *)
Definition duration (self : TaskExecution.t) : option datetime.timedelta :=
  match TaskExecution.started_at self, TaskExecution.completed_at self with
  | Some st, Some ct => Some (datetime.diff ct st)
  | _, _ => None
  end.

(** [TaskExecution.mark_started] *)
Definition mark_started : Py.M Frame unit :=
  update_self (TaskExecution.set_status "running") ;;;
  now <- in_world timezone.now ;;
  update_self (TaskExecution.set_started_at (Some now)) ;;;
  this <- (fun fr => (fr, Ok (self fr))) ;;
  in_world (objects.save_execution this objects.fields_started).

(** [TaskExecution.mark_completed] *)
Definition mark_completed (status output error_output : string) (exit_code : option Z)
  : Py.M Frame unit :=
  update_self (TaskExecution.set_status status) ;;;
  now <- in_world timezone.now ;;
  update_self (TaskExecution.set_completed_at (Some now)) ;;;
  update_self (TaskExecution.set_output output) ;;;
  update_self (TaskExecution.set_error_output error_output) ;;;
  update_self (TaskExecution.set_exit_code exit_code) ;;;
  update_self (fun this =>
    match TaskExecution.started_at this with
    | Some st =>
        TaskExecution.set_execution_time_seconds
          (Some (total_seconds (datetime.diff now st))) this
    | None => this
    end) ;;;
  this <- (fun fr => (fr, Ok (self fr))) ;;
  in_world (objects.save_execution this objects.fields_completed) ;;;
  (* Update task statistics *)
  update_self_task (fun t => TaskDefinition.set_total_runs (TaskDefinition.total_runs t + 1) t) ;;;
  update_self_task (TaskDefinition.set_last_run_at (TaskExecution.completed_at this)) ;;;
  (if String.eqb status "success"
   then update_self_task (fun t =>
          TaskDefinition.set_successful_runs (TaskDefinition.successful_runs t + 1) t)
   else update_self_task (fun t =>
          TaskDefinition.set_failed_runs (TaskDefinition.failed_runs t + 1) t)) ;;;
  task <- (fun fr => (fr, Ok (self_task fr))) ;;
  in_world (objects.save_task task objects.fields_statistics).

(* ===================================================================== *)
(** * tasks.py *)
(* ===================================================================== *)

(** [calculate_next_run_time] *)
Definition calculate_next_run_time (task : TaskDefinition.t)
  : Py.M World (option datetime.datetime) :=
  now <- timezone.now ;;
  if String.eqb (TaskDefinition.schedule_type task) "once" then
    Py.ret None   (* One-time tasks don't repeat *)
  else if String.eqb (TaskDefinition.schedule_type task) "interval" then
    Py.try_except
      (interval_seconds <- Py.lift (py_int (TaskDefinition.schedule_value task)) ;;
       delta <- Py.lift (datetime.timedelta_seconds interval_seconds) ;;
       next <- Py.lift (datetime.add now delta) ;;
       Py.ret (Some next))
      (fun e => if isinstance e ValueError || isinstance e TypeError
                then Py.ret None
                else Py.raise e)
  else if String.eqb (TaskDefinition.schedule_type task) "cron" then
    (* no cron parsing: a default interval of one hour *)
    delta <- Py.lift (datetime.timedelta_hours 1) ;;
    next <- Py.lift (datetime.add now delta) ;;
    Py.ret (Some next)
  else Py.ret None.

Definition timeout_message (task : TaskDefinition.t) : string :=
  "Script execution timed out after "
  +:+ PyStr.str_of_int (TaskDefinition.timeout_seconds task) +:+ " seconds".

(** [execute_python_script], in four parts: the body of the inner
    [try] (lines 48-82), its two [except] clauses (84-102), the
    [finally] block (104-109) and the two outer [except] clauses
    (111-120).  The result is the returned dict. *)

(** Lines 48-82: run the script file and record the outcome. *)
Definition launch (task : TaskDefinition.t) (script_path : string)
    (env_vars : gmap string string) : Py.M Frame (gmap string pyval) :=
  (* Prepare environment *)
  exec_env <- (fun fr => (fr, Ok (env_vars ∪ os_environ (services (world fr))))) ;;
  (* Execute the script *)
  result <- (fun fr => (fr, subprocess_run (services (world fr)) script_path
                              exec_env (TaskDefinition.timeout_seconds task))) ;;
  (* Determine status based on exit code *)
  let status := if returncode result =? 0 then "success" else "failure" in
  (* Mark execution as completed *)
  mark_completed status (stdout result) (stderr result) (Some (returncode result)) ;;;
  execution <- (fun fr => (fr, Ok (self fr))) ;;
  Py.ret (<["status" := PyString status]>
         (<["output" := PyString (stdout result)]>
         (<["error_output" := PyString (stderr result)]>
         (<["exit_code" := PyInt (returncode result)]>
         (<["execution_time_seconds" :=
              pyval_of_option PyFloatV
                (TaskExecution.execution_time_seconds execution)]> ∅))))).

(** Lines 84-102: [except subprocess.TimeoutExpired] and
    [except Exception as e]. *)
Definition on_launch_error (e : exn) : Py.M Frame (gmap string pyval) :=
  if isinstance e TimeoutExpired then
    task <- (fun fr => (fr, Ok (self_task fr))) ;;
    mark_completed "timeout" "" (timeout_message task) None ;;;
    Py.ret (<["status" := PyString "timeout"]>
           (<["error_output" := PyString (timeout_message task)]> ∅))
  else if isinstance e Exception then
    mark_completed "failure" "" ("Execution error: " +:+ exn_str e) None ;;;
    Py.ret (<["status" := PyString "failure"]>
           (<["error_output" := PyString ("Execution error: " +:+ exn_str e)]> ∅))
  else Py.raise e.

(** Lines 104-109: clean up the temporary script file. *)
Definition cleanup (script_path : string) : Py.M Frame unit :=
  Py.try_except
    (fun fr => (fr, os_unlink (services (world fr)) script_path))
    (fun e => if isinstance e OSError then Py.ret tt else Py.raise e).

(** Lines 111-120: [except TaskExecution.DoesNotExist] and
    [except Exception as e]. *)
Definition on_error (execution_id : string) (e : exn) : Py.M World (gmap string pyval) :=
  if isinstance e TaskExecution_DoesNotExist then
    Py.ret (<["status" := PyString "failure"]>
           (<["error_output" :=
                PyString ("TaskExecution with id " +:+ execution_id +:+ " not found")]> ∅))
  else if isinstance e Exception then
    Py.ret (<["status" := PyString "failure"]>
           (<["error_output" := PyString ("Unexpected error: " +:+ exn_str e)]> ∅))
  else Py.raise e.

Definition execute_python_script (execution_id : string)
  : Py.M World (gmap string pyval) :=
  Py.try_except
    (execution <- objects.get_execution execution_id ;;
     task <- objects.get_task (TaskExecution.task_id execution) ;;
     with_objects execution task
       ((* Mark execution as started *)
        mark_started ;;;
        task <- (fun fr => (fr, Ok (self_task fr))) ;;
        (* Get script content *)
        script_content <- in_world (get_script_content task) ;;
        if negb (PyStr.truthy script_content) then
          Py.raise (MkExn ValueError "No script content found")
        else
        (* Get environment variables *)
        let env_vars := get_environment_dict task in
        (* Create a temporary file for the script *)
        script_path <- (fun fr => (fr, tmp_create (services (world fr)) script_content)) ;;
        Py.try_finally
          (Py.try_except (launch task script_path env_vars) on_launch_error)
          (cleanup script_path)))
    (on_error execution_id).

(** The body of the loop of [schedule_periodic_tasks], for one due task. *)
Definition dispatch (task : TaskDefinition.t) : Py.M World unit :=
  (* Create a new execution *)
  execution <- objects.create_execution task ;;
  (* Queue for execution *)
  result_id <- (fun w => (w, broker_delay (services w) (TaskExecution.id execution))) ;;
  let execution := TaskExecution.set_celery_task_id result_id execution in
  objects.save_execution execution objects.fields_celery_task_id ;;;
  (* Update next run time based on schedule *)
  next <- calculate_next_run_time task ;;
  let task := TaskDefinition.set_next_run_at next task in
  objects.save_task task objects.fields_next_run_at.

(** [schedule_periodic_tasks] *)
Definition schedule_periodic_tasks : Py.M World unit :=
  now <- timezone.now ;;
  (* Find tasks that are due for execution *)
  due_tasks <- objects.filter_due now ;;
  Py.for_each due_tasks dispatch.

(* ===================================================================== *)
(** * forms.py *)
(* ===================================================================== *)

(** The fragment of [re] the five patterns use. *)
Module re.

Inductive regex : Type :=
  | Bol                             (* ^ *)
  | Eol                             (* $ *)
  | Lit (c : ascii)                 (* an escaped or plain character *)
  | Range (lo hi : ascii)           (* [lo-hi] *)
  | Set2 (a b : ascii)              (* [ab] *)
  | Digit                           (* \d *)
  | Seq (a b : regex)
  | Alt (a b : regex)               (* a|b *)
  | Opt (a : regex).                (* a? *)

Definition in_range (lo hi c : ascii) : bool :=
  (PyStr.code lo <=? PyStr.code c) && (PyStr.code c <=? PyStr.code hi).

(** Backtracking matcher.  [start] tells whether the position is the
    start of the subject, [s] is the subject from the position on and
    [k] the rest of the match. *)
Fixpoint run (r : regex) (start : bool) (s : string)
    (k : bool -> string -> bool) : bool :=
  match r with
  | Bol => start && k start s
  | Eol =>
      (* at the end, or just before a newline that ends the subject *)
      match s with
      | EmptyString => k start s
      | String c EmptyString => Ascii.eqb c (ascii_of_nat 10) && k start s
      | _ => false
      end
  | Lit c =>
      match s with
      | String d r' => Ascii.eqb c d && k false r'
      | EmptyString => false
      end
  | Range lo hi =>
      match s with
      | String d r' => in_range lo hi d && k false r'
      | EmptyString => false
      end
  | Set2 a b =>
      match s with
      | String d r' => (Ascii.eqb a d || Ascii.eqb b d) && k false r'
      | EmptyString => false
      end
  | Digit =>
      match s with
      | String d r' => PyStr.isdigit d && k false r'
      | EmptyString => false
      end
  | Seq a b => run a start s (fun st s' => run b st s' k)
  | Alt a b => run a start s k || run b start s k
  | Opt a => run a start s k || k start s
  end.

(** [re.match(pattern, s)] as a truth value: a match at position 0. *)
Definition matches (r : regex) (s : string) : bool :=
  run r true s (fun _ _ => true).

End re.

Module patterns.
Import re.
Definition anchored (body : regex) : regex := Seq Bol (Seq body Eol).
(** [^(\*|[0-5]?\d)$] *)
Definition minute : regex :=
  anchored (Alt (Lit "*") (Seq (Opt (Range "0" "5")) Digit)).
(** [^(\*|[01]?\d|2[0-3])$] *)
Definition hour : regex :=
  anchored (Alt (Lit "*") (Alt (Seq (Opt (Set2 "0" "1")) Digit)
                               (Seq (Lit "2") (Range "0" "3")))).
(** [^(\*|[12]?\d|3[01])$] *)
Definition day_of_month : regex :=
  anchored (Alt (Lit "*") (Alt (Seq (Opt (Set2 "1" "2")) Digit)
                               (Seq (Lit "3") (Set2 "0" "1")))).
(** [^(\*|[01]?\d)$] *)
Definition month : regex :=
  anchored (Alt (Lit "*") (Seq (Opt (Set2 "0" "1")) Digit)).
(** [^(\*|[0-6])$] *)
Definition day_of_week : regex :=
  anchored (Alt (Lit "*") (Range "0" "6")).

Definition patterns : list regex :=
  [minute; hour; day_of_month; month; day_of_week].
End patterns.

(** The loop of [_validate_cron_expression] from index [i] on:
    [for i, part in enumerate(parts)]. *)
Fixpoint validate_parts (i : nat) (parts : list string) : bool :=
  match parts with
  | [] => true
  | part :: rest =>
      (* Allow ranges, lists, and step values *)
      if PyStr.contains "," part || PyStr.contains "-" part || PyStr.contains "/" part
      then validate_parts (S i) rest
      else
        match nth_error patterns.patterns i with
        | Some pattern =>
            if negb (re.matches pattern part) then false
            else validate_parts (S i) rest
        | None => false   (* IndexError; not reached with five parts *)
        end
  end.

(** [TaskSubmissionForm._validate_cron_expression] *)
Definition _validate_cron_expression (cron_expr : string) : bool :=
  let parts := PyStr.split (PyStr.strip cron_expr) in
  if negb (Nat.eqb (List.length parts) 5) then false
  else validate_parts 0 parts.

(** The schedule checks of [TaskSubmissionForm.clean] (lines 79-97). *)
Definition clean_schedule (schedule_type schedule_value : string) : outcome unit :=
  if PyStr.truthy schedule_type && PyStr.truthy schedule_value then
    if String.eqb schedule_type "cron" then
      if negb (_validate_cron_expression schedule_value)
      then Raise (MkExn ValidationError "Invalid cron expression format.")
      else Ok tt
    else if String.eqb schedule_type "interval" then
      match obind (py_int schedule_value) (fun interval =>
              if interval <=? 0 then Raise (MkExn ValueError "") else Ok tt) with
      | Ok _ => Ok tt
      | Raise e =>
          if isinstance e ValueError
          then Raise (MkExn ValidationError
                        "Interval must be a positive integer (seconds).")
          else Raise e
      end
    else Ok tt
  else Ok tt.

(* ===================================================================== *)
(** * Sample data *)
(* ===================================================================== *)

Module sample.

(** Saturday 2024-01-06 12:30:00 UTC *)
Definition saturday_noon : datetime.datetime := 1704544200 * datetime.us_per_second.

Definition default_services : Services := {|
  clock := fun _ => saturday_noon;
  uuid_source := fun n => "exec-" +:+ PyStr.str_of_int (Z.of_nat n);
  broker_delay := fun k => Ok ("celery-" +:+ k);
  open_read := fun path => Raise (MkExn FileNotFoundError path);
  tmp_create := fun _ => Ok "/tmp/tmpscript.py";
  subprocess_run := fun _ _ _ => Ok {| returncode := 0; stdout := "Hello"; stderr := "" |};
  os_unlink := fun _ => Ok tt;
  os_environ := ∅
|}.

(** An active task that is due at [saturday_noon]. *)
Definition task (k schedule_type schedule_value : string) : TaskDefinition.t :=
  TaskDefinition.Build k "sample" "active" None (Some "print('Hello')")
    schedule_type schedule_value "" 3600 3
    None (Some (saturday_noon - 1 * datetime.us_per_second)) 0 0 0.

Definition world_of (sv : Services) (rows : list TaskDefinition.t) : World :=
  {| services := sv; tasks := rows; executions := []; ticks := 0; uuids_drawn := 0 |}.

Definition world (rows : list TaskDefinition.t) : World := world_of default_services rows.

(** A queued execution of the task [task_id]. *)
Definition execution (k task_id : string) : TaskExecution.t :=
  TaskExecution.Build k task_id "pending" ("celery-" +:+ k) None None
    saturday_noon "" "" None None.

(** The default collaborators with a child process that ends as [o]. *)
Definition with_process (o : outcome CompletedProcess) : Services := {|
  clock := clock default_services;
  uuid_source := uuid_source default_services;
  broker_delay := broker_delay default_services;
  open_read := open_read default_services;
  tmp_create := tmp_create default_services;
  subprocess_run := fun _ _ _ => o;
  os_unlink := os_unlink default_services;
  os_environ := os_environ default_services
|}.

(** One task with one queued execution, as the worker finds them. *)
Definition queued (sv : Services) : World :=
  {| services := sv;
     tasks := [task "t1" "interval" "60"];
     executions := [execution "exec-0" "t1"];
     ticks := 0; uuids_drawn := 1 |}.

Definition timed_out : exn :=
  MkExn TimeoutExpired "Command timed out after 3600 seconds".

Definition permission_denied : exn :=
  MkExn PermissionError "[Errno 13] Permission denied".

(** Monday 2024-01-08 09:00:00 UTC *)
Definition monday_nine : datetime.datetime := 1704704400 * datetime.us_per_second.

(** Collaborators whose file system cannot decode the uploaded file. *)
Definition undecodable_file : Services := {|
  clock := clock default_services;
  uuid_source := uuid_source default_services;
  broker_delay := broker_delay default_services;
  open_read := fun path =>
    Raise (MkExn UnicodeDecodeError
             "'utf-8' codec can't decode byte 0xe9 in position 10: invalid continuation byte");
  tmp_create := tmp_create default_services;
  subprocess_run := subprocess_run default_services;
  os_unlink := os_unlink default_services;
  os_environ := os_environ default_services
|}.

(** A task that ran [total] times, [successful] of them with success. *)
Definition task_with_runs (total successful : Z) : TaskDefinition.t :=
  TaskDefinition.Build "t7" "sample" "active" None (Some "print('Hello')")
    "interval" "60" "" 3600 3 None None total successful (total - successful).

(** A task with an uploaded file and inline text. *)
Definition task_with_file : TaskDefinition.t :=
  TaskDefinition.Build "t9" "sample" "active" (Some "scripts/7/t9/job.py")
    (Some "print('inline')") "once" "" "" 3600 3 None None 0 0 0.

(** The same collaborators, with a broker that refuses the message
    for the execution [bad]. *)
Definition faulty_broker (bad : string) : Services := {|
  clock := clock default_services;
  uuid_source := uuid_source default_services;
  broker_delay := fun k =>
    if String.eqb k bad
    then Raise (MkExn OperationalError "broker unreachable")
    else broker_delay default_services k;
  open_read := open_read default_services;
  tmp_create := tmp_create default_services;
  subprocess_run := subprocess_run default_services;
  os_unlink := os_unlink default_services;
  os_environ := os_environ default_services
|}.
Definition three_due : list TaskDefinition.t :=
  [task "t1" "interval" "60"; task "t2" "interval" "60";
   task "t3" "once" ""].

End sample.

(* ===================================================================== *)
(** * The cron semantics of the specification *)
(* ===================================================================== *)

(** What the specification (its sections 4.2 and 6) asks a timestamp to
    satisfy for a five-field expression: each field is [*], a number, a
    range [a-b], any of these with a step [/n], or a comma list of
    such; day-of-month and day-of-week are alternatives when both are
    restricted.  The source has no counterpart of this definition:
    [calculate_next_run_time] does not read the expression. *)
Module cron_spec.

Definition bounds (lo hi : Z) (range : string) : option (Z * Z) :=
  if String.eqb range "*" then Some (lo, hi)
  else
    match split_once "-" range with
    | Some (a, b) =>
        match PyStr.int a, PyStr.int b with
        | Some x, Some y => Some (x, y)
        | _, _ => None
        end
    | None =>
        match PyStr.int range with
        | Some x => Some (x, x)
        | None => None
        end
    end.

Definition item_matches (lo hi : Z) (item : string) (v : Z) : bool :=
  let '(range, step) :=
    match split_once "/" item with
    | Some (r, n) => (r, PyStr.int n)
    | None => (item, Some 1)
    end in
  match bounds lo hi range, step with
  | Some (a, b), Some n =>
      (0 <? n) && (a <=? v) && (v <=? b) && ((v - a) mod n =? 0)
  | _, _ => false
  end.

Definition field_matches (lo hi : Z) (field : string) (v : Z) : bool :=
  existsb (fun item => item_matches lo hi item v) (split_on "," field).

Definition restricted (field : string) : bool := negb (String.eqb field "*").

Definition satisfies (expr : string) (t : datetime.datetime) : bool :=
  match PyStr.split (PyStr.strip expr) with
  | [mi; h; dom; mon; dow] =>
      field_matches 0 59 mi (datetime.minute t)
      && field_matches 0 23 h (datetime.hour t)
      && field_matches 1 12 mon (datetime.month t)
      && (if restricted dom && restricted dow
          then field_matches 1 31 dom (datetime.day t)
               || field_matches 0 6 dow (datetime.cron_weekday t)
          else field_matches 1 31 dom (datetime.day t)
               && field_matches 0 6 dow (datetime.cron_weekday t))
  | _ => false
  end.

End cron_spec.

(* ===================================================================== *)
(** * Auxiliary definitions used in the statements *)
(* ===================================================================== *)

(** The whitespace-separated fields of a cron expression. *)
Definition cron_fields (cron_expr : string) : list string :=
  PyStr.split (PyStr.strip cron_expr).

(** A field written with list, range or step syntax. *)
Definition has_list_syntax (part : string) : bool :=
  PyStr.contains "," part || PyStr.contains "-" part || PyStr.contains "/" part.

(** The field at position [i] is one the validator lets through. *)
Definition field_ok (i : nat) (part : string) : Prop :=
  has_list_syntax part = true
  \/ exists pattern, nth_error patterns.patterns i = Some pattern
                     /\ re.matches pattern part = true.

(** The execution object after [mark_started] read [now]. *)
Definition started_object (now : datetime.datetime) (e : TaskExecution.t) : TaskExecution.t :=
  TaskExecution.set_started_at (Some now) (TaskExecution.set_status "running" e).

(** The execution object after [mark_completed] read [now]. *)
Definition completed_object (now : datetime.datetime) (status output error_output : string)
    (exit_code : option Z) (e : TaskExecution.t) : TaskExecution.t :=
  let e1 := TaskExecution.set_exit_code exit_code
              (TaskExecution.set_error_output error_output
                 (TaskExecution.set_output output
                    (TaskExecution.set_completed_at (Some now)
                       (TaskExecution.set_status status e)))) in
  match TaskExecution.started_at e1 with
  | Some st =>
      TaskExecution.set_execution_time_seconds
        (Some (total_seconds (datetime.diff now st))) e1
  | None => e1
  end.

(** The task object after [mark_completed] counted one run. *)
Definition counted_task (now : datetime.datetime) (status : string)
    (t : TaskDefinition.t) : TaskDefinition.t :=
  let t1 := TaskDefinition.set_last_run_at (Some now)
              (TaskDefinition.set_total_runs (TaskDefinition.total_runs t + 1) t) in
  if String.eqb status "success"
  then TaskDefinition.set_successful_runs (TaskDefinition.successful_runs t1 + 1) t1
  else TaskDefinition.set_failed_runs (TaskDefinition.failed_runs t1 + 1) t1.

(** The counters of a task row or object add up. *)
Definition consistent (t : TaskDefinition.t) : Prop :=
  TaskDefinition.total_runs t
  = TaskDefinition.successful_runs t + TaskDefinition.failed_runs t.

Definition stats_consistent (w : World) : Prop :=
  forall row, In row (tasks w) -> consistent row.

(** The invariant of a method call: the table is consistent and so is
    the task object in hand. *)
Definition frame_consistent (fr : Frame) : Prop :=
  stats_consistent (world fr) /\ consistent (self_task fr).

(** What [get_script_content] returns, as a function of the file system. *)
Definition resolve_script (sv : Services) (t : TaskDefinition.t) : outcome string :=
  let inline := or_empty (TaskDefinition.script_content t) in
  match TaskDefinition.script_file t with
  | Some path =>
      if PyStr.truthy path then
        match open_read sv path with
        | Ok text => Ok text
        | Raise e => if isinstance e OSError then Ok inline else Raise e
        end
      else Ok inline
  | None => Ok inline
  end.

(** The dicts [execute_python_script] returns without an exit code. *)
Definition failure_dict (message : string) : gmap string pyval :=
  <["status" := PyString "failure"]> (<["error_output" := PyString message]> ∅).

Definition timeout_dict (message : string) : gmap string pyval :=
  <["status" := PyString "timeout"]> (<["error_output" := PyString message]> ∅).

(** The outcome is a returned failure dict with a message. *)
Definition failure_report (o : outcome (gmap string pyval)) : Prop :=
  exists message, message <> "" /\ o = Ok (failure_dict message).

(** The exact value of a finite float, as a fraction with a positive
    denominator. *)
Definition exact_value (x : PyFloat.float) : Z * Z :=
  match x with
  | S754_finite s m e =>
      let n := if s then Zneg m else Zpos m in
      match e with
      | Zneg k => (n, 2 ^ Zpos k)
      | _ => (n * 2 ^ e, 1)
      end
  | _ => (0, 1)
  end.

(** [q] is an integer nearest to the fraction [num / den]. *)
Definition nearest_integer (num den q : Z) : Prop :=
  Z.abs (2 * num - 2 * q * den) <= den.

(** The binary64 nearest to [q / 10], for [q >= 0]. *)
Definition tenths (q : Z) : PyFloat.float :=
  SFdiv PyFloat.prec PyFloat.emax (PyFloat.exact q) (PyFloat.exact 10).

(** A float that is zero or positive, with a mantissa below [2^K] and
    an exponent of at most [E]. *)
Definition bounded_float (K E : Z) (x : PyFloat.float) : Prop :=
  match x with
  | S754_zero s => s = false
  | S754_finite s m e => s = false /\ Zpos m < 2 ^ K /\ e <= E
  | _ => False
  end.

(** The dict the outer [except] clauses return for the exception [e]. *)
Definition error_dict (execution_id : string) (e : exn) : gmap string pyval :=
  failure_dict
    (if isinstance e TaskExecution_DoesNotExist
     then "TaskExecution with id " +:+ execution_id +:+ " not found"
     else "Unexpected error: " +:+ exn_str e).

(** What the worker returns when the launch block produced the dict
    [d]: the [finally] block may replace it by an error. *)
Definition after_cleanup (sv : Services) (execution_id path : string)
    (d : gmap string pyval) : gmap string pyval :=
  match os_unlink sv path with
  | Ok _ => d
  | Raise e => if isinstance e OSError then d else error_dict execution_id e
  end.

(** The [finally] block raises nothing. *)
Definition clean_exit (sv : Services) (path : string) : Prop :=
  match os_unlink sv path with
  | Ok _ => True
  | Raise e => isinstance e OSError = true
  end.

(** The world after [mark_started] on the execution [e]. *)
Definition started_world (w : World) (e : TaskExecution.t) : World :=
  set_executions
    (objects.update_execution_rows (started_object (now_of w) e)
       objects.fields_started (executions w))
    (tick w).

(** The world after [mark_completed] on the objects [e] and [t]. *)
Definition completed_world (w : World) (e : TaskExecution.t) (t : TaskDefinition.t)
    (status output error_output : string) (exit_code : option Z) : World :=
  set_tasks
    (objects.update_task_rows (counted_task (now_of w) status t)
       objects.fields_statistics (tasks w))
    (set_executions
       (objects.update_execution_rows
          (completed_object (now_of w) status output error_output exit_code e)
          objects.fields_completed (executions w))
       (tick w)).

(** The dict of a run whose child process returned. *)
Definition completed_dict (status : string) (result : CompletedProcess)
    (e : TaskExecution.t) : gmap string pyval :=
  <["status" := PyString status]>
  (<["output" := PyString (stdout result)]>
  (<["error_output" := PyString (stderr result)]>
  (<["exit_code" := PyInt (returncode result)]>
  (<["execution_time_seconds" :=
       pyval_of_option PyFloatV (TaskExecution.execution_time_seconds e)]> ∅)))).

(** Hoare triples for the monad: from a state in [P] the computation
    ends in [Q a] when it returns [a] and in [R e] when it raises [e]. *)
Definition hoare {S A} (P : S -> Prop) (m : Py.M S A)
    (Q : A -> S -> Prop) (R : exn -> S -> Prop) : Prop :=
  forall s, P s ->
    match m s with
    | (s', Ok a) => Q a s'
    | (s', Raise e) => R e s'
    end.

(** The computation keeps the invariant [I], however it ends. *)
Definition keeps {S A} (I : S -> Prop) (m : Py.M S A) : Prop :=
  hoare I m (fun _ => I) (fun _ => I).

(** Running the worker on a list of execution ids, one after the other. *)
Definition run_worker (ids : list string) (w : World) : World :=
  fold_left (fun w k => fst (execute_python_script k w)) ids w.

(** The effect of saving [next_run_at] for the task with key [k]. *)
Definition reschedule (k : string) (next : option datetime.datetime)
    (r : TaskDefinition.t) : TaskDefinition.t :=
  if String.eqb (TaskDefinition.id r) k then TaskDefinition.set_next_run_at next r else r.

(** The row [dispatch] inserts for a task, before it is queued. *)
Definition pending_row (task : TaskDefinition.t) (w : World) : TaskExecution.t :=
  TaskExecution.Build (uuid_source (services w) (uuids_drawn w)) (TaskDefinition.id task)
    "pending" "" None None (now_of w) "" "" None None.

(* ===================================================================== *)
(** * tasks.py: the clean-up job *)
(* ===================================================================== *)

(** [timedelta(days=n)] for an [int] n. *)
Definition timedelta_days (n : Z) : outcome datetime.timedelta :=
  datetime.make_timedelta (n * datetime.us_per_day).

(** [dt - td] for a datetime and a timedelta. *)
Definition datetime_sub (dt : datetime.datetime) (td : datetime.timedelta)
  : outcome datetime.datetime :=
  datetime.add dt (- td).

(** [TaskExecution.objects.filter(created_at__lt=cutoff).delete()[0]]:
    the rows are removed and their number is returned.  No model refers
    to an execution, so the deletion cascades to nothing. *)
Definition delete_created_before (cutoff : datetime.datetime) : Py.M World Z :=
  fun w =>
    let selected := fun r => TaskExecution.created_at r <? cutoff in
    (set_executions (List.filter (fun r => negb (selected r)) (executions w)) w,
     Ok (Z.of_nat (List.length (List.filter selected (executions w))))).

(** [cleanup_old_executions] *)
Definition cleanup_old_executions : Py.M World string :=
  now <- timezone.now ;;
  delta <- Py.lift (timedelta_days 30) ;;
  cutoff_date <- Py.lift (datetime_sub now delta) ;;
  (* Delete old execution records *)
  deleted_count <- delete_created_before cutoff_date ;;
  Py.ret ("Cleaned up " +:+ PyStr.str_of_int deleted_count +:+ " old execution records").

(* ===================================================================== *)
(** * forms.py: the submission form *)
(* ===================================================================== *)

(** The cleaned data [TaskSubmissionForm.clean] reads.  A key that is
    missing, because the field failed its own validation, reads as
    [None] through [cleaned_data.get]. *)
Module cleaned_data.
Record t : Type := Build {
  name : string;
  script_file : option string;          (* name of the uploaded file *)
  script_content : option string;
  schedule_type : option string;
  schedule_value : option string;
  environment_variables : string
}.
End cleaned_data.

(** Truth value of an optional string: set and not empty. *)
Definition truthy_opt (o : option string) : bool := PyStr.truthy (or_empty o).

(** [TaskSubmissionForm.clean] *)
Definition clean (data : cleaned_data.t) : outcome cleaned_data.t :=
  let script_file := cleaned_data.script_file data in
  let script_content := cleaned_data.script_content data in
  (* Ensure either script_file or script_content is provided *)
  if negb (file_field_truthy script_file) && negb (truthy_opt script_content) then
    Raise (MkExn ValidationError
             "Please provide either a Python script file or paste your code.")
  else
    (* Validate schedule_value based on schedule_type *)
    let schedule_type := cleaned_data.schedule_type data in
    let schedule_value := cleaned_data.schedule_value data in
    obind (clean_schedule (or_empty schedule_type) (or_empty schedule_value))
          (fun _ => Ok data).

(* ===================================================================== *)
(** * Auxiliary definitions for the further properties *)
(* ===================================================================== *)

(** The lines [get_environment_dict] iterates over. *)
Definition env_lines (self : TaskDefinition.t) : list string :=
  if PyStr.truthy (TaskDefinition.environment_variables self)
  then split_on newline (PyStr.strip (TaskDefinition.environment_variables self))
  else [].

(** The entry a line adds to the dict, when the line has an [=]. *)
Definition assignment (line : string) : option (string * string) :=
  match split_once "=" line with
  | Some (key, value) => Some (PyStr.strip key, PyStr.strip value)
  | None => None
  end.

(** No line of [lines] assigns the key [k]. *)
Definition unassigned (k : string) (lines : list string) : Prop :=
  forall line v, In line lines -> assignment line <> Some (k, v).

(** The loop of [get_environment_dict] from the dict [env_dict] on. *)
Definition env_loop (lines : list string) (env_dict : gmap string string)
  : gmap string string :=
  fold_left
    (fun (env_dict : gmap string string) line =>
       match split_once "=" line with
       | Some (key, value) => <[PyStr.strip key := PyStr.strip value]> env_dict
       | None => env_dict
       end)
    lines env_dict.

(** The three Celery tasks of [tasks.py], run one after the other. *)
Inductive job : Type :=
  | Beat                               (* schedule_periodic_tasks *)
  | Work (execution_id : string)       (* execute_python_script *)
  | Cleanup.                           (* cleanup_old_executions *)

Definition run_job (j : job) (w : World) : World :=
  match j with
  | Beat => fst (schedule_periodic_tasks w)
  | Work execution_id => fst (execute_python_script execution_id w)
  | Cleanup => fst (cleanup_old_executions w)
  end.

Definition run_jobs (jobs : list job) (w : World) : World :=
  fold_left (fun w j => run_job j w) jobs w.

(** The clock never goes back. *)
Definition monotone_clock (sv : Services) : Prop :=
  forall i j : nat, (i <= j)%nat -> clock sv i <= clock sv j.

(** The rows of two tables correspond one to one, in order, with the
    same primary keys. *)
Definition same_executions (R : TaskExecution.t -> TaskExecution.t -> Prop)
    (rows rows' : list TaskExecution.t) : Prop :=
  Forall2 (fun r r' => TaskExecution.id r' = TaskExecution.id r /\ R r r') rows rows'.

Definition same_tasks (R : TaskDefinition.t -> TaskDefinition.t -> Prop)
    (rows rows' : list TaskDefinition.t) : Prop :=
  Forall2 (fun r r' => TaskDefinition.id r' = TaskDefinition.id r /\ R r r') rows rows'.

(** A task whose environment text is [text]. *)
Definition task_with_environment (text : string) : TaskDefinition.t :=
  TaskDefinition.Build "t4" "sample" "active" None (Some "print('Hello')")
    "once" "" text 3600 3 None None 0 0 0.

(** The data name a script: an uploaded file or pasted code. *)
Definition has_script (data : cleaned_data.t) : bool :=
  file_field_truthy (cleaned_data.script_file data)
  || truthy_opt (cleaned_data.script_content data).

(** What [clean] asks of a schedule type and value. *)
Definition schedule_ok (schedule_type schedule_value : string) : Prop :=
  schedule_type = "" \/ schedule_value = ""
  \/ (schedule_type = "cron" /\ _validate_cron_expression schedule_value = true)
  \/ (schedule_type = "interval"
      /\ exists n, PyStr.int schedule_value = Some n /\ 0 < n)
  \/ (schedule_type <> "cron" /\ schedule_type <> "interval").

(* ===================================================================== *)
(** * forms.py: saving the forms;  views.py *)
(* ===================================================================== *)

(** The state the views work on: the database, the [user] column of
    the task table (kept by primary key beside the rows) and the
    messages flashed so far. *)
Record Site : Type := {
  db : World;
  task_user : gmap string string;        (* task id to user id *)
  flashed : list (string * string)       (* level and text, oldest first *)
}.

Definition in_db {A} (m : Py.M World A) : Py.M Site A :=
  fun s => let '(w', o) := m (db s) in
           ({| db := w'; task_user := task_user s; flashed := flashed s |}, o).

Module messages.
Definition add (level text : string) : Py.M Site unit :=
  Py.modify (fun s => {| db := db s; task_user := task_user s;
                         flashed := (flashed s ++ [(level, text)])%list |}).
Definition success (text : string) : Py.M Site unit := add "success" text.
Definition error (text : string) : Py.M Site unit := add "error" text.
End messages.

(** The cleaned data of a valid [TaskUpdateForm]: the fields of its
    [Meta.fields] that are columns of the row model. *)
Module update_data.
Record t : Type := Build {
  name : string;
  status : string;
  script_content : string;
  schedule_type : string;
  schedule_value : string;
  environment_variables : string;
  timeout_seconds : Z;
  max_retries : Z
}.
End update_data.

(** What a view reads of the request.  Django's form machinery turns
    [request.POST] and [request.FILES] into cleaned fields; its outcome
    is part of the request. *)
Module HttpRequest.
Record t : Type := Build {
  method : string;
  user : option string;                 (* the id of request.user; None: anonymous *)
  submitted : cleaned_data.t;           (* TaskSubmissionForm: the cleaned fields *)
  submitted_valid : bool;               (* ... its field and model checks pass *)
  updated : option update_data.t;       (* TaskUpdateForm: cleaned fields, if valid *)
  confirmed : bool                      (* TaskExecuteForm(request.POST).is_valid() *)
}.
End HttpRequest.

Inductive HttpResponse : Type :=
  | Redirect (to : string) (pk : option string)   (* redirect(to), redirect(to, pk=pk) *)
  | RedirectToLogin                 (* login_required, for an anonymous request *)
  | NotAllowed                      (* require_http_methods: HttpResponseNotAllowed *)
  | Render (template : string)      (* render(request, template, context) *)
  | NotFound.                       (* Http404 of get_object_or_404, as it is answered *)

(** [TaskDefinition()]: a new instance with the defaults of models.py
    and the primary key [uid] drawn for it. *)
Definition new_task (uid : string) : TaskDefinition.t :=
  TaskDefinition.Build uid "" "draft" None (Some "") "once" "" "" 3600 3 None None 0 0 0.

Definition task_with_status (v : string) (r : TaskDefinition.t) : TaskDefinition.t :=
  TaskDefinition.Build (TaskDefinition.id r) (TaskDefinition.name r) v
    (TaskDefinition.script_file r) (TaskDefinition.script_content r)
    (TaskDefinition.schedule_type r) (TaskDefinition.schedule_value r)
    (TaskDefinition.environment_variables r) (TaskDefinition.timeout_seconds r)
    (TaskDefinition.max_retries r) (TaskDefinition.last_run_at r)
    (TaskDefinition.next_run_at r) (TaskDefinition.total_runs r)
    (TaskDefinition.successful_runs r) (TaskDefinition.failed_runs r).

Definition or_keep {A} (v : option A) (old : A) : A :=
  match v with Some a => a | None => old end.

(** The instance after the validation of a [TaskSubmissionForm] copied
    the cleaned fields of [Meta.fields] (forms.py, lines 14-17) onto
    it; a field without a cleaned value keeps what the instance had. *)
Definition construct_submitted (data : cleaned_data.t) (instance : TaskDefinition.t)
  : TaskDefinition.t :=
  TaskDefinition.Build (TaskDefinition.id instance) (cleaned_data.name data)
    (TaskDefinition.status instance)
    (match cleaned_data.script_file data with
     | Some f => Some f
     | None => TaskDefinition.script_file instance
     end)
    (match cleaned_data.script_content data with
     | Some c => Some c
     | None => TaskDefinition.script_content instance
     end)
    (or_keep (cleaned_data.schedule_type data) (TaskDefinition.schedule_type instance))
    (or_keep (cleaned_data.schedule_value data) (TaskDefinition.schedule_value instance))
    (cleaned_data.environment_variables data)
    (TaskDefinition.timeout_seconds instance) (TaskDefinition.max_retries instance)
    (TaskDefinition.last_run_at instance) (TaskDefinition.next_run_at instance)
    (TaskDefinition.total_runs instance) (TaskDefinition.successful_runs instance)
    (TaskDefinition.failed_runs instance).

(** The same for a [TaskUpdateForm] (forms.py, lines 143-147). *)
Definition construct_updated (data : update_data.t) (instance : TaskDefinition.t)
  : TaskDefinition.t :=
  TaskDefinition.Build (TaskDefinition.id instance) (update_data.name data)
    (update_data.status data) (TaskDefinition.script_file instance)
    (Some (update_data.script_content data))
    (update_data.schedule_type data) (update_data.schedule_value data)
    (update_data.environment_variables data)
    (update_data.timeout_seconds data) (update_data.max_retries data)
    (TaskDefinition.last_run_at instance) (TaskDefinition.next_run_at instance)
    (TaskDefinition.total_runs instance) (TaskDefinition.successful_runs instance)
    (TaskDefinition.failed_runs instance).

(** [task.save()] for a new instance: the row is inserted in front (the
    newest first).  The [user] column is not nullable and the primary
    key is unique. *)
Definition insert_task (task : TaskDefinition.t) (task_owner : option string)
  : Py.M Site unit :=
  fun s =>
    match task_owner with
    | None =>
        (s, Raise (MkExn IntegrityError
                     "NOT NULL constraint failed: tasks_taskdefinition.user_id"))
    | Some u =>
        match objects.find_task (TaskDefinition.id task) (tasks (db s)) with
        | Some _ =>
            (s, Raise (MkExn IntegrityError
                         "UNIQUE constraint failed: tasks_taskdefinition.id"))
        | None =>
            ({| db := set_tasks (task :: tasks (db s)) (db s);
                task_user := <[TaskDefinition.id task := u]> (task_user s);
                flashed := flashed s |}, Ok tt)
        end
    end.

(** [task.save()] for an instance loaded from the table: every column
    of its row is written; a row that is gone is inserted again. *)
Definition save_all_columns (task : TaskDefinition.t) : Py.M World unit :=
  fun w =>
    match objects.find_task (TaskDefinition.id task) (tasks w) with
    | Some _ => (set_tasks (objects.update_task_rows task (fun obj _ => obj) (tasks w)) w, Ok tt)
    | None => (set_tasks (task :: tasks w) w, Ok tt)
    end.

(** [task.delete()]: the executions of the task go with it
    ([on_delete=models.CASCADE], models.py, line 146). *)
Definition delete_task (task : TaskDefinition.t) : Py.M Site unit :=
  Py.modify (fun s =>
    let k := TaskDefinition.id task in
    {| db := set_tasks
               (List.filter (fun r => negb (String.eqb (TaskDefinition.id r) k)) (tasks (db s)))
               (set_executions
                  (List.filter (fun x => negb (String.eqb (TaskExecution.task_id x) k))
                     (executions (db s)))
                  (db s));
       task_user := delete k (task_user s);
       flashed := flashed s |}).

(** [TaskSubmissionForm.save]; [instance] is what [super().save(commit=False)]
    returns, the instance the validation filled in. *)
Definition TaskSubmissionForm_save (form_user : option string) (instance : TaskDefinition.t)
    (commit : bool) : Py.M Site TaskDefinition.t :=
  let task := instance in
  (* if self.user: task.user = self.user; the column is written by the insert *)
  (* Set default status *)
  let task := task_with_status "draft" task in
  (if commit then insert_task task form_user else Py.ret tt) ;;;
  Py.ret task.

(** [get_object_or_404(TaskDefinition, pk=pk, user=request.user)];
    [None] stands for the raised [Http404]. *)
Definition get_object_or_404 (pk user : string) : Py.M Site (option TaskDefinition.t) :=
  fun s =>
    (s, Ok match objects.find_task pk (tasks (db s)), task_user s !! pk with
           | Some task, Some u => if String.eqb u user then Some task else None
           | _, _ => None
           end).

(** A double quote. *)
Definition dquote : string := String (ascii_of_nat 34) "".

(** [home_view] *)
Definition home_view (request : HttpRequest.t) : Py.M Site HttpResponse :=
  if String.eqb (HttpRequest.method request) "POST" then
    match HttpRequest.user request with
    | None =>
        messages.error "Please sign in to submit tasks." ;;;
        Py.ret (Redirect "account_login" None)
    | Some user =>
        (* TaskSubmissionForm(request.POST, request.FILES, user=request.user):
           the form makes the instance it will fill in *)
        uid <- in_db uuid.uuid4 ;;
        let instance := new_task uid in
        (* form.is_valid(): Django's checks and clean(); the cleaned fields
           are copied onto the instance *)
        let valid := HttpRequest.submitted_valid request
                     && returns (clean (HttpRequest.submitted request)) in
        let instance := construct_submitted (HttpRequest.submitted request) instance in
        if valid then
          task <- TaskSubmissionForm_save (Some user) instance true ;;
          messages.success
            ("Task " +:+ dquote +:+ TaskDefinition.name task +:+ dquote
             +:+ " has been created successfully! You can manage it from your dashboard.") ;;;
          Py.ret (Redirect "tasks:detail" (Some (TaskDefinition.id task)))
        else
          messages.error "Please correct the errors below and try again." ;;;
          Py.ret (Render "pages/home.html")
    end
  else
    (* TaskSubmissionForm() *)
    uid <- in_db uuid.uuid4 ;;
    Py.ret (Render "pages/home.html").

(** [task_update_view] *)
Definition task_update_view (request : HttpRequest.t) (pk : string)
  : Py.M Site HttpResponse :=
  match HttpRequest.user request with
  | None => Py.ret RedirectToLogin
  | Some user =>
      found <- get_object_or_404 pk user ;;
      match found with
      | None => Py.ret NotFound
      | Some task =>
          if String.eqb (HttpRequest.method request) "POST" then
            match HttpRequest.updated request with
            | Some data =>
                let task := construct_updated data task in
                in_db (save_all_columns task) ;;;
                messages.success
                  ("Task " +:+ dquote +:+ TaskDefinition.name task +:+ dquote
                   +:+ " has been updated successfully!") ;;;
                Py.ret (Redirect "tasks:detail" (Some (TaskDefinition.id task)))
            | None => Py.ret (Render "tasks/update.html")
            end
          else Py.ret (Render "tasks/update.html")
      end
  end.

(** The local objects of [task_execute_view]: the new execution and
    the task, which is also the [execution.task] that [mark_completed]
    updates. *)
Record ViewFrame : Type := {
  site : Site;
  execution : TaskExecution.t;
  task : TaskDefinition.t
}.

Definition on_site {A} (m : Py.M Site A) : Py.M ViewFrame A :=
  fun vf => let '(s', o) := m (site vf) in
            ({| site := s'; execution := execution vf; task := task vf |}, o).

(** A method of the execution, run on the objects of the view. *)
Definition on_objects {A} (m : Py.M Frame A) : Py.M ViewFrame A :=
  fun vf =>
    let '(fr, o) := m {| world := db (site vf); self := execution vf;
                         self_task := task vf |} in
    ({| site := {| db := world fr; task_user := task_user (site vf);
                   flashed := flashed (site vf) |};
        execution := self fr; task := self_task fr |}, o).

Definition with_view_objects {A} (e : TaskExecution.t) (t : TaskDefinition.t)
    (m : Py.M ViewFrame A) : Py.M Site A :=
  fun s => let '(vf, o) := m {| site := s; execution := e; task := t |} in (site vf, o).

(** Lines 148-163 of [task_execute_view]: queue the task for execution. *)
Definition queue_execution : Py.M ViewFrame unit :=
  Py.try_except
    (this <- (fun vf => (vf, Ok (execution vf))) ;;
     result_id <- (fun vf => (vf, broker_delay (services (db (site vf)))
                                    (TaskExecution.id this))) ;;
     on_objects (update_self (TaskExecution.set_celery_task_id result_id)) ;;;
     this <- (fun vf => (vf, Ok (execution vf))) ;;
     on_objects (in_world (objects.save_execution this objects.fields_celery_task_id)) ;;;
     task <- (fun vf => (vf, Ok (task vf))) ;;
     on_site (messages.success
                ("Task " +:+ dquote +:+ TaskDefinition.name task +:+ dquote
                 +:+ " has been queued for execution!")))
    (fun e =>
       if isinstance e Exception then
         on_objects (mark_completed "failure" "" (exn_str e) None) ;;;
         on_site (messages.error ("Failed to queue task: " +:+ exn_str e))
       else Py.raise e).

(** [task_execute_view] *)
Definition task_execute_view (request : HttpRequest.t) (pk : string)
  : Py.M Site HttpResponse :=
  match HttpRequest.user request with
  | None => Py.ret RedirectToLogin
  | Some user =>
      if negb (String.eqb (HttpRequest.method request) "POST") then Py.ret NotAllowed
      else
        found <- get_object_or_404 pk user ;;
        match found with
        | None => Py.ret NotFound
        | Some task =>
            (if HttpRequest.confirmed request then
               (* Create a new execution record *)
               execution <- in_db (objects.create_execution task) ;;
               (* Queue the task for execution *)
               with_view_objects execution task queue_execution
             else messages.error "Please confirm the execution.") ;;;
            Py.ret (Redirect "tasks:detail" (Some (TaskDefinition.id task)))
        end
  end.

(** [task_delete_view] *)
Definition task_delete_view (request : HttpRequest.t) (pk : string)
  : Py.M Site HttpResponse :=
  match HttpRequest.user request with
  | None => Py.ret RedirectToLogin
  | Some user =>
      found <- get_object_or_404 pk user ;;
      match found with
      | None => Py.ret NotFound
      | Some task =>
          if String.eqb (HttpRequest.method request) "POST" then
            let task_name := TaskDefinition.name task in
            delete_task task ;;;
            messages.success
              ("Task " +:+ dquote +:+ task_name +:+ dquote
               +:+ " has been deleted successfully!") ;;;
            Py.ret (Redirect "tasks:dashboard" None)
          else Py.ret (Render "tasks/delete.html")
      end
  end.

(** [task.executions.filter(status=status).count()], the counts of
    [TaskDetailView.get_context_data] (lines 108-109) and of
    [execution_logs_view] (lines 211-213). *)
Definition executions_count (task : TaskDefinition.t) (status : string) (w : World) : Z :=
  Z.of_nat (List.length
    (List.filter (fun x => String.eqb (TaskExecution.task_id x) (TaskDefinition.id task)
                           && String.eqb (TaskExecution.status x) status)
       (executions w))).

Definition successful_count (task : TaskDefinition.t) (w : World) : Z :=
  executions_count task "success" w.
Definition failed_count (task : TaskDefinition.t) (w : World) : Z :=
  executions_count task "failed" w.
Definition running_count (task : TaskDefinition.t) (w : World) : Z :=
  executions_count task "running" w.

(** What can happen to a site: a Celery task runs, or a request is
    served by one of the four views that write. *)
Inductive event : Type :=
  | Job (j : job)
  | Home (request : HttpRequest.t)
  | Update (request : HttpRequest.t) (pk : string)
  | Execute (request : HttpRequest.t) (pk : string)
  | Delete (request : HttpRequest.t) (pk : string).

Definition run_event (ev : event) (s : Site) : Site :=
  match ev with
  | Job j => {| db := run_job j (db s); task_user := task_user s; flashed := flashed s |}
  | Home request => fst (home_view request s)
  | Update request pk => fst (task_update_view request pk s)
  | Execute request pk => fst (task_execute_view request pk s)
  | Delete request pk => fst (task_delete_view request pk s)
  end.

Definition run_events (events : list event) (s : Site) : Site :=
  fold_left (fun s ev => run_event ev s) events s.

(** Every row with the key [k] has no next run time. *)
Definition unscheduled (k : string) (w : World) : Prop :=
  forall row, In row (tasks w) -> TaskDefinition.id row = k ->
              TaskDefinition.next_run_at row = None.

(** No execution has the status [status]. *)
Definition status_unused (status : string) (w : World) : Prop :=
  forall x, In x (executions w) -> TaskExecution.status x <> status.

(** A request of the user [u]. *)
Definition request_of (u : option string) (method : string) (confirmed : bool)
  : HttpRequest.t :=
  HttpRequest.Build method u
    (cleaned_data.Build "nightly" None (Some "print('Hello')") (Some "interval") (Some "60") "")
    true None confirmed.

(** A site with the task [t1] of the user [alice] and nothing else. *)
Definition sample_site (sv : Services) : Site :=
  {| db := sample.world_of sv [sample.task "t1" "interval" "60"];
     task_user := {[ "t1" := "alice" ]};
     flashed := [] |}.

(** A site with the three due tasks of [sample.three_due], all of the
    user [alice]. *)
Definition three_due_site (sv : Services) : Site :=
  {| db := sample.world_of sv sample.three_due;
     task_user := {[ "t1" := "alice"; "t2" := "alice"; "t3" := "alice" ]};
     flashed := [] |}.

(* ===================================================================== *)
(** * The embedding on concrete inputs *)
(* ===================================================================== *)

Example int_examples :
  map PyStr.int [" +1_0 "; "007"; "-0"; "5" +:+ String (ascii_of_nat 10) ""; "60"]
  = [Some 10; Some 7; Some 0; Some 5; Some 60]
  /\ map PyStr.int [""; "  "; "1__0"; "_1"; "1_"; "+ 5"; "0x10"; "1.5"; "abc"]
     = [None; None; None; None; None; None; None; None; None].
Proof. split; reflexivity. Qed.

Example split_examples :
  PyStr.split "  0 9 * *  1-5 " = ["0"; "9"; "*"; "*"; "1-5"]
  /\ PyStr.strip "  ab c  " = "ab c"
  /\ PyStr.str_of_int 3600 = "3600" /\ PyStr.str_of_int (-5) = "-5" /\ PyStr.str_of_int 0 = "0".
Proof. repeat split; reflexivity. Qed.

Example datetime_examples :
  let t := 1704544200 * 1000000 in
  (datetime.year t, datetime.month t, datetime.day t, datetime.hour t,
   datetime.minute t, datetime.cron_weekday t) = (2024, 1, 6, 12, 30, 6)
  /\ (datetime.year datetime.max, datetime.month datetime.max, datetime.day datetime.max)
     = (9999, 12, 31)
  /\ (datetime.year datetime.min, datetime.month datetime.min, datetime.day datetime.min)
     = (1, 1, 1).
Proof. repeat split; reflexivity. Qed.

Example validate_examples :
  map _validate_cron_expression
    ["0 9 * * 1-5"; "* * * * *"; " 59 23 31 12 6 "; "* * * 0 *"; "* * * 19 *"; "* * * 13 *";
     "99-99 x/y ,, 1-1 -"]
  = [true; true; true; true; true; true; true]
  /\ map _validate_cron_expression
    ["* * * *"; "* * * * * *"; "60 * * * *"; "* 24 * * *"; "* * 32 * *"; "* * * 20 *";
     "* * * * 7"; ""; "a b c d e"]
  = [false; false; false; false; false; false; false; false; false].
Proof. split; reflexivity. Qed.

(* ===================================================================== *)
(** * Python strings: printing an int and reading it back *)
(* ===================================================================== *)

Section IntStr.

Lemma scan_digits_pos (d : Decimal.uint) : forall acc : positive,
  PyStr.scan_digits (Zpos acc) false (NilEmpty.string_of_uint d)
  = Some (Zpos (Pos.of_uint_acc d acc), EmptyString).
Proof.
  induction d; intros acc; cbn [NilEmpty.string_of_uint PyStr.scan_digits Pos.of_uint_acc];
    [ reflexivity | .. ];
    (unfold PyStr.digit_of, PyStr.code; cbn [N_of_ascii N_of_digits];
     match goal with
     | |- context [if ?c then _ else _] => change c with true; cbv iota
     end;
     rewrite <- IHd; f_equal; lia).
Qed.

Lemma scan_digits_zero (d : Decimal.uint) :
  PyStr.scan_digits 0 false (NilEmpty.string_of_uint d)
  = Some (Z.of_N (Pos.of_uint d), EmptyString).
Proof.
  induction d; cbn [NilEmpty.string_of_uint PyStr.scan_digits Pos.of_uint];
    [ reflexivity | .. ];
    unfold PyStr.digit_of, PyStr.code; cbn [N_of_ascii N_of_digits];
    match goal with
    | |- context [if ?c then _ else _] => change c with true; cbv iota
    end;
    [ exact IHd | .. ];
    match goal with
    | |- PyStr.scan_digits ?a _ _ = _ =>
        let v := eval vm_compute in a in change a with v
    end;
    rewrite scan_digits_pos; reflexivity.
Qed.

Lemma scan_numeral_uint (d : Decimal.uint) :
  d <> Decimal.Nil ->
  PyStr.scan_numeral (NilEmpty.string_of_uint d)
  = Some (Z.of_N (Pos.of_uint d), EmptyString).
Proof.
  intros Hd. rewrite <- scan_digits_zero.
  destruct d; [ congruence | .. ]; reflexivity.
Qed.

Lemma int_of_uint (d : Decimal.uint) :
  d <> Decimal.Nil ->
  PyStr.int (NilEmpty.string_of_uint d) = Some (Z.of_N (Pos.of_uint d))
  /\ PyStr.int (String "-" (NilEmpty.string_of_uint d)) = Some (- Z.of_N (Pos.of_uint d)).
Proof.
  intros Hd. pose proof (scan_numeral_uint d Hd) as Hs.
  destruct d; [ congruence | .. ];
    (split; unfold PyStr.int;
     cbn [NilEmpty.string_of_uint PyStr.lstrip_by] in *;
     match goal with
     | |- context [PyStr.int_space ?c] =>
         let v := eval vm_compute in (PyStr.int_space c) in
         change (PyStr.int_space c) with v; cbv iota
     end;
     cbn [PyStr.lstrip_by];
     repeat match goal with
            | |- context [Ascii.eqb ?a ?b] =>
                let v := eval vm_compute in (Ascii.eqb a b) in
                change (Ascii.eqb a b) with v; cbv iota
            end;
     rewrite Hs; reflexivity).
Qed.

(** [int(str(n)) == n] *)
Lemma int_str_of_int (n : Z) : PyStr.int (PyStr.str_of_int n) = Some n.
Proof.
  unfold PyStr.str_of_int. destruct n as [ | p | p ].
  - reflexivity.
  - cbn [Z.to_int NilZero.string_of_int].
    pose proof (DecimalPos.Unsigned.to_uint_nonnil p) as Hn.
    unfold NilZero.string_of_uint.
    destruct (Pos.to_uint p) eqn:E; [ congruence | .. ];
      rewrite <- E in *;
      (rewrite (proj1 (int_of_uint _ Hn)), DecimalPos.Unsigned.of_to; reflexivity).
  - cbn [Z.to_int NilZero.string_of_int].
    pose proof (DecimalPos.Unsigned.to_uint_nonnil p) as Hn.
    unfold NilZero.string_of_uint.
    destruct (Pos.to_uint p) eqn:E; [ congruence | .. ];
      rewrite <- E in *;
      (rewrite (proj2 (int_of_uint _ Hn)), DecimalPos.Unsigned.of_to; reflexivity).
Qed.

End IntStr.

(* ===================================================================== *)
(** * The schedule evaluator, [calculate_next_run_time] *)
(* ===================================================================== *)

Section Evaluator.

Variable task : TaskDefinition.t.
Variable w : World.

(** What the interval branch computes, step by step. *)
Lemma calculate_interval :
  TaskDefinition.schedule_type task = "interval" ->
  calculate_next_run_time task w
  = (tick w,
     match PyStr.int (TaskDefinition.schedule_value task) with
     | None => Ok None
     | Some n =>
         match datetime.timedelta_seconds n with
         | Raise e => Raise e
         | Ok delta =>
             match datetime.add (now_of w) delta with
             | Raise e => Raise e
             | Ok next => Ok (Some next)
             end
         end
     end).
Proof.
  intros Hk. unfold calculate_next_run_time, Py.bind, timezone.now, Py.try_except, Py.lift.
  rewrite Hk. cbn [String.eqb Ascii.eqb Bool.eqb].
  unfold py_int. destruct (PyStr.int _) as [n | ]; [ | reflexivity ].
  unfold datetime.timedelta_seconds, datetime.make_timedelta.
  destruct (_ && _); [ | reflexivity ].
  unfold datetime.add. destruct (_ && _); reflexivity.
Qed.

(** Two datetimes in range are less than 999999999 days apart. *)
Lemma timedelta_between_in_range (d : Z) :
  datetime.in_range (now_of w) -> datetime.in_range (now_of w + d) ->
  datetime.make_timedelta d = Ok d.
Proof.
  unfold datetime.in_range, datetime.make_timedelta, datetime.min, datetime.max,
    datetime.us_per_day, datetime.us_per_second.
  intros H1 H2.
  assert (-999999999 <= d / (86400 * 1000000) <= 999999999) as [Hlo Hhi].
  { split.
    - apply Z.div_le_lower_bound; lia.
    - apply Z.lt_succ_r. apply Z.div_lt_upper_bound; lia. }
  apply Z.leb_le in Hlo, Hhi. rewrite Hlo, Hhi. reflexivity.
Qed.

Lemma add_in_range (d : Z) :
  datetime.in_range (now_of w + d) -> datetime.add (now_of w) d = Ok (now_of w + d).
Proof.
  unfold datetime.in_range, datetime.add. intros [Hlo Hhi].
  apply Z.leb_le in Hlo, Hhi. rewrite Hlo, Hhi. reflexivity.
Qed.

(** The cron branch never looks at the expression. *)
Lemma calculate_cron :
  TaskDefinition.schedule_type task = "cron" ->
  datetime.in_range (now_of w) ->
  datetime.in_range (now_of w + 3600 * datetime.us_per_second) ->
  calculate_next_run_time task w
  = (tick w, Ok (Some (now_of w + 3600 * datetime.us_per_second))).
Proof.
  intros Hk H1 H2.
  unfold calculate_next_run_time, Py.bind, timezone.now, Py.lift.
  rewrite Hk. cbn [String.eqb Ascii.eqb Bool.eqb].
  unfold datetime.timedelta_hours.
  replace (1 * 3600 * datetime.us_per_second) with (3600 * datetime.us_per_second) by lia.
  rewrite (timedelta_between_in_range _ H1 H2), (add_in_range _ H2). reflexivity.
Qed.

Lemma calculate_once :
  TaskDefinition.schedule_type task = "once" ->
  calculate_next_run_time task w = (tick w, Ok None).
Proof.
  intros Hk. unfold calculate_next_run_time, Py.bind, timezone.now.
  rewrite Hk. reflexivity.
Qed.

End Evaluator.

(** C3 (as amended): for an interval task the evaluator returns
    [now + n] seconds whenever the schedule value reads as an integer
    [n] by [int()] - positive, zero or negative - and the sum is a
    datetime; in particular for the decimal text of any [n]; and it
    returns [None] exactly when the value does not read as an integer. *)
Theorem interval_next_run_time (task : TaskDefinition.t) (w : World) :
  TaskDefinition.schedule_type task = "interval" ->
  datetime.in_range (now_of w) ->
  (forall n : Z,
      PyStr.int (TaskDefinition.schedule_value task) = Some n
      \/ TaskDefinition.schedule_value task = PyStr.str_of_int n ->
      datetime.in_range (now_of w + n * datetime.us_per_second) ->
      calculate_next_run_time task w
      = (tick w, Ok (Some (now_of w + n * datetime.us_per_second))))
  /\ (PyStr.int (TaskDefinition.schedule_value task) = None
      <-> snd (calculate_next_run_time task w) = Ok None).
Proof.
  intros Hk Hnow. rewrite (calculate_interval task w Hk). split.
  - intros n Hn Hr.
    assert (PyStr.int (TaskDefinition.schedule_value task) = Some n) as ->.
    { destruct Hn as [Hn | Hn]; [ exact Hn | rewrite Hn; apply int_str_of_int ]. }
    unfold datetime.timedelta_seconds.
    rewrite (timedelta_between_in_range w _ Hnow Hr), (add_in_range w _ Hr).
    reflexivity.
  - cbn [snd]. split.
    + intros ->. reflexivity.
    + destruct (PyStr.int _) as [n | ]; [ | reflexivity ].
      destruct (datetime.timedelta_seconds n); [ | discriminate ].
      destruct (datetime.add _ _); discriminate.
Qed.

Lemma interval_next_run_time_witness :
  calculate_next_run_time (sample.task "t1" "interval" "60") (sample.world [])
  = (tick (sample.world []),
     Ok (Some (sample.saturday_noon + 60 * datetime.us_per_second))).
Proof.
  apply (proj1 (interval_next_run_time (sample.task "t1" "interval" "60")
                  (sample.world []) eq_refl
                  ltac:(unfold datetime.in_range; vm_compute; split; discriminate)) 60).
  - left. reflexivity.
  - unfold datetime.in_range. vm_compute. split; discriminate.
Defined.

(** C3 (as stated) fails: the value "0" does not read as a positive
    integer, and the evaluator returns [now], not [None]; for "-5" it
    returns a time before [now]. *)
Lemma interval_zero_counterexample :
  let task := sample.task "t1" "interval" "0" in
  let w := sample.world [] in
  TaskDefinition.schedule_type task = "interval"
  /\ PyStr.int (TaskDefinition.schedule_value task) = Some 0
  /\ snd (calculate_next_run_time task w) = Ok (Some (now_of w))
  /\ snd (calculate_next_run_time task w) <> Ok None
  /\ snd (calculate_next_run_time (sample.task "t1" "interval" "-5") w)
     = Ok (Some (now_of w - 5 * datetime.us_per_second)).
Proof. vm_compute. repeat split; discriminate. Qed.

(** The positivity test is the form's: an interval it accepts reads as
    a positive integer, and the evaluator then returns a later time. *)
Lemma validated_interval_is_positive (schedule_value : string) :
  PyStr.truthy schedule_value = true ->
  (clean_schedule "interval" schedule_value = Ok tt
   <-> exists n, PyStr.int schedule_value = Some n /\ 0 < n).
Proof.
  intros Hv. unfold clean_schedule, py_int. rewrite Hv. cbn [PyStr.truthy andb String.eqb
    Ascii.eqb Bool.eqb obind].
  destruct (PyStr.int schedule_value) as [n | ]; cbn [obind].
  - destruct (Z.leb_spec n 0); cbn.
    + split; [ discriminate | intros (m & [= <-] & Hm); lia ].
    + split; [ intros _; exists n; split; [ reflexivity | assumption ] | reflexivity ].
  - cbn. split; [ discriminate | intros (m & Hm & _); discriminate ].
Qed.

(** The cron branch keeps the minute of the hour of the clock reading:
    an expression whose minute field is a number other than the
    current minute is not satisfied by the result. *)
Lemma cron_keeps_minute (task : TaskDefinition.t) (w : World) :
  TaskDefinition.schedule_type task = "cron" ->
  datetime.in_range (now_of w) ->
  datetime.in_range (now_of w + 3600 * datetime.us_per_second) ->
  exists next,
    calculate_next_run_time task w = (tick w, Ok (Some next))
    /\ now_of w < next
    /\ datetime.minute next = datetime.minute (now_of w).
Proof.
  intros Hk H1 H2. exists (now_of w + 3600 * datetime.us_per_second).
  split; [ apply calculate_cron; assumption | ].
  unfold datetime.minute, datetime.us_per_second. split; [ lia | ].
  replace (now_of w + 3600 * 1000000) with (now_of w + 60 * (60 * 1000000)) by lia.
  rewrite Z.div_add by lia. rewrite Z.add_mod by lia.
  rewrite Z.mod_same by lia. rewrite Z.add_0_r. apply Z.mod_mod. lia.
Qed.

(** C1: for the cron task of the specification's own scenario,
    ["0 9 * * 1-5"] read on a Saturday at 12:30, the evaluator returns
    13:30 of the same Saturday.  The result is later than the reading,
    but it satisfies neither the minute, nor the hour, nor the
    day-of-week field; the next Monday 09:00 does. *)
Theorem cron_result_ignores_the_fields :
  let task := sample.task "t1" "cron" "0 9 * * 1-5" in
  let w := sample.world [] in
  let next := now_of w + 3600 * datetime.us_per_second in
  _validate_cron_expression (TaskDefinition.schedule_value task) = true
  /\ snd (calculate_next_run_time task w) = Ok (Some next)
  /\ (datetime.year next, datetime.month next, datetime.day next,
      datetime.hour next, datetime.minute next, datetime.cron_weekday next)
     = (2024, 1, 6, 13, 30, 6)
  /\ cron_spec.satisfies (TaskDefinition.schedule_value task) next = false
  /\ cron_spec.satisfies (TaskDefinition.schedule_value task) sample.monday_nine = true.
Proof. vm_compute. repeat split. Qed.

(* ===================================================================== *)
(** * Script resolution, [get_script_content] *)
(* ===================================================================== *)

Lemma oserror_clause (e : exn) :
  isinstance e FileNotFoundError || isinstance e OSError = isinstance e OSError.
Proof. destruct e as [c m]. destruct c; reflexivity. Qed.

(** C8 (as amended): the uploaded file is tried first; a
    [FileNotFoundError] or any other [OSError] raised while reading it is
    swallowed and the inline text is used; an exception of another
    class is propagated; without a file the inline text is returned,
    and the empty string when there is none. *)
Theorem get_script_content_resolution (self : TaskDefinition.t) (w : World) :
  let inline := or_empty (TaskDefinition.script_content self) in
  (file_field_truthy (TaskDefinition.script_file self) = false ->
     get_script_content self w = (w, Ok inline))
  /\ (forall path,
        TaskDefinition.script_file self = Some path -> PyStr.truthy path = true ->
        get_script_content self w
        = (w, match open_read (services w) path with
              | Ok text => Ok text
              | Raise e => if isinstance e OSError then Ok inline else Raise e
              end))
  /\ (TaskDefinition.script_content self = None
      \/ TaskDefinition.script_content self = Some "" -> inline = "").
Proof.
  cbn zeta. split; [ | split ].
  - unfold file_field_truthy, get_script_content.
    destruct (TaskDefinition.script_file self) as [path | ]; [ | reflexivity ].
    intros ->. reflexivity.
  - intros path Hf Ht. unfold get_script_content. rewrite Hf, Ht.
    unfold Py.bind, Py.try_except, Py.ret, Py.raise.
    destruct (open_read (services w) path) as [text | e]; [ reflexivity | ].
    rewrite oserror_clause. destruct (isinstance e OSError); reflexivity.
  - intros [-> | ->]; reflexivity.
Qed.

Lemma get_script_content_resolution_witness :
  get_script_content sample.task_with_file (sample.world [])
  = (sample.world [], Ok "print('inline')").
Proof.
  apply (proj1 (proj2 (get_script_content_resolution sample.task_with_file (sample.world [])))
           "scripts/7/t9/job.py" eq_refl eq_refl).
Defined.

(** C8 (as stated) fails: a file that cannot be decoded makes
    [read()] raise [UnicodeDecodeError], which is not an [OSError]; it is
    propagated although inline text is present. *)
Lemma get_script_content_counterexample :
  let w := sample.world_of sample.undecodable_file [] in
  TaskDefinition.script_content sample.task_with_file = Some "print('inline')"
  /\ (exists e, open_read (services w) "scripts/7/t9/job.py" = Raise e
                /\ exn_cls e = UnicodeDecodeError)
  /\ returns (snd (get_script_content sample.task_with_file w)) = false.
Proof.
  split; [ reflexivity | ]. split; [ eexists; split; reflexivity | reflexivity ].
Qed.

(* ===================================================================== *)
(** * The dispatch cycle, [schedule_periodic_tasks] *)
(* ===================================================================== *)

Lemma calculate_state (task : TaskDefinition.t) (w : World) :
  fst (calculate_next_run_time task w) = tick w.
Proof.
  unfold calculate_next_run_time, Py.bind, timezone.now, Py.try_except, Py.lift, Py.ret, Py.raise.
  repeat match goal with
         | |- context [if ?c then _ else _] => destruct c
         | |- context [match ?x with Ok _ => _ | Raise _ => _ end] => destruct x
         end; reflexivity.
Qed.

(** Closes a case where [dispatch] stopped without touching the task table. *)
Ltac step_done := let H := fresh in intros H; injection H as <- <-; reflexivity.

Lemma dispatch_tasks (task : TaskDefinition.t) (w w' : World) (o : outcome unit) :
  dispatch task w = (w', o) ->
  match o with
  | Ok _ =>
      exists wm next,
        calculate_next_run_time task wm = (tick wm, Ok next)
        /\ tasks w' = map (reschedule (TaskDefinition.id task) next) (tasks w)
  | Raise _ => tasks w' = tasks w
  end.
Proof.
  unfold dispatch, objects.create_execution, objects.save_execution, objects.save_task,
    objects.update_execution_rows, objects.update_task_rows,
    uuid.uuid4, timezone.now, Py.bind, Py.ret, Py.raise, Py.modify.
  cbn [tasks executions draw_uuid tick set_executions set_tasks services].
  destruct (objects.find_execution _ _) eqn:Hfe.
  { step_done. }
  destruct (broker_delay _ _) as [rid | e] eqn:Hb.
  2:{ step_done. }
  cbn [tasks executions draw_uuid tick set_executions set_tasks services TaskExecution.id
         TaskExecution.set_celery_task_id objects.find_execution find].
  rewrite String.eqb_refl.
  match goal with
  | |- context [calculate_next_run_time task ?wm] =>
      pose proof (calculate_state task wm) as Hst;
      destruct (calculate_next_run_time task wm) as [w1 [next | e]] eqn:Hc
  end; cbn [fst] in Hst; subst w1.
  2:{ step_done. }
  cbn [tasks tick set_executions TaskDefinition.id TaskDefinition.set_next_run_at].
  destruct (objects.find_task _ _) eqn:Hft.
  2:{ step_done. }
  intros H; injection H as <- <-. eexists _, next. split; [ exact Hc | ]. reflexivity.
Qed.

Lemma reschedule_id k next r : TaskDefinition.id (reschedule k next r) = TaskDefinition.id r.
Proof. unfold reschedule. destruct (String.eqb _ _); reflexivity. Qed.

Lemma in_rescheduled_other k next r rows :
  TaskDefinition.id r <> k ->
  (In r (map (reschedule k next) rows) <-> In r rows).
Proof.
  intros Hne. rewrite in_map_iff. split.
  - intros (x & Hx & Hin). unfold reschedule in Hx.
    destruct (String.eqb (TaskDefinition.id x) k) eqn:E.
    + apply String.eqb_eq in E. subst r. cbn in Hne. congruence.
    + subst x. exact Hin.
  - intros Hin. exists r. split; [ | exact Hin ].
    unfold reschedule. apply String.eqb_neq in Hne. rewrite Hne. reflexivity.
Qed.

Lemma in_rescheduled_same k next r rows :
  In r (map (reschedule k next) rows) -> TaskDefinition.id r = k ->
  TaskDefinition.next_run_at r = next.
Proof.
  rewrite in_map_iff. intros (x & Hx & _) Hk. unfold reschedule in Hx.
  destruct (String.eqb (TaskDefinition.id x) k) eqn:E.
  - subst r. reflexivity.
  - subst x. apply String.eqb_neq in E. congruence.
Qed.

Lemma dispatch_other_rows task w w' o r :
  dispatch task w = (w', o) ->
  TaskDefinition.id r <> TaskDefinition.id task ->
  (In r (tasks w') <-> In r (tasks w)).
Proof.
  intros Hd Hne. apply dispatch_tasks in Hd. destruct o as [ [] | e ].
  - destruct Hd as (wm & next & _ & ->). apply in_rescheduled_other, Hne.
  - rewrite Hd. reflexivity.
Qed.

Lemma for_each_cons {S A} (x : A) (xs : list A) (body : A -> Py.M S unit) (s : S) :
  Py.for_each (x :: xs) body s
  = match body x s with
    | (s', Ok _) => Py.for_each xs body s'
    | (s', Raise e) => (s', Raise e)
    end.
Proof. reflexivity. Qed.

Lemma for_each_other_rows r (l : list TaskDefinition.t) : forall w w' o,
  Py.for_each l dispatch w = (w', o) ->
  (forall t, In t l -> TaskDefinition.id r <> TaskDefinition.id t) ->
  (In r (tasks w') <-> In r (tasks w)).
Proof.
  induction l as [ | a l IH ]; intros w w' o Hrun Hne.
  - injection Hrun as <- _. reflexivity.
  - rewrite for_each_cons in Hrun.
    destruct (dispatch a w) as [w1 [ [] | e ]] eqn:Ha.
    + rewrite (IH _ _ _ Hrun (fun t Ht => Hne t (or_intror Ht))).
      apply (dispatch_other_rows _ _ _ _ _ Ha), Hne. left. reflexivity.
    + injection Hrun as <- _.
      apply (dispatch_other_rows _ _ _ _ _ Ha), Hne. left. reflexivity.
Qed.

Lemma for_each_once_rows (l : list TaskDefinition.t) : forall w w' r,
  Py.for_each l dispatch w = (w', Ok tt) ->
  In r (tasks w') ->
  (exists t, In t l /\ TaskDefinition.id t = TaskDefinition.id r) ->
  (forall t, In t l -> TaskDefinition.id t = TaskDefinition.id r ->
             TaskDefinition.schedule_type t = "once") ->
  TaskDefinition.next_run_at r = None.
Proof.
  induction l as [ | a l IH ]; intros w w' r Hrun Hin Hex Honce.
  - destruct Hex as (t & [] & _).
  - rewrite for_each_cons in Hrun.
    destruct (dispatch a w) as [w1 [ [] | e ]] eqn:Ha; [ | discriminate ].
    destruct (existsb (fun t => String.eqb (TaskDefinition.id t) (TaskDefinition.id r)) l) eqn:E.
    + apply existsb_exists in E. destruct E as (t & Ht & Hk). apply String.eqb_eq in Hk.
      apply (IH _ _ _ Hrun Hin); [ eauto | ].
      intros t' Ht'. apply Honce. right. exact Ht'.
    + assert (forall t, In t l -> TaskDefinition.id r <> TaskDefinition.id t) as Hne.
      { intros t Ht Hk.
        assert (existsb (fun t => String.eqb (TaskDefinition.id t) (TaskDefinition.id r)) l = true);
          [ | congruence ].
        apply existsb_exists. exists t. split; [ exact Ht | ].
        apply String.eqb_eq. congruence. }
      destruct Hex as (t & [<- | Ht] & Hk); [ | exfalso; eapply Hne; eauto ].
      apply (for_each_other_rows _ _ _ _ _ Hrun Hne) in Hin.
      apply dispatch_tasks in Ha. destruct Ha as (wm & next & Hc & Hrows).
      rewrite Hrows in Hin.
      rewrite (calculate_once a wm (Honce a (or_introl eq_refl) Hk)) in Hc.
      injection Hc as <-.
      apply (in_rescheduled_same _ _ _ _ Hin). congruence.
Qed.

Lemma schedule_periodic_tasks_unfold (w : World) :
  schedule_periodic_tasks w
  = Py.for_each (List.filter (objects.is_due (now_of w)) (tasks w)) dispatch (tick w).
Proof. reflexivity. Qed.

Lemma for_each_app {S A} (xs ys : list A) (body : A -> Py.M S unit) : forall (s s1 : S),
  Py.for_each xs body s = (s1, Ok tt) ->
  Py.for_each (xs ++ ys) body s = Py.for_each ys body s1.
Proof.
  induction xs as [ | x xs IH ]; intros s s1 H.
  - injection H as <-. reflexivity.
  - rewrite <- app_comm_cons, for_each_cons. rewrite for_each_cons in H.
    destruct (body x s) as [s' [ [] | e ]]; [ | discriminate ].
    apply IH, H.
Qed.

Lemma primary_key_inj (rows : list TaskDefinition.t) (a b : TaskDefinition.t) :
  List.NoDup (map TaskDefinition.id rows) -> In a rows -> In b rows ->
  TaskDefinition.id a = TaskDefinition.id b -> a = b.
Proof.
  induction rows as [ | r rows IH ]; intros Hnd Ha Hb Hk; [ destruct Ha | ].
  cbn [map] in Hnd. apply List.NoDup_cons_iff in Hnd. destruct Hnd as [Hr Hnd].
  destruct Ha as [<- | Ha], Hb as [<- | Hb]; [ reflexivity | .. ].
  - exfalso. apply Hr. rewrite Hk. apply in_map, Hb.
  - exfalso. apply Hr. rewrite <- Hk. apply in_map, Ha.
  - apply IH; assumption.
Qed.

Lemma primary_key_split (rows pre rest : list TaskDefinition.t) (p : TaskDefinition.t -> bool) :
  List.NoDup (map TaskDefinition.id rows) ->
  List.filter p rows = (pre ++ rest)%list ->
  forall a b, In a pre -> In b rest -> TaskDefinition.id a <> TaskDefinition.id b.
Proof.
  revert pre. induction rows as [ | r rows IH ]; intros pre Hnd Hf a b Ha Hb.
  - cbn in Hf. symmetry in Hf. apply app_eq_nil in Hf. destruct Hf as [-> _]. destruct Ha.
  - cbn [map] in Hnd. apply List.NoDup_cons_iff in Hnd. destruct Hnd as [Hr Hnd].
    cbn [List.filter] in Hf. destruct (p r).
    + destruct pre as [ | x pre ]; [ destruct Ha | ].
      cbn in Hf. injection Hf as <- Hf.
      assert (In b rows) as Hbr.
      { assert (In b (List.filter p rows)) as Hb'
          by (rewrite Hf; apply in_or_app; right; exact Hb).
        apply filter_In in Hb'. apply Hb'. }
      destruct Ha as [<- | Ha].
      * intros Hk. apply Hr. rewrite Hk. apply in_map, Hbr.
      * apply (IH pre Hnd Hf a b Ha Hb).
    + apply (IH pre Hnd Hf a b Ha Hb).
Qed.

Lemma save_untouched (k : string) (f : TaskExecution.t -> TaskExecution.t)
    (rows : list TaskExecution.t) :
  objects.find_execution k rows = None ->
  map (fun r => if String.eqb (TaskExecution.id r) k then f r else r) rows = rows.
Proof.
  induction rows as [ | r rows IH ]; [ reflexivity | ].
  cbn [objects.find_execution find map]. destruct (String.eqb _ _); [ discriminate | ].
  intros H. f_equal. apply IH, H.
Qed.

Lemma dispatch_executions (task : TaskDefinition.t) (w w' : World) (o : outcome unit) :
  dispatch task w = (w', o) ->
  executions w' = executions w
  \/ exists x, executions w' = x :: executions w
               /\ TaskExecution.task_id x = TaskDefinition.id task.
Proof.
  unfold dispatch, objects.create_execution, objects.save_execution, objects.save_task,
    objects.update_execution_rows, objects.update_task_rows,
    uuid.uuid4, timezone.now, Py.bind, Py.ret, Py.raise, Py.modify.
  cbn [tasks executions draw_uuid tick set_executions set_tasks services].
  destruct (objects.find_execution _ _) eqn:Hfe.
  { intros H; injection H as <- _. left. reflexivity. }
  destruct (broker_delay _ _) as [rid | e] eqn:Hb.
  2:{ intros H; injection H as <- _. right. eexists. split; reflexivity. }
  cbn [tasks executions draw_uuid tick set_executions set_tasks services TaskExecution.id
         TaskExecution.set_celery_task_id objects.find_execution find].
  rewrite String.eqb_refl.
  change (find _ (executions w)) with
    (objects.find_execution (uuid_source (services w) (uuids_drawn w)) (executions w)) in Hfe.
  match goal with
  | |- context [calculate_next_run_time task ?wm] =>
      pose proof (calculate_state task wm) as Hst;
      destruct (calculate_next_run_time task wm) as [w1 [next | e]] eqn:Hc
  end; cbn [fst] in Hst; subst w1;
    cbn [tasks executions tick set_executions set_tasks map TaskExecution.id];
    rewrite String.eqb_refl, (save_untouched _ _ _ Hfe).
  2:{ intros H; injection H as <- _. right. eexists. split; reflexivity. }
  destruct (objects.find_task _ _);
    intros H; injection H as <- _; right; eexists; split; reflexivity.
Qed.

(** When the broker refuses the message, [dispatch] stops there: the
    pending row stays, the task row is not touched. *)
Lemma dispatch_broker_fault (task : TaskDefinition.t) (w : World) (e : exn) :
  objects.find_execution (uuid_source (services w) (uuids_drawn w)) (executions w) = None ->
  broker_delay (services w) (uuid_source (services w) (uuids_drawn w)) = Raise e ->
  dispatch task w
  = (set_executions (pending_row task w :: executions w) (tick (draw_uuid w)), Raise e).
Proof.
  intros Hfe Hb.
  unfold dispatch, objects.create_execution, uuid.uuid4, timezone.now,
    Py.bind, Py.ret, Py.raise, Py.modify.
  cbn [tasks executions draw_uuid tick set_executions set_tasks services].
  rewrite Hfe. cbn [services set_executions tick draw_uuid TaskExecution.id].
  rewrite Hb. reflexivity.
Qed.

Lemma for_each_executions (l : list TaskDefinition.t) : forall w w' o,
  Py.for_each l dispatch w = (w', o) ->
  exists new, executions w' = (new ++ executions w)%list
              /\ forall x, In x new -> In (TaskExecution.task_id x) (map TaskDefinition.id l).
Proof.
  induction l as [ | a l IH ]; intros w w' o Hrun.
  - injection Hrun as <- _. exists []. split; [ reflexivity | intros x [] ].
  - rewrite for_each_cons in Hrun.
    destruct (dispatch a w) as [w1 [ [] | e ]] eqn:Ha.
    + destruct (IH _ _ _ Hrun) as (new & Hnew & Hown).
      destruct (dispatch_executions _ _ _ _ Ha) as [Hx | (x & Hx & Hk)]; rewrite Hx in Hnew.
      * exists new. split; [ exact Hnew | ]. intros y Hy. right. apply Hown, Hy.
      * exists (new ++ [x])%list. split; [ rewrite <- app_assoc; exact Hnew | ].
        intros y Hy. apply in_app_or in Hy. destruct Hy as [Hy | [<- | []]].
        -- right. apply Hown, Hy.
        -- left. symmetry. exact Hk.
    + injection Hrun as <- _.
      destruct (dispatch_executions _ _ _ _ Ha) as [Hx | (x & Hx & Hk)].
      * exists []. split; [ exact Hx | intros y [] ].
      * exists [x]. split; [ exact Hx | ]. intros y [<- | []]. left. symmetry. exact Hk.
Qed.

(** The cycle stops at the first message the broker refuses.  The
    state it leaves is the one reached after the tasks before the
    failing one, plus the pending row just inserted for the failing
    task; the task table is the one those earlier tasks left, so the
    [next_run_at] of the failing task is not advanced; the tasks after
    it are not dispatched: their rows are untouched, they are still
    due, and no execution was created for them. *)
Lemma cycle_stops_at_the_first_refusal
    (w w1 : World) (pre post : list TaskDefinition.t) (t : TaskDefinition.t) (e : exn) :
  List.NoDup (map TaskDefinition.id (tasks w)) ->
  List.filter (objects.is_due (now_of w)) (tasks w) = (pre ++ t :: post)%list ->
  Py.for_each pre dispatch (tick w) = (w1, Ok tt) ->
  objects.find_execution (uuid_source (services w1) (uuids_drawn w1)) (executions w1) = None ->
  broker_delay (services w1) (uuid_source (services w1) (uuids_drawn w1)) = Raise e ->
  exists w2,
    schedule_periodic_tasks w = (w2, Raise e)
    /\ executions w2 = pending_row t w1 :: executions w1
    /\ tasks w2 = tasks w1
    /\ (forall r, In r (t :: post) ->
          In r (tasks w2) /\ objects.is_due (now_of w) r = true)
    /\ (forall r x, In r post -> In x (executions w2) ->
          TaskExecution.task_id x = TaskDefinition.id r -> In x (executions w)).
Proof.
  intros Hpk Hdue Hpre Hfresh Hfault.
  exists (set_executions (pending_row t w1 :: executions w1) (tick (draw_uuid w1))).
  split; [ | split; [ reflexivity | split; [ reflexivity | split ] ] ].
  - rewrite schedule_periodic_tasks_unfold, Hdue, (for_each_app _ _ _ _ _ Hpre), for_each_cons.
    rewrite (dispatch_broker_fault t w1 e Hfresh Hfault). reflexivity.
  - intros r Hr.
    assert (In r (List.filter (objects.is_due (now_of w)) (tasks w))) as Hin
      by (rewrite Hdue; apply in_or_app; right; exact Hr).
    apply filter_In in Hin. destruct Hin as [Hin Hd]. split; [ | exact Hd ].
    cbn [tasks set_executions tick draw_uuid].
    apply (for_each_other_rows r _ _ _ _ Hpre); [ | exact Hin ].
    intros t' Ht' Hk. apply (primary_key_split _ _ _ _ Hpk Hdue t' r Ht' Hr). congruence.
  - intros r x Hr Hx Hk. cbn [executions set_executions] in Hx.
    assert (List.filter (objects.is_due (now_of w)) (tasks w)
            = ((pre ++ [t]) ++ post)%list) as Hdue'
      by (rewrite <- app_assoc; exact Hdue).
    pose proof (primary_key_split _ _ _ _ Hpk Hdue') as Hsplit.
    destruct Hx as [<- | Hx].
    + exfalso. apply (Hsplit t r); [ apply in_or_app; right; left; reflexivity | exact Hr | ].
      exact Hk.
    + destruct (for_each_executions _ _ _ _ Hpre) as (new & Hnew & Hown).
      rewrite Hnew in Hx. apply in_app_or in Hx. destruct Hx as [Hx | Hx]; [ | exact Hx ].
      exfalso. apply Hown in Hx. apply in_map_iff in Hx. destruct Hx as (t' & Hk' & Ht').
      apply (Hsplit t' r); [ apply in_or_app; left; exact Ht' | exact Hr | congruence ].
Qed.

(** C2: three active tasks are due and the broker refuses the second
    message.  [schedule_periodic_tasks] ends with the broker's
    exception: the first task was dispatched and rescheduled, the
    second keeps its pending row without a broker id and its
    [next_run_at], and the third, also due, is not dispatched at all
    (no execution, row unchanged, still due), where the claim has it
    dispatched in the same cycle.  [task_execute_view] makes the same
    [.delay()] call inside [try ... except Exception]: there the
    refusal is caught, recorded on the execution and on the counters of
    the task, and the request is answered. *)
Theorem submission_failure_ends_the_cycle :
  let fault := MkExn OperationalError "broker unreachable" in
  let brief := fun x => (TaskExecution.task_id x, TaskExecution.status x,
                         TaskExecution.celery_task_id x, TaskExecution.error_output x) in
  let schedule := fun r => (TaskDefinition.id r, TaskDefinition.next_run_at r) in
  (* the periodic cycle *)
  let w := sample.world_of (sample.faulty_broker "exec-1") sample.three_due in
  let w' := fst (schedule_periodic_tasks w) in
  (* the manual execution of the second task, by its owner *)
  let s := three_due_site (sample.faulty_broker "exec-0") in
  let request := request_of (Some "alice") "POST" true in
  let s' := fst (task_execute_view request "t2" s) in
  map TaskDefinition.id (List.filter (objects.is_due (now_of w)) (tasks w))
  = ["t1"; "t2"; "t3"]
  /\ map (broker_delay (services w)) ["exec-0"; "exec-1"; "exec-2"]
     = [Ok "celery-exec-0"; Raise fault; Ok "celery-exec-2"]
  /\ snd (schedule_periodic_tasks w) = Raise fault
  /\ map brief (executions w')
     = [("t2", "pending", "", ""); ("t1", "pending", "celery-exec-0", "")]
  /\ map schedule (tasks w)
     = [("t1", Some (sample.saturday_noon - 1 * datetime.us_per_second));
        ("t2", Some (sample.saturday_noon - 1 * datetime.us_per_second));
        ("t3", Some (sample.saturday_noon - 1 * datetime.us_per_second))]
  /\ map schedule (tasks w')
     = [("t1", Some (sample.saturday_noon + 60 * datetime.us_per_second));
        ("t2", Some (sample.saturday_noon - 1 * datetime.us_per_second));
        ("t3", Some (sample.saturday_noon - 1 * datetime.us_per_second))]
  /\ In (sample.task "t3" "once" "") (tasks w')
  /\ map TaskDefinition.id (List.filter (objects.is_due (now_of w)) (tasks w'))
     = ["t2"; "t3"]
  /\ tasks (db s) = tasks w
  /\ snd (task_execute_view request "t2" s) = Ok (Redirect "tasks:detail" (Some "t2"))
  /\ map brief (executions (db s')) = [("t2", "failure", "", "broker unreachable")]
  /\ map (fun r => (TaskDefinition.id r, TaskDefinition.total_runs r,
                    TaskDefinition.failed_runs r)) (tasks (db s'))
     = [("t1", 0, 0); ("t2", 1, 1); ("t3", 0, 0)]
  /\ flashed s' = [("error", "Failed to queue task: broker unreachable")].
Proof. vm_compute. repeat split. right. right. left. reflexivity. Qed.

Lemma null_is_never_due (now : datetime.datetime) (row : TaskDefinition.t) :
  TaskDefinition.next_run_at row = None -> objects.is_due now row = false.
Proof. intros H. unfold objects.is_due. rewrite H. apply andb_false_r. Qed.

(** C5: for a task scheduled once the evaluator returns [None] at
    every clock reading; a row whose [next_run_at] is NULL is never
    selected by the due-task query; so after a cycle that dispatched a
    one-off task, its row is not due at any later time. *)
Theorem once_task_never_refires (task : TaskDefinition.t) (w w' : World) :
  TaskDefinition.schedule_type task = "once" ->
  (forall w0, calculate_next_run_time task w0 = (tick w0, Ok None))
  /\ (forall now row, TaskDefinition.next_run_at row = None ->
                      objects.is_due now row = false)
  /\ (List.NoDup (map TaskDefinition.id (tasks w)) ->
      In task (tasks w) ->
      objects.is_due (now_of w) task = true ->
      schedule_periodic_tasks w = (w', Ok tt) ->
      forall row now', In row (tasks w') ->
        TaskDefinition.id row = TaskDefinition.id task ->
        TaskDefinition.next_run_at row = None /\ objects.is_due now' row = false).
Proof.
  intros Honce. split; [ | split ].
  - intros w0. apply calculate_once, Honce.
  - apply null_is_never_due.
  - intros Hpk Hin Hdue Hrun row now' Hrow Hk.
    assert (TaskDefinition.next_run_at row = None) as Hnull.
    { rewrite schedule_periodic_tasks_unfold in Hrun.
      apply (for_each_once_rows _ _ _ _ Hrun Hrow).
      - exists task. split; [ apply filter_In; split; assumption | congruence ].
      - intros t Ht Hkt. apply filter_In in Ht. destruct Ht as [Ht _].
        rewrite (primary_key_inj _ t task Hpk Ht Hin); [ exact Honce | congruence ]. }
    split; [ exact Hnull | apply null_is_never_due, Hnull ].
Qed.

Lemma once_task_never_refires_witness :
  let task := sample.task "t3" "once" "" in
  let w := sample.world sample.three_due in
  let w' := fst (schedule_periodic_tasks w) in
  let row := TaskDefinition.set_next_run_at None task in
  let later := sample.saturday_noon + 86400 * datetime.us_per_second in
  objects.is_due (now_of w) task = true
  /\ In row (tasks w')
  /\ TaskDefinition.next_run_at row = None /\ objects.is_due later row = false.
Proof.
  intros task w w' row later.
  split; [ vm_compute; reflexivity | ].
  assert (In row (tasks w')) as Hrow by (vm_compute; right; right; left; reflexivity).
  split; [ exact Hrow | ].
  apply (proj2 (proj2 (once_task_never_refires task w w' eq_refl))).
  - vm_compute. repeat constructor; cbn; intuition discriminate.
  - right; right; left; reflexivity.
  - vm_compute; reflexivity.
  - vm_compute; reflexivity.
  - exact Hrow.
  - reflexivity.
Defined.

(* ===================================================================== *)
(** * The cron validator, [_validate_cron_expression] *)
(* ===================================================================== *)

Lemma validate_parts_spec (parts : list string) : forall i : nat,
  validate_parts i parts = true
  <-> forall j part, nth_error parts j = Some part -> field_ok (i + j) part.
Proof.
  induction parts as [ | part rest IH ]; intros i.
  - split; [ intros _ j p Hj; destruct j; discriminate | reflexivity ].
  - cbn [validate_parts].
    change (PyStr.contains "," part || PyStr.contains "-" part || PyStr.contains "/" part)
      with (has_list_syntax part).
    split.
    + intros H j p Hj. destruct j as [ | j ].
      * injection Hj as <-. rewrite Nat.add_0_r. unfold field_ok.
        destruct (has_list_syntax part); [ left; reflexivity | right ].
        destruct (nth_error patterns.patterns i) as [pattern | ]; [ | discriminate ].
        exists pattern. split; [ reflexivity | ].
        destruct (re.matches pattern part); [ reflexivity | discriminate ].
      * replace (i + S j)%nat with (S i + j)%nat by lia.
        apply (proj1 (IH (S i))); [ | exact Hj ].
        destruct (has_list_syntax part); [ exact H | ].
        destruct (nth_error patterns.patterns i) as [pattern | ]; [ | discriminate ].
        destruct (re.matches pattern part); [ exact H | discriminate ].
    + intros H.
      assert (validate_parts (S i) rest = true) as Hrest.
      { apply IH. intros j p Hj.
        replace (S i + j)%nat with (i + S j)%nat by lia. apply H. exact Hj. }
      destruct (has_list_syntax part) eqn:Hsyn; [ exact Hrest | ].
      destruct (H 0%nat part eq_refl) as [Hl | (pattern & Hp & Hm)]; [ congruence | ].
      rewrite Nat.add_0_r in Hp. rewrite Hp, Hm. exact Hrest.
Qed.

Lemma month_accepts_0_to_19 (n : Z) :
  0 <= n <= 19 -> re.matches patterns.month (PyStr.str_of_int n) = true.
Proof.
  intros Hn. destruct n as [ | p | p ]; [ reflexivity | | lia ].
  do 5 (try (destruct p as [ p | p | ]; try lia; try reflexivity)).
Qed.

(** C9: the validator accepts exactly the strings with five
    whitespace-separated fields, each of which has list, range or step
    syntax (no bounds are checked then) or matches the pattern of its
    position; a plain month number is accepted for every value from 0
    to 19, and 20 is the first one refused. *)
Theorem validate_cron_expression_accepts (cron_expr : string) :
  (_validate_cron_expression cron_expr = true
   <-> List.length (cron_fields cron_expr) = 5%nat
       /\ forall i part, nth_error (cron_fields cron_expr) i = Some part -> field_ok i part)
  /\ (forall n : Z, 0 <= n <= 19 ->
        re.matches patterns.month (PyStr.str_of_int n) = true
        /\ _validate_cron_expression ("* * * " +:+ PyStr.str_of_int n +:+ " *") = true)
  /\ _validate_cron_expression "* * * 20 *" = false
  /\ _validate_cron_expression "99-99 x/y ,, 1-1 -" = true.
Proof.
  split; [ | split; [ | split; reflexivity ] ].
  - unfold _validate_cron_expression. fold (cron_fields cron_expr).
    destruct (Nat.eqb (List.length (cron_fields cron_expr)) 5) eqn:Hlen; cbn [negb].
    + apply Nat.eqb_eq in Hlen. rewrite validate_parts_spec. cbn [Nat.add]. tauto.
    + apply Nat.eqb_neq in Hlen. split; [ discriminate | tauto ].
  - intros n Hn. split; [ apply month_accepts_0_to_19, Hn | ].
    destruct n as [ | p | p ]; [ reflexivity | | lia ].
    do 5 (try (destruct p as [ p | p | ]; try lia; try reflexivity)).
Qed.

Lemma validate_cron_expression_accepts_witness :
  re.matches patterns.month (PyStr.str_of_int 13) = true
  /\ _validate_cron_expression ("* * * " +:+ PyStr.str_of_int 13 +:+ " *") = true.
Proof.
  apply (proj1 (proj2 (validate_cron_expression_accepts "")) 13). lia.
Defined.

(* ===================================================================== *)
(** * The completion of an execution, [mark_started] and [mark_completed] *)
(* ===================================================================== *)

Lemma mark_started_run (fr : Frame) :
  mark_started fr
  = let w := world fr in
    let this := started_object (now_of w) (self fr) in
    match objects.find_execution (TaskExecution.id this) (executions w) with
    | None =>
        ({| world := tick w; self := this; self_task := self_task fr |},
         Raise objects.no_rows)
    | Some _ =>
        ({| world := set_executions
                       (objects.update_execution_rows this objects.fields_started
                          (executions w)) (tick w);
            self := this; self_task := self_task fr |}, Ok tt)
    end.
Proof.
  destruct fr as [w e t].
  unfold mark_started, update_self, in_world, timezone.now, objects.save_execution,
    Py.bind, Py.modify.
  cbn [world self self_task executions tick].
  destruct (objects.find_execution _ _); reflexivity.
Qed.

Lemma mark_completed_run (status output error_output : string) (exit_code : option Z)
    (fr : Frame) :
  mark_completed status output error_output exit_code fr
  = let w := world fr in
    let this := completed_object (now_of w) status output error_output exit_code (self fr) in
    match objects.find_execution (TaskExecution.id this) (executions w) with
    | None =>
        ({| world := tick w; self := this; self_task := self_task fr |},
         Raise objects.no_rows)
    | Some _ =>
        let w1 := set_executions
                    (objects.update_execution_rows this objects.fields_completed
                       (executions w)) (tick w) in
        let t' := counted_task (now_of w) status (self_task fr) in
        match objects.find_task (TaskDefinition.id t') (tasks w1) with
        | None => ({| world := w1; self := this; self_task := t' |}, Raise objects.no_rows)
        | Some _ =>
            ({| world := set_tasks
                           (objects.update_task_rows t' objects.fields_statistics (tasks w1)) w1;
                self := this; self_task := t' |}, Ok tt)
        end
    end.
Proof.
  destruct fr as [w e t].
  unfold mark_completed, update_self, update_self_task, in_world, timezone.now,
    objects.save_execution, objects.save_task, Py.bind, Py.modify, completed_object,
    counted_task.
  cbn [world self self_task executions tasks tick set_executions].
  destruct e as [k tk st cid started ? ? ? ? ? ?].
  destruct started;
    cbn -[objects.find_task objects.find_execution objects.update_task_rows
          objects.update_execution_rows total_seconds String.eqb];
    (destruct (objects.find_execution _ _); [ | reflexivity ]);
    (destruct (String.eqb status "success");
     cbn -[objects.find_task objects.find_execution objects.update_task_rows
           objects.update_execution_rows total_seconds String.eqb];
     destruct (objects.find_task _ _); reflexivity).
Qed.

(** ** Rules for [keeps] *)
Section Keeps.
Context {S : Type} (I : S -> Prop).

Lemma keeps_ret {A} (a : A) : keeps I (Py.ret a).
Proof. intros s Hs. exact Hs. Qed.

Lemma keeps_raise {A} (e : exn) : keeps I (@Py.raise S A e).
Proof. intros s Hs. exact Hs. Qed.

Lemma keeps_read {A} (f : S -> outcome A) : keeps I (fun s => (s, f s)).
Proof. intros s Hs. destruct (f s); exact Hs. Qed.

Lemma keeps_bind {A B} (m : Py.M S A) (k : A -> Py.M S B) :
  keeps I m -> (forall a, keeps I (k a)) -> keeps I (Py.bind m k).
Proof.
  intros Hm Hk s Hs. unfold Py.bind. specialize (Hm s Hs).
  destruct (m s) as [s' [a | e]]; [ apply (Hk a s' Hm) | exact Hm ].
Qed.

Lemma keeps_try_except {A} (body : Py.M S A) (handler : exn -> Py.M S A) :
  keeps I body -> (forall e, keeps I (handler e)) -> keeps I (Py.try_except body handler).
Proof.
  intros Hm Hh s Hs. unfold Py.try_except. specialize (Hm s Hs).
  destruct (body s) as [s' [a | e]]; [ exact Hm | apply (Hh e s' Hm) ].
Qed.

Lemma keeps_try_finally {A} (body : Py.M S A) (cleanup : Py.M S unit) :
  keeps I body -> keeps I cleanup -> keeps I (Py.try_finally body cleanup).
Proof.
  intros Hm Hc s Hs. unfold Py.try_finally. specialize (Hm s Hs).
  destruct (body s) as [s' o].
  assert (I s') as Hs' by (destruct o; exact Hm).
  specialize (Hc s' Hs'). destruct (cleanup s') as [s'' [ [] | e ]]; [ | exact Hc ].
  destruct o; exact Hc.
Qed.

Lemma keeps_fst {A} (m : Py.M S A) (s : S) : keeps I m -> I s -> I (fst (m s)).
Proof. intros Hm Hs. specialize (Hm s Hs). destruct (m s) as [s' [a | e]]; exact Hm. Qed.

End Keeps.

Lemma counted_task_consistent now status t :
  consistent t -> consistent (counted_task now status t).
Proof.
  unfold consistent, counted_task. intros H.
  destruct (String.eqb status "success"); cbn; lia.
Qed.

Lemma in_updated_tasks obj row rows :
  In row (objects.update_task_rows obj objects.fields_statistics rows) ->
  In row rows \/ exists r, row = objects.fields_statistics obj r.
Proof.
  unfold objects.update_task_rows. rewrite in_map_iff. intros (r & Hr & Hin).
  destruct (String.eqb _ _); [ right; exists r; congruence | left; congruence ].
Qed.

Lemma keeps_mark_started : keeps frame_consistent mark_started.
Proof.
  intros fr [Hw Ht]. rewrite mark_started_run. cbn zeta.
  destruct (objects.find_execution _ _); split; assumption.
Qed.

Lemma keeps_mark_completed status output error_output exit_code :
  keeps frame_consistent (mark_completed status output error_output exit_code).
Proof.
  intros fr [Hw Ht]. rewrite mark_completed_run. cbn zeta.
  pose proof (counted_task_consistent (now_of (world fr)) status _ Ht) as Ht'.
  destruct (objects.find_execution _ _); [ | split; assumption ].
  destruct (objects.find_task _ _); (split; [ | exact Ht' ]).
  - intros row Hrow. cbn [world tasks set_tasks set_executions tick] in Hrow.
    apply in_updated_tasks in Hrow. destruct Hrow as [Hrow | (r & ->)].
    + apply Hw, Hrow.
    + exact Ht'.
  - exact Hw.
Qed.

Lemma keeps_in_world {A} (I : Frame -> Prop) (m : Py.M World A) :
  (forall w, fst (m w) = w) -> keeps I (in_world m).
Proof.
  intros Hm fr Hfr. unfold in_world. specialize (Hm (world fr)).
  destruct (m (world fr)) as [w' o]. cbn [fst] in Hm. subst w'.
  destruct fr; destruct o; exact Hfr.
Qed.

Lemma get_script_content_run (t : TaskDefinition.t) (w : World) :
  get_script_content t w = (w, resolve_script (services w) t).
Proof.
  unfold get_script_content, resolve_script.
  destruct (TaskDefinition.script_file t) as [path | ]; [ | reflexivity ].
  destruct (PyStr.truthy path); [ | reflexivity ].
  unfold Py.bind, Py.try_except, Py.ret, Py.raise.
  destruct (open_read (services w) path) as [text | e]; [ reflexivity | ].
  rewrite oserror_clause. destruct (isinstance e OSError); reflexivity.
Qed.

Ltac keeps_step :=
  match goal with
  | |- keeps _ (if ?c then _ else _) => destruct c
  | |- keeps _ (let _ := _ in _) => cbv zeta
  | |- keeps _ (Py.ret _) => apply keeps_ret
  | |- keeps _ (Py.raise _) => apply keeps_raise
  | |- keeps _ mark_started => apply keeps_mark_started
  | |- keeps _ (mark_completed _ _ _ _) => apply keeps_mark_completed
  | |- keeps _ (Py.bind _ _) => apply keeps_bind; [ | intros ? ]
  | |- keeps _ (Py.try_except _ _) => apply keeps_try_except; [ | intros ? ]
  | |- keeps _ (Py.try_finally _ _) => apply keeps_try_finally
  | |- keeps _ (in_world (get_script_content _)) =>
      apply keeps_in_world; intros ?; rewrite get_script_content_run; reflexivity
  | |- keeps _ (launch _ _ _) => unfold launch
  | |- keeps _ (on_launch_error _) => unfold on_launch_error
  | |- keeps _ (cleanup _) => unfold cleanup
  | |- keeps _ (on_error _ _) => unfold on_error
  | |- keeps _ (fun s => (s, @?f s)) => apply (keeps_read _ f)
  end.

Lemma keeps_execute_python_script (execution_id : string) :
  keeps stats_consistent (execute_python_script execution_id).
Proof.
  unfold execute_python_script.
  apply keeps_try_except; [ | intros e; repeat keeps_step ].
  intros w Hw. unfold Py.bind at 1. unfold objects.get_execution at 1.
  destruct (objects.find_execution execution_id (executions w)) as [execution | ]; [ | exact Hw ].
  unfold Py.bind at 1. unfold objects.get_task at 1.
  destruct (objects.find_task (TaskExecution.task_id execution) (tasks w)) as [task | ] eqn:Hft;
    [ | exact Hw ].
  assert (consistent task) as Ht.
  { apply Hw. unfold objects.find_task in Hft. apply find_some in Hft. apply Hft. }
  unfold with_objects.
  match goal with
  | |- context [?m {| world := w; self := execution; self_task := task |}] =>
      assert (keeps frame_consistent m) as Hk
  end.
  { repeat keeps_step. }
  specialize (Hk {| world := w; self := execution; self_task := task |} (conj Hw Ht)).
  match goal with
  | H : match ?x with _ => _ end |- _ => destruct x as [fr [d | e]]
  end; apply Hk.
Qed.

Lemma run_worker_consistent (ids : list string) : forall w,
  stats_consistent w -> stats_consistent (run_worker ids w).
Proof.
  unfold run_worker. induction ids as [ | k ids IH ]; intros w Hw; [ exact Hw | ].
  cbn [fold_left]. apply IH. apply keeps_fst; [ apply keeps_execute_python_script | exact Hw ].
Qed.

Lemma find_execution_id k rows e :
  objects.find_execution k rows = Some e -> TaskExecution.id e = k.
Proof.
  unfold objects.find_execution. intros H. apply find_some in H.
  apply String.eqb_eq, H.
Qed.

Lemma find_task_id k rows t :
  objects.find_task k rows = Some t -> TaskDefinition.id t = k.
Proof.
  unfold objects.find_task. intros H. apply find_some in H.
  apply String.eqb_eq, H.
Qed.

Lemma find_execution_updated obj copy rows r :
  (forall o x, TaskExecution.id (copy o x) = TaskExecution.id x) ->
  objects.find_execution (TaskExecution.id obj) rows = Some r ->
  objects.find_execution (TaskExecution.id obj) (objects.update_execution_rows obj copy rows)
  = Some (copy obj r).
Proof.
  intros Hid. unfold objects.find_execution, objects.update_execution_rows.
  induction rows as [ | a rows IH ]; [ discriminate | ].
  cbn [find map]. destruct (String.eqb (TaskExecution.id a) (TaskExecution.id obj)) eqn:E.
  - intros [= <-]. rewrite Hid, E. reflexivity.
  - rewrite E. exact IH.
Qed.

Lemma find_task_updated obj copy rows r :
  (forall o x, TaskDefinition.id (copy o x) = TaskDefinition.id x) ->
  objects.find_task (TaskDefinition.id obj) rows = Some r ->
  objects.find_task (TaskDefinition.id obj) (objects.update_task_rows obj copy rows)
  = Some (copy obj r).
Proof.
  intros Hid. unfold objects.find_task, objects.update_task_rows.
  induction rows as [ | a rows IH ]; [ discriminate | ].
  cbn [find map]. destruct (String.eqb (TaskDefinition.id a) (TaskDefinition.id obj)) eqn:E.
  - intros [= <-]. rewrite Hid, E. reflexivity.
  - rewrite E. exact IH.
Qed.

Lemma isinstance_exception (e : exn) : isinstance e Exception = true.
Proof. destruct e as [c m]. destruct c; reflexivity. Qed.

Lemma on_error_run (k : string) (e : exn) (w : World) :
  on_error k e w = (w, Ok (error_dict k e)).
Proof.
  unfold on_error, error_dict, failure_dict. rewrite isinstance_exception.
  destruct (isinstance e TaskExecution_DoesNotExist); reflexivity.
Qed.

Lemma cleanup_run (path : string) (fr : Frame) :
  cleanup path fr
  = (fr, match os_unlink (services (world fr)) path with
         | Ok _ => Ok tt
         | Raise e => if isinstance e OSError then Ok tt else Raise e
         end).
Proof.
  unfold cleanup, Py.try_except, Py.ret, Py.raise.
  destruct (os_unlink _ _) as [ [] | e ]; [ reflexivity | ].
  destruct (isinstance e OSError); reflexivity.
Qed.

Section Worker.

Variable k : string.
Variable w : World.
Variable e : TaskExecution.t.
Variable t : TaskDefinition.t.
Hypothesis Hfe : objects.find_execution k (executions w) = Some e.
Hypothesis Hft : objects.find_task (TaskExecution.task_id e) (tasks w) = Some t.

Let e1 := started_object (now_of w) e.
Let w1 := started_world w e.
Let fr1 := {| world := w1; self := e1; self_task := t |}.

Lemma started_row :
  objects.find_execution (TaskExecution.id (started_object (now_of w) e)) (executions w)
  = Some e.
Proof.
  change (TaskExecution.id (started_object (now_of w) e)) with (TaskExecution.id e).
  rewrite (find_execution_id _ _ _ Hfe). exact Hfe.
Qed.

Lemma worker_no_content (content : string) :
  resolve_script (services w) t = Ok content ->
  PyStr.truthy content = false ->
  execute_python_script k w
  = (w1, Ok (failure_dict "Unexpected error: No script content found")).
Proof.
  intros Hres Hempty.
  unfold execute_python_script. unfold Py.try_except at 1.
  unfold Py.bind at 1. unfold objects.get_execution at 1. rewrite Hfe.
  unfold Py.bind at 1. unfold objects.get_task at 1. rewrite Hft.
  unfold with_objects.
  unfold Py.bind at 1. rewrite mark_started_run. cbv zeta. cbn [world self self_task].
  rewrite started_row. fold (started_world w e). fold e1 w1.
  unfold Py.bind at 1. cbv beta. cbn [self_task].
  unfold Py.bind at 1. unfold in_world at 1. cbn [world]. rewrite get_script_content_run.
  change (services w1) with (services w). rewrite Hres, Hempty. cbn [negb].
  unfold Py.raise. cbn [world]. reflexivity.
Qed.

Variable content path : string.
Hypothesis Hres : resolve_script (services w) t = Ok content.
Hypothesis Hfull : PyStr.truthy content = true.

Lemma worker_no_tempfile (ex : exn) :
  tmp_create (services w) content = Raise ex ->
  execute_python_script k w = (w1, Ok (error_dict k ex)).
Proof.
  intros Htmp.
  unfold execute_python_script. unfold Py.try_except at 1.
  unfold Py.bind at 1. unfold objects.get_execution at 1. rewrite Hfe.
  unfold Py.bind at 1. unfold objects.get_task at 1. rewrite Hft.
  unfold with_objects.
  unfold Py.bind at 1. rewrite mark_started_run. cbv zeta. cbn [world self self_task].
  rewrite started_row. fold (started_world w e). fold e1 w1.
  unfold Py.bind at 1. cbv beta. cbn [self_task].
  unfold Py.bind at 1. unfold in_world at 1. cbn [world]. rewrite get_script_content_run.
  change (services w1) with (services w). rewrite Hres, Hfull. cbn [negb].
  cbv zeta. unfold Py.bind at 1. cbn [world]. change (services w1) with (services w).
  rewrite Htmp. apply on_error_run.
Qed.

Hypothesis Htmp : tmp_create (services w) content = Ok path.

(** After [mark_started] and a non-empty script, the worker is at the
    [try]/[finally] around the launch. *)
Lemma worker_launch :
  execute_python_script k w
  = Py.try_except
      (fun _ =>
         let '(fr, o) :=
           Py.try_finally
             (Py.try_except (launch t path (get_environment_dict t)) on_launch_error)
             (cleanup path) fr1 in
         (world fr, o))
      (on_error k) w.
Proof.
  unfold execute_python_script. unfold Py.try_except at 1 3.
  unfold Py.bind at 1. unfold objects.get_execution at 1. rewrite Hfe.
  unfold Py.bind at 1. unfold objects.get_task at 1. rewrite Hft.
  unfold with_objects.
  unfold Py.bind at 1. rewrite mark_started_run. cbv zeta. cbn [world self self_task].
  rewrite started_row. fold (started_world w e). fold e1 w1.
  unfold Py.bind at 1. cbv beta. cbn [self_task].
  unfold Py.bind at 1. unfold in_world at 1. cbn [world]. rewrite get_script_content_run.
  change (services w1) with (services w). rewrite Hres, Hfull. cbn [negb].
  cbv zeta. unfold Py.bind at 1. cbn [world]. change (services w1) with (services w).
  rewrite Htmp. reflexivity.
Qed.

Lemma worker_mark_completed status output error_output exit_code :
  mark_completed status output error_output exit_code fr1
  = ({| world := completed_world w1 e1 t status output error_output exit_code;
        self := completed_object (now_of w1) status output error_output exit_code e1;
        self_task := counted_task (now_of w1) status t |}, Ok tt).
Proof.
  rewrite mark_completed_run. cbv zeta. cbn [world self self_task fr1].
  assert (objects.find_execution
            (TaskExecution.id
               (completed_object (now_of w1) status output error_output exit_code e1))
            (executions w1) = Some (objects.fields_started e1 e)) as ->.
  { change (TaskExecution.id (completed_object _ _ _ _ _ e1)) with (TaskExecution.id e1).
    apply find_execution_updated; [ reflexivity | apply started_row ]. }
  assert (objects.find_task (TaskDefinition.id (counted_task (now_of w1) status t)) (tasks w)
          = Some t) as Hrow.
  { replace (TaskDefinition.id (counted_task (now_of w1) status t)) with (TaskDefinition.id t)
      by (unfold counted_task; destruct (String.eqb status "success"); reflexivity).
    rewrite (find_task_id _ _ _ Hft). exact Hft. }
  cbn [tasks set_executions tick]. change (tasks w1) with (tasks w). rewrite Hrow.
  reflexivity.
Qed.

(** The launch block ended with [mark_completed] and the dict [d]. *)
Lemma worker_finish status output error_output exit_code (d : gmap string pyval) :
  Py.try_except (launch t path (get_environment_dict t)) on_launch_error fr1
  = ({| world := completed_world w1 e1 t status output error_output exit_code;
        self := completed_object (now_of w1) status output error_output exit_code e1;
        self_task := counted_task (now_of w1) status t |}, Ok d) ->
  execute_python_script k w
  = (completed_world w1 e1 t status output error_output exit_code,
     Ok (after_cleanup (services w) k path d)).
Proof.
  intros Hl. rewrite worker_launch. unfold Py.try_except at 1, Py.try_finally.
  rewrite Hl, cleanup_run. cbn [world].
  change (services (completed_world _ _ _ _ _ _ _)) with (services w).
  unfold after_cleanup. destruct (os_unlink (services w) path) as [ [] | e' ]; [ reflexivity | ].
  destruct (isinstance e' OSError); [ reflexivity | apply on_error_run ].
Qed.

Let exec_env := get_environment_dict t ∪ os_environ (services w).

Lemma worker_timeout (ex : exn) :
  subprocess_run (services w) path exec_env (TaskDefinition.timeout_seconds t) = Raise ex ->
  isinstance ex TimeoutExpired = true ->
  execute_python_script k w
  = (completed_world w1 e1 t "timeout" "" (timeout_message t) None,
     Ok (after_cleanup (services w) k path (timeout_dict (timeout_message t)))).
Proof.
  intros Hrun Hex. apply worker_finish.
  unfold Py.try_except, launch. unfold Py.bind at 1. unfold Py.bind at 1.
  cbn [world fr1]. change (services w1) with (services w). fold exec_env. rewrite Hrun.
  unfold on_launch_error. rewrite Hex. unfold Py.bind at 1. cbn [self_task].
  unfold Py.bind. rewrite worker_mark_completed. reflexivity.
Qed.

Lemma worker_launch_error (ex : exn) :
  subprocess_run (services w) path exec_env (TaskDefinition.timeout_seconds t) = Raise ex ->
  isinstance ex TimeoutExpired = false ->
  execute_python_script k w
  = (completed_world w1 e1 t "failure" "" ("Execution error: " +:+ exn_str ex) None,
     Ok (after_cleanup (services w) k path
           (failure_dict ("Execution error: " +:+ exn_str ex)))).
Proof.
  intros Hrun Hex. apply worker_finish.
  unfold Py.try_except, launch. unfold Py.bind at 1. unfold Py.bind at 1.
  cbn [world fr1]. change (services w1) with (services w). fold exec_env. rewrite Hrun.
  unfold on_launch_error. rewrite Hex, isinstance_exception.
  unfold Py.bind. rewrite worker_mark_completed. reflexivity.
Qed.

Lemma worker_completed (result : CompletedProcess) :
  subprocess_run (services w) path exec_env (TaskDefinition.timeout_seconds t) = Ok result ->
  let status := if returncode result =? 0 then "success" else "failure" in
  execute_python_script k w
  = (completed_world w1 e1 t status (stdout result) (stderr result) (Some (returncode result)),
     Ok (after_cleanup (services w) k path
           (completed_dict status result
              (completed_object (now_of w1) status (stdout result) (stderr result)
                 (Some (returncode result)) e1)))).
Proof.
  intros Hrun status. apply worker_finish.
  unfold Py.try_except, launch. unfold Py.bind at 1. unfold Py.bind at 1.
  cbn [world fr1]. change (services w1) with (services w). fold exec_env. rewrite Hrun.
  cbv zeta. fold status. unfold Py.bind at 1. rewrite worker_mark_completed.
  reflexivity.
Qed.

End Worker.

Lemma worker_not_found (k : string) (w : World) :
  objects.find_execution k (executions w) = None ->
  execute_python_script k w
  = (w, Ok (failure_dict ("TaskExecution with id " +:+ k +:+ " not found"))).
Proof.
  intros Hfe. unfold execute_python_script, Py.try_except.
  unfold Py.bind at 1. unfold objects.get_execution at 1. rewrite Hfe.
  apply on_error_run.
Qed.

Lemma worker_no_script (k : string) (w : World) e t (ex : exn) :
  objects.find_execution k (executions w) = Some e ->
  objects.find_task (TaskExecution.task_id e) (tasks w) = Some t ->
  resolve_script (services w) t = Raise ex ->
  execute_python_script k w = (started_world w e, Ok (error_dict k ex)).
Proof.
  intros Hfe Hft Hres.
  unfold execute_python_script. unfold Py.try_except at 1.
  unfold Py.bind at 1. unfold objects.get_execution at 1. rewrite Hfe.
  unfold Py.bind at 1. unfold objects.get_task at 1. rewrite Hft.
  unfold with_objects.
  unfold Py.bind at 1. rewrite mark_started_run. cbv zeta. cbn [world self self_task].
  rewrite (started_row k w e Hfe). fold (started_world w e).
  unfold Py.bind at 1. cbv beta. cbn [self_task].
  unfold Py.bind at 1. unfold in_world at 1. cbn [world]. rewrite get_script_content_run.
  change (services (started_world w e)) with (services w). rewrite Hres.
  cbn [world]. apply on_error_run.
Qed.

Lemma execute_python_script_returns (k : string) (w : World) :
  returns (snd (execute_python_script k w)) = true.
Proof.
  unfold execute_python_script, Py.try_except.
  match goal with |- context [match ?b with _ => _ end] => destruct b as [w' [d | e]] end.
  - reflexivity.
  - rewrite on_error_run. reflexivity.
Qed.

Lemma failure_dict_lookup (message : string) :
  failure_dict message !! "status" = Some (PyString "failure")
  /\ failure_dict message !! "error_output" = Some (PyString message)
  /\ failure_dict message !! "exit_code" = None.
Proof. unfold failure_dict. repeat split; by simplify_map_eq. Qed.

Lemma timeout_dict_lookup (message : string) :
  timeout_dict message !! "status" = Some (PyString "timeout")
  /\ timeout_dict message !! "error_output" = Some (PyString message)
  /\ timeout_dict message !! "exit_code" = None.
Proof. unfold timeout_dict. repeat split; by simplify_map_eq. Qed.

Lemma error_dict_report (k : string) (e : exn) : failure_report (Ok (error_dict k e)).
Proof.
  unfold error_dict. eexists. split; [ | reflexivity ].
  destruct (isinstance e TaskExecution_DoesNotExist); discriminate.
Qed.

Lemma after_cleanup_report sv k path message :
  message <> "" -> failure_report (Ok (after_cleanup sv k path (failure_dict message))).
Proof.
  intros Hm. unfold after_cleanup. destruct (os_unlink sv path) as [ [] | e ].
  - exists message. split; [ exact Hm | reflexivity ].
  - destruct (isinstance e OSError); [ | apply error_dict_report ].
    exists message. split; [ exact Hm | reflexivity ].
Qed.

(** C7: [execute_python_script] raises nothing, for every execution id
    and every world.  When the execution does not exist, when the script
    has no content, when the temporary file cannot be written or when
    the launch raises anything but a timeout, what it returns is a dict
    with the status "failure", a message in "error_output" and no
    "exit_code". *)
Theorem execute_python_script_reports_failures (execution_id : string) (w : World) :
  returns (snd (execute_python_script execution_id w)) = true
  /\ (objects.find_execution execution_id (executions w) = None ->
      snd (execute_python_script execution_id w)
      = Ok (failure_dict ("TaskExecution with id " +:+ execution_id +:+ " not found")))
  /\ (forall e t content,
        objects.find_execution execution_id (executions w) = Some e ->
        objects.find_task (TaskExecution.task_id e) (tasks w) = Some t ->
        resolve_script (services w) t = Ok content ->
        (PyStr.truthy content = false ->
           snd (execute_python_script execution_id w)
           = Ok (failure_dict "Unexpected error: No script content found"))
        /\ (PyStr.truthy content = true ->
            forall ex,
              (tmp_create (services w) content = Raise ex ->
                 failure_report (snd (execute_python_script execution_id w)))
              /\ (forall path,
                    tmp_create (services w) content = Ok path ->
                    subprocess_run (services w) path
                      (get_environment_dict t ∪ os_environ (services w))
                      (TaskDefinition.timeout_seconds t) = Raise ex ->
                    isinstance ex TimeoutExpired = false ->
                    failure_report (snd (execute_python_script execution_id w))
                    /\ (clean_exit (services w) path ->
                        snd (execute_python_script execution_id w)
                        = Ok (failure_dict ("Execution error: " +:+ exn_str ex))))))
  /\ (forall message,
        failure_dict message !! "status" = Some (PyString "failure")
        /\ failure_dict message !! "error_output" = Some (PyString message)
        /\ failure_dict message !! "exit_code" = None).
Proof.
  split; [ apply execute_python_script_returns | ].
  split; [ intros Hfe; rewrite (worker_not_found _ _ Hfe); reflexivity | ].
  split; [ | apply failure_dict_lookup ].
  intros e t content Hfe Hft Hres. split.
  - intros Hempty. rewrite (worker_no_content _ _ _ _ Hfe Hft _ Hres Hempty). reflexivity.
  - intros Hfull ex. split.
    + intros Htmp. rewrite (worker_no_tempfile _ _ _ _ Hfe Hft _ Hres Hfull _ Htmp).
      apply error_dict_report.
    + intros path Htmp Hrun Hex.
      rewrite (worker_launch_error _ _ _ _ Hfe Hft _ _ Hres Hfull Htmp _ Hrun Hex).
      cbn [snd]. split; [ apply after_cleanup_report; discriminate | ].
      unfold clean_exit, after_cleanup.
      destruct (os_unlink (services w) path) as [ [] | e' ]; [ reflexivity | ].
      intros ->. reflexivity.
Qed.

Lemma execute_python_script_reports_failures_witness :
  snd (execute_python_script "exec-0"
         (sample.queued (sample.with_process (Raise sample.permission_denied))))
  = Ok (failure_dict "Execution error: [Errno 13] Permission denied").
Proof.
  apply (proj2 (proj2 (proj2 (proj1 (proj2 (proj2
           (execute_python_script_reports_failures "exec-0"
              (sample.queued (sample.with_process (Raise sample.permission_denied))))))
           (sample.execution "exec-0" "t1") (sample.task "t1" "interval" "60")
           "print('Hello')" eq_refl eq_refl eq_refl) eq_refl sample.permission_denied)
           "/tmp/tmpscript.py" eq_refl eq_refl eq_refl)).
  exact I.
Defined.

(* ===================================================================== *)
(** * Timeouts *)
(* ===================================================================== *)

Lemma completed_object_id now status output error_output exit_code e :
  TaskExecution.id (completed_object now status output error_output exit_code e)
  = TaskExecution.id e.
Proof. unfold completed_object. cbn. destruct (TaskExecution.started_at e); reflexivity. Qed.

Lemma counted_task_id now status t :
  TaskDefinition.id (counted_task now status t) = TaskDefinition.id t.
Proof. unfold counted_task. destruct (String.eqb status "success"); reflexivity. Qed.

Lemma completed_world_rows (w : World) (e er : TaskExecution.t) (t tr : TaskDefinition.t)
    (status output error_output : string) (exit_code : option Z) :
  objects.find_execution (TaskExecution.id e) (executions w) = Some er ->
  objects.find_task (TaskDefinition.id t) (tasks w) = Some tr ->
  let w' := completed_world w e t status output error_output exit_code in
  objects.find_execution (TaskExecution.id e) (executions w')
  = Some (objects.fields_completed
            (completed_object (now_of w) status output error_output exit_code e) er)
  /\ objects.find_task (TaskDefinition.id t) (tasks w')
     = Some (objects.fields_statistics (counted_task (now_of w) status t) tr).
Proof.
  intros He Ht w'. unfold w', completed_world. cbn [executions tasks set_tasks set_executions].
  split.
  - rewrite <- (completed_object_id (now_of w) status output error_output exit_code e) at 1.
    apply find_execution_updated; [ reflexivity | ].
    rewrite completed_object_id. exact He.
  - rewrite <- (counted_task_id (now_of w) status t) at 1.
    apply find_task_updated; [ reflexivity | ].
    rewrite counted_task_id. exact Ht.
Qed.

Lemma started_world_rows (k : string) (w : World) (e : TaskExecution.t) (t : TaskDefinition.t) :
  objects.find_execution k (executions w) = Some e ->
  objects.find_task (TaskExecution.task_id e) (tasks w) = Some t ->
  objects.find_execution (TaskExecution.id (started_object (now_of w) e))
    (executions (started_world w e))
  = Some (objects.fields_started (started_object (now_of w) e) e)
  /\ objects.find_task (TaskDefinition.id t) (tasks (started_world w e)) = Some t
  /\ TaskExecution.id (started_object (now_of w) e) = k.
Proof.
  intros Hfe Hft. split; [ | split ].
  - unfold started_world. cbn [executions set_executions].
    apply find_execution_updated; [ reflexivity | apply (started_row k), Hfe ].
  - cbn [tasks started_world set_executions tick].
    rewrite (find_task_id _ _ _ Hft). exact Hft.
  - apply (find_execution_id _ _ _ Hfe).
Qed.

(** C6: when the child process exceeds [timeout_seconds], the execution
    row ends with the status "timeout", no exit code and the timeout
    message that names the limit; the run is counted once, as a failed
    run; the returned dict has no exit code either. *)
Theorem timeout_is_recorded (execution_id : string) (w : World)
    (e : TaskExecution.t) (t : TaskDefinition.t) (content path : string) (ex : exn) :
  objects.find_execution execution_id (executions w) = Some e ->
  objects.find_task (TaskExecution.task_id e) (tasks w) = Some t ->
  resolve_script (services w) t = Ok content ->
  PyStr.truthy content = true ->
  tmp_create (services w) content = Ok path ->
  subprocess_run (services w) path (get_environment_dict t ∪ os_environ (services w))
    (TaskDefinition.timeout_seconds t) = Raise ex ->
  isinstance ex TimeoutExpired = true ->
  let message := "Script execution timed out after "
                 +:+ PyStr.str_of_int (TaskDefinition.timeout_seconds t) +:+ " seconds" in
  let w' := fst (execute_python_script execution_id w) in
  (exists row,
     objects.find_execution execution_id (executions w') = Some row
     /\ TaskExecution.status row = "timeout"
     /\ TaskExecution.exit_code row = None
     /\ TaskExecution.error_output row = message
     /\ TaskExecution.terminal (TaskExecution.status row) = true)
  /\ (exists trow,
        objects.find_task (TaskDefinition.id t) (tasks w') = Some trow
        /\ TaskDefinition.total_runs trow = TaskDefinition.total_runs t + 1
        /\ TaskDefinition.failed_runs trow = TaskDefinition.failed_runs t + 1
        /\ TaskDefinition.successful_runs trow = TaskDefinition.successful_runs t)
  /\ (clean_exit (services w) path ->
      snd (execute_python_script execution_id w) = Ok (timeout_dict message))
  /\ timeout_dict message !! "status" = Some (PyString "timeout")
  /\ timeout_dict message !! "error_output" = Some (PyString message)
  /\ timeout_dict message !! "exit_code" = None.
Proof.
  intros Hfe Hft Hres Hfull Htmp Hrun Hex message w'.
  unfold w'. rewrite (worker_timeout _ _ _ _ Hfe Hft _ _ Hres Hfull Htmp _ Hrun Hex).
  cbn [fst snd]. fold message.
  destruct (started_world_rows _ _ _ _ Hfe Hft) as (He1 & Ht1 & Hk).
  destruct (completed_world_rows _ _ _ _ _ "timeout" "" (timeout_message t) None He1 Ht1)
    as [Hrow Htrow].
  rewrite Hk in Hrow.
  split; [ | split; [ | split; [ | apply timeout_dict_lookup ] ] ].
  - eexists. split; [ exact Hrow | ]. repeat split.
  - eexists. split; [ exact Htrow | ]. repeat split.
  - unfold clean_exit, after_cleanup.
    destruct (os_unlink (services w) path) as [ [] | e' ]; [ reflexivity | ].
    intros ->. reflexivity.
Qed.

Lemma timeout_is_recorded_witness :
  let w := sample.queued (sample.with_process (Raise sample.timed_out)) in
  let w' := fst (execute_python_script "exec-0" w) in
  (exists row,
     objects.find_execution "exec-0" (executions w') = Some row
     /\ TaskExecution.status row = "timeout"
     /\ TaskExecution.exit_code row = None
     /\ TaskExecution.error_output row = "Script execution timed out after 3600 seconds"
     /\ TaskExecution.terminal (TaskExecution.status row) = true)
  /\ snd (execute_python_script "exec-0" w)
     = Ok (timeout_dict "Script execution timed out after 3600 seconds").
Proof.
  intros w w'.
  pose proof (timeout_is_recorded "exec-0" w
                (sample.execution "exec-0" "t1") (sample.task "t1" "interval" "60")
                "print('Hello')" "/tmp/tmpscript.py" sample.timed_out
                eq_refl eq_refl eq_refl eq_refl eq_refl eq_refl eq_refl) as H.
  cbv zeta in H. destruct H as (Hrow & _ & Hd & _).
  split; [ exact Hrow | apply Hd; exact I ].
Defined.

(** C4: a completion with any status adds one to [total_runs], one
    to [successful_runs] exactly when the status is "success" and one
    to [failed_runs] otherwise (timeout and cancelled included); the task
    row is saved with these counters; so the counters of the object add
    up afterwards when they did before, and the counters of every task
    row add up after any number of runs of the worker. *)
Theorem mark_completed_counts_the_run
    (fr : Frame) (status output error_output : string) (exit_code : option Z)
    (er : TaskExecution.t) (tr : TaskDefinition.t) :
  objects.find_execution (TaskExecution.id (self fr)) (executions (world fr)) = Some er ->
  objects.find_task (TaskDefinition.id (self_task fr)) (tasks (world fr)) = Some tr ->
  let t := self_task fr in
  let fr' := fst (mark_completed status output error_output exit_code fr) in
  let t' := self_task fr' in
  snd (mark_completed status output error_output exit_code fr) = Ok tt
  /\ TaskDefinition.total_runs t' = TaskDefinition.total_runs t + 1
  /\ TaskDefinition.successful_runs t'
     = TaskDefinition.successful_runs t + (if String.eqb status "success" then 1 else 0)
  /\ TaskDefinition.failed_runs t'
     = TaskDefinition.failed_runs t + (if String.eqb status "success" then 0 else 1)
  /\ (exists row,
        objects.find_task (TaskDefinition.id t) (tasks (world fr')) = Some row
        /\ TaskDefinition.total_runs row = TaskDefinition.total_runs t'
        /\ TaskDefinition.successful_runs row = TaskDefinition.successful_runs t'
        /\ TaskDefinition.failed_runs row = TaskDefinition.failed_runs t')
  /\ (consistent t -> consistent t')
  /\ (forall ids w, stats_consistent w -> stats_consistent (run_worker ids w)).
Proof.
  intros He Ht t fr' t'. unfold t', fr'. rewrite mark_completed_run. cbv zeta.
  rewrite completed_object_id, He.
  cbn [tasks set_executions tick]. rewrite counted_task_id, Ht. cbn [fst snd self_task world].
  split; [ reflexivity | ].
  assert (TaskDefinition.total_runs (counted_task (now_of (world fr)) status t)
          = TaskDefinition.total_runs t + 1) as Htot
    by (unfold counted_task; destruct (String.eqb status "success"); reflexivity).
  assert (TaskDefinition.successful_runs (counted_task (now_of (world fr)) status t)
          = TaskDefinition.successful_runs t + (if String.eqb status "success" then 1 else 0)) as Hs
    by (unfold counted_task; destruct (String.eqb status "success"); cbn; lia).
  assert (TaskDefinition.failed_runs (counted_task (now_of (world fr)) status t)
          = TaskDefinition.failed_runs t + (if String.eqb status "success" then 0 else 1)) as Hf
    by (unfold counted_task; destruct (String.eqb status "success"); cbn; lia).
  repeat split; try assumption.
  - exists (objects.fields_statistics (counted_task (now_of (world fr)) status t) tr).
    split; [ | repeat split ].
    cbn [tasks set_tasks]. rewrite <- (counted_task_id (now_of (world fr)) status t) at 1.
    apply find_task_updated; [ reflexivity | ].
    rewrite counted_task_id. exact Ht.
  - apply counted_task_consistent.
  - intros ids w. apply run_worker_consistent.
Qed.

Lemma mark_completed_counts_the_run_witness :
  let fr := {| world := sample.queued sample.default_services;
               self := sample.execution "exec-0" "t1";
               self_task := sample.task "t1" "interval" "60" |} in
  let t' := self_task (fst (mark_completed "timeout" "" "too slow" None fr)) in
  snd (mark_completed "timeout" "" "too slow" None fr) = Ok tt
  /\ TaskDefinition.total_runs t' = 1
  /\ TaskDefinition.successful_runs t' = 0
  /\ TaskDefinition.failed_runs t' = 1.
Proof.
  intros fr t'.
  pose proof (mark_completed_counts_the_run fr "timeout" "" "too slow" None
                (sample.execution "exec-0" "t1") (sample.task "t1" "interval" "60")
                eq_refl eq_refl) as H.
  cbv zeta in H. destruct H as (H1 & H2 & H3 & H4 & _).
  repeat split; assumption.
Defined.

(* ===================================================================== *)
(** * The success rate, [success_rate] *)
(* ===================================================================== *)

Section FloatBounds.

Lemma digits2_pos_size (p : positive) : digits2_pos p = Pos.size p.
Proof. induction p; cbn; congruence. Qed.

Lemma Zdigits2_nonneg (m : Z) : 0 <= Zdigits2 m.
Proof. destruct m; cbn; lia. Qed.

Lemma Zdigits2_bound (m K : Z) : 0 <= m < 2 ^ K -> 0 <= K -> Zdigits2 m <= K.
Proof.
  intros [Hm Hlt] HK. destruct m as [ | p | p ]; [ exact HK | | lia ].
  cbn [Zdigits2]. rewrite digits2_pos_size.
  pose proof (Pos.size_le p) as Hs.
  assert (2 ^ Zpos (Pos.size p) <= 2 * Zpos p) as Hs'.
  { change 2 with (Zpos 2) at 1. rewrite <- Pos2Z.inj_pow. 
    change (2 * Zpos p) with (Zpos (p~0)). apply Pos2Z.pos_le_pos. exact Hs. }
  assert (2 ^ Zpos (Pos.size p) < 2 ^ (K + 1)) as Hlt'.
  { rewrite Z.pow_add_r by lia. lia. }
  apply Z.pow_lt_mono_r_iff in Hlt'; lia.
Qed.

Lemma iter_pos_invariant {A : Type} (f : A -> A) (P : A -> Prop) :
  (forall x, P x -> P (f x)) -> forall p x, P x -> P (SpecFloat.iter_pos f p x).
Proof.
  intros Hf. induction p as [ p IH | p IH | ]; intros x Hx; cbn [SpecFloat.iter_pos].
  - apply IH, IH, Hf, Hx.
  - apply IH, IH, Hx.
  - apply Hf, Hx.
Qed.

Lemma shr_1_bound (M : Z) (mrs : shr_record) :
  0 <= shr_m mrs <= M -> 0 <= shr_m (shr_1 mrs) <= M.
Proof.
  destruct mrs as [m r s]. cbn [shr_m].
  destruct m as [ | [ p | p | ] | p ]; cbn; lia.
Qed.

Lemma shr_bound (M : Z) (mrs : shr_record) (e n : Z) :
  0 <= shr_m mrs <= M ->
  0 <= shr_m (fst (shr mrs e n)) <= M
  /\ snd (shr mrs e n) = Z.max e (e + n).
Proof.
  intros Hm. unfold shr. destruct n as [ | p | p ]; cbn [fst snd].
  - split; [ exact Hm | lia ].
  - split; [ | lia ]. apply (iter_pos_invariant shr_1 (fun x => 0 <= shr_m x <= M)); [ | exact Hm ].
    intros x. apply shr_1_bound.
  - split; [ exact Hm | lia ].
Qed.

Lemma shr_record_of_loc_m (m : Z) (l : location) : shr_m (shr_record_of_loc m l) = m.
Proof. destruct l as [ | [ | | ] ]; reflexivity. Qed.

Lemma round_nearest_even_bound (m : Z) (l : location) :
  0 <= m -> 0 <= round_nearest_even m l <= m + 1.
Proof.
  intros Hm. unfold round_nearest_even.
  destruct l as [ | [ | | ] ]; try destruct (Z.even m); lia.
Qed.

Lemma fexp_le (x y : Z) : x <= y -> fexp PyFloat.prec PyFloat.emax x <= Z.max (y - 53) (-1074).
Proof. unfold fexp, emin, PyFloat.prec, PyFloat.emax. lia. Qed.

(** The result of rounding a mantissa below [2^K] at an exponent of at
    most [E] is zero or finite when the bounds leave room. *)
Lemma binary_round_aux_bound (s : bool) (m e : Z) (l : location) (K E : Z) :
  0 <= m < 2 ^ K -> 0 <= K -> e <= E ->
  Z.max (Z.max E (K + E - 53)) (-1074) + Z.max 0 (K - 52) <= 971 ->
  match binary_round_aux PyFloat.prec PyFloat.emax s m e l with
  | S754_zero s' => s' = s
  | S754_finite s' m' e' =>
      s' = s /\ Zpos m' < 2 ^ (K + 1)
      /\ e' <= Z.max (Z.max E (K + E - 53)) (-1074) + Z.max 0 (K - 52)
  | _ => False
  end.
Proof.
  intros Hm HK He Hroom. unfold binary_round_aux, shr_fexp.
  assert (2 ^ K < 2 ^ (K + 1)) as Hpow by (rewrite Z.pow_add_r by lia; lia).
  pose proof (shr_bound m (shr_record_of_loc m l) e
                (fexp PyFloat.prec PyFloat.emax (Zdigits2 m + e) - e)) as H1.
  rewrite shr_record_of_loc_m in H1. specialize (H1 ltac:(lia)).
  destruct (shr (shr_record_of_loc m l) e _) as [mrs1 e1]. cbn [fst snd] in H1.
  destruct H1 as [Hm1 He1].
  pose proof (Zdigits2_bound m K Hm HK) as Hd.
  pose proof (fexp_le (Zdigits2 m + e) (K + E) ltac:(lia)) as Hf1.
  set (m1 := round_nearest_even (shr_m mrs1) (loc_of_shr_record mrs1)).
  pose proof (round_nearest_even_bound (shr_m mrs1) (loc_of_shr_record mrs1) ltac:(lia)) as Hr.
  fold m1 in Hr.
  pose proof (shr_bound (m1) (shr_record_of_loc m1 loc_Exact) e1
                (fexp PyFloat.prec PyFloat.emax (Zdigits2 m1 + e1) - e1)) as H2.
  rewrite shr_record_of_loc_m in H2. specialize (H2 ltac:(lia)).
  destruct (shr (shr_record_of_loc m1 loc_Exact) e1 _) as [mrs2 e2]. cbn [fst snd] in H2.
  destruct H2 as [Hm2 He2].
  pose proof (Zdigits2_bound m1 (K + 1) ltac:(lia) ltac:(lia)) as Hd1.
  pose proof (fexp_le (Zdigits2 m1 + e1) (K + 1 + e1) ltac:(lia)) as Hf2.
  assert (e2 <= Z.max (Z.max E (K + E - 53)) (-1074) + Z.max 0 (K - 52)) as Hb by lia.
  destruct (shr_m mrs2) as [ | p | p ] eqn:Hp; [ reflexivity | | lia ].
  assert ((e2 <=? PyFloat.emax - PyFloat.prec) = true) as ->
    by (apply Z.leb_le; unfold PyFloat.prec, PyFloat.emax; lia).
  repeat split; lia.
Qed.

Lemma Zdigits2_pos (m : Z) : 0 < m -> 1 <= Zdigits2 m.
Proof. destruct m as [ | p | p ]; try lia. intros _. cbn. lia. Qed.

Lemma Zdigits2_gt (m : Z) : 0 <= m -> m < 2 ^ Zdigits2 m.
Proof.
  intros Hm. destruct m as [ | p | p ]; [ reflexivity | | lia ].
  cbn [Zdigits2]. rewrite digits2_pos_size.
  change 2 with (Zpos 2). rewrite <- Pos2Z.inj_pow. apply Pos2Z.pos_lt_pos, Pos.size_gt.
Qed.

(** The quotient mantissa and exponent of a division of two positive
    integers below [2^KA] and [2^KB]. *)
Lemma SFdiv_core_bound (a b KA KB : Z) :
  0 < a < 2 ^ KA -> 0 < b < 2 ^ KB -> 0 <= KA -> 0 <= KB ->
  let '(q, e, _) := SFdiv_core_binary PyFloat.prec PyFloat.emax a 0 b 0 in
  0 <= q < 2 ^ (Z.max KA (KB + 53)) /\ e <= 0.
Proof.
  intros Ha Hb HKA HKB. unfold SFdiv_core_binary.
  pose proof (Zdigits2_bound a KA ltac:(lia) HKA) as Hd1.
  pose proof (Zdigits2_bound b KB ltac:(lia) HKB) as Hd2.
  pose proof (Zdigits2_pos a ltac:(lia)) as Hd1'.
  pose proof (Zdigits2_pos b ltac:(lia)) as Hd2'.
  pose proof (Zdigits2_gt a ltac:(lia)) as Hga.
  set (d1 := Zdigits2 a) in *. set (d2 := Zdigits2 b) in *.
  set (e' := Z.min (fexp PyFloat.prec PyFloat.emax (d1 + 0 - (d2 + 0))) (0 - 0)).
  assert (e' <= 0 /\ 0 <= 0 - 0 - e' <= Z.max (53 + d2 - d1) 0) as [He' Hs].
  { unfold e', fexp, emin, PyFloat.prec, PyFloat.emax. lia. }
  set (m' := match 0 - 0 - e' with
             | Z0 => a
             | Zpos _ => Z.shiftl a (0 - 0 - e')
             | Zneg _ => 0
             end).
  assert (0 <= m' < 2 ^ (Z.max KA (KB + 53))) as Hm'.
  { assert (2 ^ d1 <= 2 ^ (Z.max KA (KB + 53))) by (apply Z.pow_le_mono_r; lia).
    unfold m'. destruct (0 - 0 - e') as [ | p | p ] eqn:E; [ lia | | lia ].
    rewrite Z.shiftl_mul_pow2 by lia. split; [ apply Z.mul_nonneg_nonneg; lia | ].
    assert (2 ^ (d1 + Zpos p) <= 2 ^ (Z.max KA (KB + 53))) as Hle
      by (apply Z.pow_le_mono_r; lia).
    rewrite Z.pow_add_r in Hle by lia.
    assert (0 < 2 ^ Zpos p) by (apply Z.pow_pos_nonneg; lia).
    nia. }
  pose proof (Z.div_eucl_eq m' b ltac:(lia)) as Hq.
  pose proof (Z.mod_pos_bound m' b ltac:(lia)) as Hr. unfold Z.modulo in Hr.
  destruct (Z.div_eucl m' b) as [q r].
  split; [ | lia ]. split; nia.
Qed.

(** An integer quotient of two positive integers is zero or finite. *)
Lemma quotient_bound (a b KA KB : Z) :
  0 < a < 2 ^ KA -> 0 < b < 2 ^ KB -> 0 <= KA -> 0 <= KB ->
  let K := Z.max KA (KB + 53) in
  Z.max (Z.max 0 (K - 53)) (-1074) + Z.max 0 (K - 52) <= 971 ->
  match SFdiv PyFloat.prec PyFloat.emax (PyFloat.exact a) (PyFloat.exact b) with
  | S754_zero s => s = false
  | S754_finite s m e =>
      s = false /\ Zpos m < 2 ^ (K + 1)
      /\ e <= Z.max (Z.max 0 (K - 53)) (-1074) + Z.max 0 (K - 52)
  | _ => False
  end.
Proof.
  intros Ha Hb HKA HKB K Hroom.
  pose proof (SFdiv_core_bound a b KA KB Ha Hb HKA HKB) as Hcore.
  destruct a as [ | pa | pa ]; try lia. destruct b as [ | pb | pb ]; try lia.
  cbn [PyFloat.exact SFdiv].
  destruct (SFdiv_core_binary PyFloat.prec PyFloat.emax (Zpos pa) 0 (Zpos pb) 0) as [[q e] l].
  destruct Hcore as [Hq He].
  pose proof (binary_round_aux_bound (xorb false false) q e l K 0 Hq ltac:(lia) He) as H.
  replace (K + 0 - 53) with (K - 53) in H by lia.
  apply H, Hroom.
Qed.

Lemma bounded_float_finite K E x : bounded_float K E x -> PyFloat.is_infinite x = false.
Proof. destruct x; cbn; intros H; (reflexivity || destruct H). Qed.

Lemma int_truediv_bound (a b : Z) :
  0 <= a <= 2147483647 -> 0 < b <= 2147483647 ->
  exists ratio, PyFloat.int_truediv a b = Ok ratio /\ bounded_float 85 63 ratio.
Proof.
  intros Ha Hb. unfold PyFloat.int_truediv.
  assert ((b =? 0) = false) as -> by (apply Z.eqb_neq; lia).
  assert (bounded_float 85 63
            (SFdiv PyFloat.prec PyFloat.emax (PyFloat.exact a) (PyFloat.exact b))) as Hq.
  { destruct (Z.eq_dec a 0) as [-> | Hne].
    - destruct b; try lia. reflexivity.
    - pose proof (quotient_bound a b 31 31 ltac:(lia) ltac:(lia) ltac:(lia) ltac:(lia)) as H.
      cbv zeta in H. specialize (H ltac:(lia)).
      replace (Z.max 31 (31 + 53)) with 84 in H by lia.
      destruct (SFdiv PyFloat.prec PyFloat.emax (PyFloat.exact a) (PyFloat.exact b));
        cbn [bounded_float]; [ exact H | destruct H | destruct H | ].
      destruct H as (H1 & H2 & H3). repeat split; [ exact H1 | exact H2 | lia ]. }
  eexists. rewrite (bounded_float_finite _ _ _ Hq). split; [ reflexivity | exact Hq ].
Qed.

Lemma mul_int_100_bound (ratio : PyFloat.float) :
  bounded_float 85 63 ratio ->
  exists pct, PyFloat.mul_int ratio 100 = Ok pct /\ bounded_float 139 188 pct.
Proof.
  intros Hr. unfold PyFloat.mul_int.
  change (PyFloat.of_int 100) with (Ok (S754_finite false 7036874417766400 (-46))).
  cbn [obind]. eexists. split; [ reflexivity | ].
  destruct ratio as [ s | s | | s m e ]; try (destruct Hr; fail).
  - cbn in Hr. subst s. reflexivity.
  - destruct Hr as (-> & Hm & He). cbn [SFmul].
    pose proof (binary_round_aux_bound (xorb false false) (Zpos (m * 7036874417766400))
                  (e + -46) loc_Exact 138 17) as H.
    assert (0 <= Zpos (m * 7036874417766400) < 2 ^ 138) as Hmm.
    { rewrite Pos2Z.inj_mul. change (2 ^ 138) with (2 ^ 85 * 2 ^ 53).
      assert (7036874417766400 < 2 ^ 53) by reflexivity. nia. }
    specialize (H Hmm ltac:(lia) ltac:(lia) ltac:(lia)).
    destruct (binary_round_aux PyFloat.prec PyFloat.emax (xorb false false) _ _ _);
      cbn [bounded_float]; [ exact H | destruct H | destruct H | ].
    destruct H as (H1 & H2 & H3). repeat split; [ exact H1 | exact H2 | lia ].
Qed.

Lemma div_half_even_nearest (n d : Z) :
  0 < d -> nearest_integer n d (PyFloat.div_half_even n d).
Proof.
  intros Hd. unfold nearest_integer, PyFloat.div_half_even.
  pose proof (Z.div_mod n d ltac:(lia)) as Hn.
  pose proof (Z.mod_pos_bound n d Hd) as Hr.
  destruct (Z.compare_spec (2 * (n mod d)) d); [ destruct (Z.even (n / d)) | | ]; nia.
Qed.

Lemma div_half_even_bound (n d : Z) :
  0 <= n -> 0 < d -> 0 <= PyFloat.div_half_even n d <= n / d + 1.
Proof.
  intros Hn Hd. unfold PyFloat.div_half_even.
  pose proof (Z.div_pos n d Hn Hd).
  destruct (2 * (n mod d) ?= d); [ destruct (Z.even (n / d)) | | ]; lia.
Qed.

Lemma scaled_half_even_spec (m : positive) (e : Z) (K E : Z) :
  Zpos m < 2 ^ K -> e <= E -> 0 <= K -> 0 <= E ->
  let q := PyFloat.scaled_half_even m e 1 in
  0 <= q < 2 ^ (K + 4 + E)
  /\ (let '(num, den) := exact_value (S754_finite false m e) in
      0 < den /\ nearest_integer (10 * num) den q).
Proof.
  intros Hm He HK HE q. unfold q, PyFloat.scaled_half_even, exact_value.
  change (10 ^ Z.of_nat 1) with 10.
  assert (2 ^ (K + 4 + E) = 2 ^ K * 16 * 2 ^ E) as Hpow
    by (rewrite !Z.pow_add_r by lia; reflexivity).
  assert (0 < 2 ^ E) by (apply Z.pow_pos_nonneg; lia).
  assert (0 < 2 ^ K) by (apply Z.pow_pos_nonneg; lia).
  destruct e as [ | p | p ].
  - split; [ rewrite Hpow; cbn [Z.pow]; nia | ].
    split; [ lia | unfold nearest_integer; lia ].
  - assert (0 < 2 ^ Zpos p <= 2 ^ E) as Hp
      by (split; [ apply Z.pow_pos_nonneg; lia | apply Z.pow_le_mono_r; lia ]).
    split; [ rewrite Hpow; nia | ].
    split; [ lia | unfold nearest_integer; lia ].
  - assert (0 < 2 ^ Zpos p) as Hp by (apply Z.pow_pos_nonneg; lia).
    pose proof (div_half_even_bound (Zpos m * 10) (2 ^ Zpos p) ltac:(lia) Hp) as Hb.
    pose proof (Z.div_le_upper_bound (Zpos m * 10) (2 ^ Zpos p) (Zpos m * 10) Hp ltac:(nia)).
    split; [ rewrite Hpow; nia | ].
    split; [ exact Hp | ].
    replace (10 * Zpos m) with (Zpos m * 10) by lia.
    apply div_half_even_nearest, Hp.
Qed.

Lemma round_1_bound (pct : PyFloat.float) :
  bounded_float 139 188 pct ->
  exists q, PyFloat.round pct 1 = Ok (tenths q)
            /\ (let '(num, den) := exact_value pct in
                0 < den /\ nearest_integer (10 * num) den q).
Proof.
  intros Hp. destruct pct as [ s | s | | s m e ]; try (destruct Hp; fail).
  - cbn in Hp. subst s. exists 0. split; [ reflexivity | ].
    cbn. split; [ lia | unfold nearest_integer; lia ].
  - destruct Hp as (-> & Hm & He).
    pose proof (scaled_half_even_spec m e 139 188 Hm He ltac:(lia) ltac:(lia)) as Hq.
    cbv zeta in Hq. destruct Hq as [Hq Hnear].
    exists (PyFloat.scaled_half_even m e 1). split; [ | exact Hnear ].
    unfold PyFloat.round, tenths. change (10 ^ Z.of_nat 1) with 10.
    set (q := PyFloat.scaled_half_even m e 1) in *.
    destruct (Z.eq_dec q 0) as [-> | Hne]; [ reflexivity | ].
    pose proof (quotient_bound q 10 331 4 ltac:(lia) ltac:(lia) ltac:(lia) ltac:(lia)) as H.
    cbv zeta in H. specialize (H ltac:(lia)).
    destruct (SFdiv PyFloat.prec PyFloat.emax (PyFloat.exact q) (PyFloat.exact 10))
      as [ s' | s' | | s' m' e' ];
      try (destruct H; fail).
    + subst s'. reflexivity.
    + reflexivity.
Qed.

End FloatBounds.

(** C10: [success_rate] is 0 for a task that never ran, without
    dividing; for counters in the range of their fields it raises
    nothing and returns the float nearest to [q / 10], where [q] is an
    integer nearest to ten times the percentage, the percentage being
    the binary64 value of [successful_runs / total_runs * 100]. *)
Theorem success_rate_guarded (self : TaskDefinition.t) :
  (TaskDefinition.total_runs self = 0 -> success_rate self = Ok (PyInt 0))
  /\ (TaskDefinition.positive_integer_field (TaskDefinition.total_runs self) ->
      TaskDefinition.positive_integer_field (TaskDefinition.successful_runs self) ->
      TaskDefinition.total_runs self <> 0 ->
      exists pct q,
        obind (PyFloat.int_truediv (TaskDefinition.successful_runs self)
                                   (TaskDefinition.total_runs self))
              (fun ratio => PyFloat.mul_int ratio 100) = Ok pct
        /\ (let '(num, den) := exact_value pct in
            0 < den /\ nearest_integer (10 * num) den q)
        /\ success_rate self = Ok (PyFloatV (tenths q))).
Proof.
  split.
  - intros H0. unfold success_rate. rewrite H0. reflexivity.
  - unfold TaskDefinition.positive_integer_field. intros Ht Hs Hne.
    destruct (int_truediv_bound (TaskDefinition.successful_runs self)
                (TaskDefinition.total_runs self) Hs ltac:(lia)) as (ratio & Hdiv & Hratio).
    destruct (mul_int_100_bound ratio Hratio) as (pct & Hmul & Hpct).
    destruct (round_1_bound pct Hpct) as (q & Hround & Hnear).
    exists pct, q. split; [ | split; [ exact Hnear | ] ].
    + rewrite Hdiv. exact Hmul.
    + unfold success_rate.
      assert ((TaskDefinition.total_runs self =? 0) = false) as -> by (apply Z.eqb_neq, Hne).
      rewrite Hdiv. cbn [obind]. rewrite Hmul. cbn [obind]. rewrite Hround. reflexivity.
Qed.

Lemma success_rate_guarded_witness :
  returns (success_rate (sample.task_with_runs 3 1)) = true.
Proof.
  destruct (proj2 (success_rate_guarded (sample.task_with_runs 3 1)))
    as (pct & q & _ & _ & ->).
  - unfold TaskDefinition.positive_integer_field. cbn. lia.
  - unfold TaskDefinition.positive_integer_field. cbn. lia.
  - discriminate.
  - reflexivity.
Defined.

(** One run out of three gives 33.3, two out of three 66.7, one out of
    2000 gives 0.1 and three out of 2000 give 0.1 as well, as the
    binary64 arithmetic has it. *)
Example success_rate_examples :
  map (fun '(total, successful) => success_rate (sample.task_with_runs total successful))
      [(3, 1); (3, 2); (1, 1); (2000, 1); (2000, 3); (5, 0); (0, 0)]
  = [Ok (PyFloatV (S754_finite false 4686558362232422 (-47)));
     Ok (PyFloatV (S754_finite false 4693595236650189 (-46)));
     Ok (PyFloatV (S754_finite false 7036874417766400 (-46)));
     Ok (PyFloatV (S754_finite false 7205759403792794 (-56)));
     Ok (PyFloatV (S754_finite false 7205759403792794 (-56)));
     Ok (PyFloatV (S754_zero false));
     Ok (PyInt 0)].
Proof. vm_compute. reflexivity. Qed.

(* ===================================================================== *)
(** * The environment of a task, [get_environment_dict] *)
(* ===================================================================== *)

Section Environment.

Lemma get_environment_dict_loop (self : TaskDefinition.t) :
  get_environment_dict self = env_loop (env_lines self) ∅.
Proof.
  unfold get_environment_dict, env_lines, env_loop.
  destruct (PyStr.truthy _); reflexivity.
Qed.

Lemma env_loop_cons (line : string) (lines : list string) (m : gmap string string) :
  env_loop (line :: lines) m
  = env_loop lines match assignment line with
                   | Some (k, v) => <[k := v]> m
                   | None => m
                   end.
Proof.
  unfold env_loop, assignment. cbn [fold_left].
  destruct (split_once "=" line) as [ [key value] | ]; reflexivity.
Qed.

Lemma unassigned_cons (k line : string) (lines : list string) :
  unassigned k (line :: lines)
  <-> (forall v, assignment line <> Some (k, v)) /\ unassigned k lines.
Proof.
  unfold unassigned. split.
  - intros H. split; [ intros v; apply H; left; reflexivity | ].
    intros l v Hl. apply H. right. exact Hl.
  - intros [H1 H2] l v [<- | Hl]; [ apply H1 | apply H2, Hl ].
Qed.

(** The value of a key after the loop: the last line that assigns it,
    or else what the dict held before. *)
Lemma env_loop_lookup (lines : list string) : forall (m : gmap string string) (k v : string),
  env_loop lines m !! k = Some v
  <-> (exists pre line post,
         lines = (pre ++ line :: post)%list
         /\ assignment line = Some (k, v) /\ unassigned k post)
      \/ (m !! k = Some v /\ unassigned k lines).
Proof.
  induction lines as [ | l ls IH ]; intros m k v.
  - split.
    + intros H. right. split; [ exact H | intros line v' [] ].
    + intros [ (pre & line & post & Heq & _) | [H _] ]; [ | exact H ].
      destruct pre; discriminate.
  - rewrite env_loop_cons, IH, unassigned_cons. split.
    + intros [ (pre & line & post & -> & Ha & Hu) | [Hm Hu] ].
      * left. exists (l :: pre), line, post. repeat split; assumption.
      * destruct (assignment l) as [ [k0 v0] | ] eqn:Hl.
        -- destruct (decide (k0 = k)) as [-> | Hne].
           ++ rewrite lookup_insert_eq in Hm. injection Hm as ->.
              left. exists [], l, ls. repeat split; assumption.
           ++ rewrite lookup_insert_ne in Hm by exact Hne.
              right. repeat split; try assumption. intros v' [= -> _]. congruence.
        -- right. repeat split; try assumption. discriminate.
    + intros [ (pre & line & post & Heq & Ha & Hu) | (Hm & Hl & Hu) ].
      * destruct pre as [ | x pre ]; cbn in Heq; injection Heq as -> ->.
        -- right. rewrite Ha, lookup_insert_eq. split; [ reflexivity | exact Hu ].
        -- left. exists pre, line, post. repeat split; assumption.
      * right. split; [ | exact Hu ].
        destruct (assignment l) as [ [k0 v0] | ] eqn:Ha; [ | exact Hm ].
        rewrite lookup_insert_ne; [ exact Hm | ].
        intros ->. apply (Hl v0). reflexivity.
Qed.

Lemma env_loop_unassigned (lines : list string) : forall (m : gmap string string) (k : string),
  unassigned k lines -> env_loop lines m !! k = m !! k.
Proof.
  induction lines as [ | l ls IH ]; intros m k Hu; [ reflexivity | ].
  apply unassigned_cons in Hu. destruct Hu as [Hl Hu].
  rewrite env_loop_cons, (IH _ _ Hu).
  destruct (assignment l) as [ [k0 v0] | ] eqn:Ha; [ | reflexivity ].
  apply lookup_insert_ne. intros ->. apply (Hl v0). reflexivity.
Qed.

Lemma env_loop_assigned (lines : list string) : forall (m : gmap string string) (k : string),
  is_Some (m !! k) \/ (exists line v, In line lines /\ assignment line = Some (k, v)) ->
  is_Some (env_loop lines m !! k).
Proof.
  induction lines as [ | l ls IH ]; intros m k H.
  - destruct H as [H | (line & v & [] & _)]. exact H.
  - rewrite env_loop_cons. apply IH.
    destruct H as [H | (line & v & [<- | Hin] & Ha)].
    + left. destruct (assignment l) as [ [k0 v0] | ]; [ | exact H ].
      destruct (decide (k0 = k)) as [-> | Hne].
      * rewrite lookup_insert_eq. eauto.
      * rewrite lookup_insert_ne by exact Hne. exact H.
    + left. rewrite Ha, lookup_insert_eq. eauto.
    + right. eauto.
Qed.

End Environment.

(** X1: the dict [get_environment_dict] returns maps a key to the
    value of the last line that assigns it; the lines without an [=]
    add nothing; a key that no line assigns is absent. *)
Theorem environment_last_assignment_wins (self : TaskDefinition.t) (k : string) :
  (forall v,
     get_environment_dict self !! k = Some v
     <-> exists pre line post,
           env_lines self = (pre ++ line :: post)%list
           /\ assignment line = Some (k, v) /\ unassigned k post)
  /\ (get_environment_dict self !! k = None <-> unassigned k (env_lines self))
  /\ (forall line, split_once "=" line = None -> assignment line = None).
Proof.
  rewrite get_environment_dict_loop. split; [ | split ].
  - intros v. rewrite env_loop_lookup. split; [ | intros H; left; exact H ].
    intros [H | [H _]]; [ exact H | ]. rewrite lookup_empty in H. discriminate.
  - split.
    + intros Hnone line v Hin Ha.
      destruct (env_loop_assigned (env_lines self) ∅ k) as [x Hx]; [ | congruence ].
      right. eauto.
    + intros Hu. rewrite (env_loop_unassigned _ _ _ Hu). apply lookup_empty.
  - intros line H. unfold assignment. rewrite H. reflexivity.
Qed.

Example environment_example :
  let self := TaskDefinition.set_next_run_at None
                (TaskDefinition.Build "t1" "sample" "active" None (Some "pass") "once" ""
                   (" A=1" +:+ String newline "B = x=y " +:+ String newline "noise"
                    +:+ String newline "A = 2" +:+ String newline "")
                   3600 3 None None 0 0 0) in
  env_lines self = [ "A=1"; "B = x=y "; "noise"; "A = 2" ]
  /\ get_environment_dict self = <["A" := "2"]> (<["B" := "x=y"]> ∅).
Proof.
  split; [ reflexivity | ].
  apply map_eq. intros k.
  destruct (decide (k = "A")) as [-> | HA]; [ reflexivity | ].
  destruct (decide (k = "B")) as [-> | HB]; [ reflexivity | ].
  rewrite !lookup_insert_ne, lookup_empty by congruence.
  rewrite get_environment_dict_loop, env_loop_unassigned; [ apply lookup_empty | ].
  intros line v [<- | [<- | [<- | [<- | []]]]]; vm_compute; congruence.
Qed.

Section Strings.

Lemma string_of_list_ascii_app (l1 l2 : list ascii) :
  string_of_list_ascii (l1 ++ l2) = string_of_list_ascii l1 +:+ string_of_list_ascii l2.
Proof. induction l1 as [ | c l1 IH ]; cbn; [ reflexivity | rewrite IH; reflexivity ]. Qed.

Lemma append_cons (x : ascii) (a b : string) : String x a +:+ b = String x (a +:+ b).
Proof. reflexivity. Qed.

Lemma append_assoc (a b c : string) : (a +:+ b) +:+ c = a +:+ (b +:+ c).
Proof.
  induction a as [ | x a IH ]; [ reflexivity | ].
  rewrite !append_cons, IH. reflexivity.
Qed.

Lemma append_empty_r (a : string) : a +:+ "" = a.
Proof. induction a as [ | x a IH ]; [ reflexivity | rewrite append_cons, IH; reflexivity ]. Qed.

Lemma contains_app (c : ascii) (a b : string) :
  PyStr.contains c (a +:+ b) = PyStr.contains c a || PyStr.contains c b.
Proof.
  induction a as [ | x a IH ]; [ reflexivity | ].
  rewrite append_cons. cbn [PyStr.contains]. rewrite IH. apply orb_assoc.
Qed.

(** [line.split(sep, 1)] cuts at the first separator. *)
Lemma split_once_acc_spec (sep : ascii) (s : string) : forall (cur : list ascii) (a b : string),
  split_once_acc sep cur s = Some (a, b) ->
  exists a', a = string_of_list_ascii (rev cur) +:+ a'
             /\ s = a' +:+ String sep b /\ PyStr.contains sep a' = false.
Proof.
  induction s as [ | c r IH ]; intros cur a b H; cbn in H; [ discriminate | ].
  destruct (Ascii.eqb c sep) eqn:E.
  - apply Ascii.eqb_eq in E. subst c. injection H as <- <-.
    exists EmptyString. repeat split. symmetry. apply append_empty_r.
  - destruct (IH _ _ _ H) as (a' & -> & -> & Hc).
    exists (String c a'). repeat split.
    + cbn [rev]. rewrite string_of_list_ascii_app, append_assoc. reflexivity.
    + cbn [PyStr.contains]. rewrite Hc. rewrite Ascii.eqb_sym, E. reflexivity.
Qed.

Lemma split_once_spec (sep : ascii) (s a b : string) :
  split_once sep s = Some (a, b) ->
  s = a +:+ String sep b /\ PyStr.contains sep a = false.
Proof.
  intros H. destruct (split_once_acc_spec _ _ _ _ _ H) as (a' & -> & -> & Hc).
  split; [ reflexivity | exact Hc ].
Qed.

Lemma split_once_acc_none (sep : ascii) (s : string) : forall cur : list ascii,
  split_once_acc sep cur s = None <-> PyStr.contains sep s = false.
Proof.
  induction s as [ | c r IH ]; intros cur; cbn; [ tauto | ].
  rewrite (Ascii.eqb_sym sep c). destruct (Ascii.eqb c sep); cbn; [ | apply IH ].
  split; discriminate.
Qed.

Lemma lstrip_by_idem (p : ascii -> bool) (s : string) :
  PyStr.lstrip_by p (PyStr.lstrip_by p s) = PyStr.lstrip_by p s.
Proof.
  induction s as [ | c r IH ]; cbn; [ reflexivity | ].
  destruct (p c) eqn:E; [ exact IH | ]. cbn. rewrite E. reflexivity.
Qed.

Lemma rstrip_by_idem (p : ascii -> bool) (s : string) :
  PyStr.rstrip_by p (PyStr.rstrip_by p s) = PyStr.rstrip_by p s.
Proof.
  induction s as [ | c r IH ]; cbn; [ reflexivity | ].
  destruct (PyStr.rstrip_by p r) as [ | d r' ] eqn:E.
  - destruct (p c) eqn:Ec; cbn; [ reflexivity | rewrite Ec; reflexivity ].
  - cbn [PyStr.rstrip_by]. cbn [PyStr.rstrip_by] in IH. rewrite IH. reflexivity.
Qed.

(** What [lstrip] returns is empty or starts with a character that
    stays, and [rstrip] keeps that. *)
Lemma lstrip_rstrip (p : ascii -> bool) (s : string) :
  PyStr.lstrip_by p (PyStr.rstrip_by p (PyStr.lstrip_by p s))
  = PyStr.rstrip_by p (PyStr.lstrip_by p s).
Proof.
  induction s as [ | c r IH ]; cbn; [ reflexivity | ].
  destruct (p c) eqn:E; [ exact IH | ].
  cbn [PyStr.rstrip_by]. destruct (PyStr.rstrip_by p r); rewrite ?E; cbn; rewrite E; reflexivity.
Qed.

Lemma strip_idem (s : string) : PyStr.strip (PyStr.strip s) = PyStr.strip s.
Proof.
  unfold PyStr.strip. rewrite lstrip_rstrip. apply rstrip_by_idem.
Qed.

Lemma contains_lstrip_by (p : ascii -> bool) (c : ascii) (s : string) :
  p c = false -> PyStr.contains c (PyStr.lstrip_by p s) = PyStr.contains c s.
Proof.
  intros Hc. induction s as [ | d r IH ]; cbn; [ reflexivity | ].
  destruct (p d) eqn:E; [ | reflexivity ].
  rewrite IH. destruct (Ascii.eqb c d) eqn:Ecd; [ | reflexivity ].
  apply Ascii.eqb_eq in Ecd. congruence.
Qed.

Lemma contains_rstrip_by (p : ascii -> bool) (c : ascii) (s : string) :
  p c = false -> PyStr.contains c (PyStr.rstrip_by p s) = PyStr.contains c s.
Proof.
  intros Hc. induction s as [ | d r IH ]; cbn; [ reflexivity | ].
  destruct (PyStr.rstrip_by p r) as [ | x r' ] eqn:E.
  - cbn in IH. rewrite <- IH, orb_false_r.
    destruct (p d) eqn:Ed; cbn; [ | rewrite orb_false_r; reflexivity ].
    destruct (Ascii.eqb c d) eqn:Ecd; [ | reflexivity ].
    apply Ascii.eqb_eq in Ecd. congruence.
  - cbn [PyStr.contains]. cbn [PyStr.contains] in IH. rewrite IH. reflexivity.
Qed.

Lemma contains_strip (c : ascii) (s : string) :
  PyStr.isspace c = false -> PyStr.contains c (PyStr.strip s) = PyStr.contains c s.
Proof.
  intros Hc. unfold PyStr.strip.
  rewrite contains_rstrip_by, contains_lstrip_by by exact Hc. reflexivity.
Qed.

Lemma contains_string_of_list (c : ascii) (l : list ascii) :
  PyStr.contains c (string_of_list_ascii l) = existsb (Ascii.eqb c) l.
Proof. induction l as [ | d l IH ]; cbn; [ reflexivity | rewrite IH; reflexivity ]. Qed.

Lemma existsb_rev {A} (f : A -> bool) (l : list A) : existsb f (rev l) = existsb f l.
Proof.
  induction l as [ | x l IH ]; [ reflexivity | ].
  cbn [rev existsb]. rewrite existsb_app, IH. cbn [existsb].
  rewrite orb_false_r. apply orb_comm.
Qed.

(** A character other than the separator is in the text exactly when
    it is in one of the pieces. *)
Lemma contains_split_on_acc (sep c : ascii) (s : string) : forall cur : list ascii,
  Ascii.eqb c sep = false ->
  existsb (PyStr.contains c) (split_on_acc sep cur s)
  = existsb (Ascii.eqb c) cur || PyStr.contains c s.
Proof.
  induction s as [ | d r IH ]; intros cur Hne; cbn [split_on_acc PyStr.contains].
  - cbn [existsb]. rewrite contains_string_of_list, existsb_rev. reflexivity.
  - destruct (Ascii.eqb d sep) eqn:E.
    + apply Ascii.eqb_eq in E. subst d. cbn [existsb].
      rewrite (IH [] Hne), contains_string_of_list, existsb_rev, Hne. reflexivity.
    + rewrite (IH (d :: cur) Hne). cbn [existsb].
      destruct (Ascii.eqb c d), (existsb (Ascii.eqb c) cur); reflexivity.
Qed.

End Strings.

Lemma assignment_some (line : string) :
  PyStr.contains "=" line = true -> exists k v, assignment line = Some (k, v).
Proof.
  intros H. unfold assignment, split_once.
  destruct (split_once_acc "=" [] line) as [ [key value] | ] eqn:E; [ eauto | ].
  apply split_once_acc_none in E. congruence.
Qed.

Lemma assignment_none (line : string) :
  PyStr.contains "=" line = false -> assignment line = None.
Proof.
  intros H. unfold assignment, split_once.
  rewrite (proj2 (split_once_acc_none "=" line []) H). reflexivity.
Qed.

Lemma env_lines_contain (self : TaskDefinition.t) :
  existsb (PyStr.contains "=") (env_lines self)
  = PyStr.contains "=" (TaskDefinition.environment_variables self).
Proof.
  unfold env_lines.
  destruct (TaskDefinition.environment_variables self) as [ | c text ] eqn:E;
    [ reflexivity | ].
  cbn [PyStr.truthy]. unfold split_on.
  rewrite contains_split_on_acc by reflexivity.
  cbn [existsb orb]. apply contains_strip. reflexivity.
Qed.

(** X2: every entry of the dict comes from a line cut at its first
    [=]: the key is the text before it and the value all the text
    after it, both stripped.  So no key and no value starts or ends with
    whitespace, and no key contains an [=]. *)
Theorem environment_entries_are_stripped (self : TaskDefinition.t) (k v : string) :
  get_environment_dict self !! k = Some v ->
  (exists line key value,
     In line (env_lines self)
     /\ line = key +:+ String "=" value
     /\ PyStr.contains "=" key = false
     /\ k = PyStr.strip key /\ v = PyStr.strip value)
  /\ PyStr.strip k = k /\ PyStr.strip v = v /\ PyStr.contains "=" k = false.
Proof.
  rewrite get_environment_dict_loop, env_loop_lookup.
  intros [ (pre & line & post & Hl & Ha & _) | [H _] ];
    [ | rewrite lookup_empty in H; discriminate ].
  unfold assignment in Ha.
  destruct (split_once "=" line) as [ [key value] | ] eqn:Hs; [ | discriminate ].
  injection Ha as <- <-. destruct (split_once_spec _ _ _ _ Hs) as [Hline Hkey].
  split; [ | split; [ | split ] ].
  - exists line, key, value. repeat split; try assumption.
    rewrite Hl. apply in_or_app. right. left. reflexivity.
  - apply strip_idem.
  - apply strip_idem.
  - rewrite contains_strip by reflexivity. exact Hkey.
Qed.

Lemma environment_entries_are_stripped_witness :
  let self := task_with_environment ("  PATH = /opt/bin " +:+ String newline "URL=a=b") in
  (exists line key value,
     In line (env_lines self)
     /\ line = key +:+ String "=" value
     /\ PyStr.contains "=" key = false
     /\ "URL" = PyStr.strip key /\ "a=b" = PyStr.strip value)
  /\ PyStr.strip "URL" = "URL" /\ PyStr.strip "a=b" = "a=b"
  /\ PyStr.contains "=" "URL" = false.
Proof.
  intros self. apply (environment_entries_are_stripped self "URL" "a=b"). reflexivity.
Defined.

(** X3: the dict is empty exactly when the text has no [=] at all. *)
Theorem environment_empty_iff_no_assignment (self : TaskDefinition.t) :
  get_environment_dict self = ∅
  <-> PyStr.contains "=" (TaskDefinition.environment_variables self) = false.
Proof.
  rewrite get_environment_dict_loop, <- env_lines_contain. split.
  - intros Hempty. destruct (existsb _ _) eqn:E; [ exfalso | reflexivity ].
    apply existsb_exists in E. destruct E as (line & Hin & Hc).
    destruct (assignment_some _ Hc) as (k & v & Ha).
    destruct (env_loop_assigned (env_lines self) ∅ k) as [x Hx]; [ right; eauto | ].
    rewrite Hempty, lookup_empty in Hx. discriminate.
  - intros Hnone. apply map_eq. intros k.
    rewrite lookup_empty, env_loop_unassigned; [ apply lookup_empty | ].
    intros line v Hin. rewrite assignment_none; [ discriminate | ].
    destruct (PyStr.contains "=" line) eqn:Hc; [ | reflexivity ].
    assert (existsb (PyStr.contains "=") (env_lines self) = true); [ | congruence ].
    apply existsb_exists. eauto.
Qed.

(* ===================================================================== *)
(** * The worker, [execute_python_script]: every way it can end *)
(* ===================================================================== *)

Lemma worker_no_task (k : string) (w : World) (e : TaskExecution.t) :
  objects.find_execution k (executions w) = Some e ->
  objects.find_task (TaskExecution.task_id e) (tasks w) = None ->
  fst (execute_python_script k w) = w.
Proof.
  intros Hfe Hft. unfold execute_python_script. unfold Py.try_except at 1.
  unfold Py.bind at 1. unfold objects.get_execution at 1. rewrite Hfe.
  unfold Py.bind at 1. unfold objects.get_task at 1. rewrite Hft.
  rewrite on_error_run. reflexivity.
Qed.

(** The world the worker leaves is the one it found, the one after
    [mark_started], or the one after [mark_started] and one
    [mark_completed] with one of three statuses. *)
Lemma worker_worlds (k : string) (w : World) :
  fst (execute_python_script k w) = w
  \/ exists e,
       objects.find_execution k (executions w) = Some e
       /\ (fst (execute_python_script k w) = started_world w e
           \/ exists t status output error_output exit_code,
                objects.find_task (TaskExecution.task_id e) (tasks w) = Some t
                /\ In status ["success"; "failure"; "timeout"]
                /\ fst (execute_python_script k w)
                   = completed_world (started_world w e) (started_object (now_of w) e) t
                       status output error_output exit_code).
Proof.
  destruct (objects.find_execution k (executions w)) as [e | ] eqn:Hfe.
  2:{ left. rewrite (worker_not_found _ _ Hfe). reflexivity. }
  destruct (objects.find_task (TaskExecution.task_id e) (tasks w)) as [t | ] eqn:Hft.
  2:{ left. apply (worker_no_task _ _ _ Hfe Hft). }
  right. exists e. split; [ reflexivity | ].
  destruct (resolve_script (services w) t) as [content | ex] eqn:Hres.
  2:{ left. rewrite (worker_no_script _ _ _ _ _ Hfe Hft Hres). reflexivity. }
  destruct (PyStr.truthy content) eqn:Hfull.
  2:{ left. rewrite (worker_no_content _ _ _ _ Hfe Hft _ Hres Hfull). reflexivity. }
  destruct (tmp_create (services w) content) as [path | ex] eqn:Htmp.
  2:{ left. rewrite (worker_no_tempfile _ _ _ _ Hfe Hft _ Hres Hfull _ Htmp). reflexivity. }
  right. exists t.
  destruct (subprocess_run (services w) path
              (get_environment_dict t ∪ os_environ (services w))
              (TaskDefinition.timeout_seconds t)) as [result | ex] eqn:Hrun.
  - pose proof (worker_completed _ _ _ _ Hfe Hft _ _ Hres Hfull Htmp _ Hrun) as H.
    cbv zeta in H. rewrite H. cbn [fst].
    eexists _, _, _, _. split; [ exact Hft | ]. split; [ | reflexivity ].
    destruct (returncode result =? 0); [ left | right; left ]; reflexivity.
  - destruct (isinstance ex TimeoutExpired) eqn:Hex.
    + rewrite (worker_timeout _ _ _ _ Hfe Hft _ _ Hres Hfull Htmp _ Hrun Hex). cbn [fst].
      eexists _, _, _, _. split; [ exact Hft | ]. split; [ | reflexivity ].
      right; right; left; reflexivity.
    + rewrite (worker_launch_error _ _ _ _ Hfe Hft _ _ Hres Hfull Htmp _ Hrun Hex). cbn [fst].
      eexists _, _, _, _. split; [ exact Hft | ]. split; [ | reflexivity ].
      right; left; reflexivity.
Qed.

Lemma Forall2_map_self {A} (R : A -> A -> Prop) (f : A -> A) (l : list A) :
  (forall x, In x l -> R x (f x)) -> Forall2 R l (map f l).
Proof.
  induction l as [ | x l IH ]; intros H; cbn [map]; constructor.
  - apply H. left. reflexivity.
  - apply IH. intros y Hy. apply H. right. exact Hy.
Qed.

Lemma started_object_id now e : TaskExecution.id (started_object now e) = TaskExecution.id e.
Proof. reflexivity. Qed.

(** X4: a run of the worker creates, deletes and moves no row.  It
    changes no execution row but its own, and of that one neither the
    task, the message id nor the creation time; it changes no task row
    but the one of its execution, and of that one only the four
    statistics columns.  For an unknown execution id it changes
    nothing at all. *)
Theorem worker_touches_only_its_rows (execution_id : string) (w : World) :
  let w' := fst (execute_python_script execution_id w) in
  same_executions
    (fun r r' =>
       (TaskExecution.id r <> execution_id -> r' = r)
       /\ TaskExecution.task_id r' = TaskExecution.task_id r
       /\ TaskExecution.celery_task_id r' = TaskExecution.celery_task_id r
       /\ TaskExecution.created_at r' = TaskExecution.created_at r)
    (executions w) (executions w')
  /\ same_tasks
       (fun r r' =>
          r' = r
          \/ exists e obj,
               objects.find_execution execution_id (executions w) = Some e
               /\ TaskDefinition.id r = TaskExecution.task_id e
               /\ r' = objects.fields_statistics obj r)
       (tasks w) (tasks w')
  /\ services w' = services w
  /\ uuids_drawn w' = uuids_drawn w
  /\ (objects.find_execution execution_id (executions w) = None -> w' = w).
Proof.
  intros w'. unfold w'.
  assert (forall rows : list TaskExecution.t,
            same_executions
              (fun r r' =>
                 (TaskExecution.id r <> execution_id -> r' = r)
                 /\ TaskExecution.task_id r' = TaskExecution.task_id r
                 /\ TaskExecution.celery_task_id r' = TaskExecution.celery_task_id r
                 /\ TaskExecution.created_at r' = TaskExecution.created_at r) rows rows) as Hrefl.
  { intros rows. unfold same_executions. rewrite <- (map_id rows) at 2.
    apply Forall2_map_self. intros x _. repeat split. }
  assert (forall rows : list TaskDefinition.t,
            same_tasks
              (fun r r' =>
                 r' = r
                 \/ exists e obj,
                      objects.find_execution execution_id (executions w) = Some e
                      /\ TaskDefinition.id r = TaskExecution.task_id e
                      /\ r' = objects.fields_statistics obj r) rows rows) as Hrefl'.
  { intros rows. unfold same_tasks. rewrite <- (map_id rows) at 2.
    apply Forall2_map_self. intros x _. split; [ reflexivity | left; reflexivity ]. }
  destruct (worker_worlds execution_id w) as [-> | (e & Hfe & [-> | H])].
  - repeat split; [ apply Hrefl | apply Hrefl' ].
  - pose proof (find_execution_id _ _ _ Hfe) as Hk.
    split; [ | split; [ apply Hrefl' | repeat split; congruence ] ].
    unfold started_world, objects.update_execution_rows. cbn [executions set_executions].
    apply Forall2_map_self. intros x _. rewrite started_object_id, Hk.
    destruct (String.eqb (TaskExecution.id x) execution_id) eqn:E; [ | repeat split ].
    apply String.eqb_eq in E. repeat split. congruence.
  - destruct H as (t & status & output & error_output & exit_code & Hft & _ & ->).
    pose proof (find_execution_id _ _ _ Hfe) as Hk.
    pose proof (find_task_id _ _ _ Hft) as Hkt.
    split; [ | split; [ | repeat split; congruence ] ].
    + unfold completed_world, started_world, objects.update_execution_rows.
      cbn [executions set_executions set_tasks tick]. rewrite map_map.
      apply Forall2_map_self. intros x _.
      rewrite completed_object_id, !started_object_id, Hk.
      destruct (String.eqb (TaskExecution.id x) execution_id) eqn:E.
      * cbn [objects.fields_started TaskExecution.id TaskExecution.set_started_at
               TaskExecution.set_status]. rewrite E.
        apply String.eqb_eq in E. repeat split. congruence.
      * rewrite E. repeat split.
    + unfold completed_world, started_world, objects.update_task_rows.
      cbn [tasks set_executions set_tasks tick].
      apply Forall2_map_self. intros x _. rewrite counted_task_id, Hkt.
      destruct (String.eqb (TaskDefinition.id x) (TaskExecution.task_id e)) eqn:E.
      * apply String.eqb_eq in E. split; [ reflexivity | ]. right. eauto.
      * split; [ reflexivity | left; reflexivity ].
Qed.

Lemma completed_dict_lookup (status : string) (result : CompletedProcess)
    (e : TaskExecution.t) :
  let d := completed_dict status result e in
  d !! "status" = Some (PyString status)
  /\ d !! "output" = Some (PyString (stdout result))
  /\ d !! "error_output" = Some (PyString (stderr result))
  /\ d !! "exit_code" = Some (PyInt (returncode result))
  /\ d !! "execution_time_seconds"
     = Some (pyval_of_option PyFloatV (TaskExecution.execution_time_seconds e)).
Proof. unfold completed_dict. repeat split; by simplify_map_eq. Qed.

Lemma fields_completed_time (obj row : TaskExecution.t) :
  TaskExecution.execution_time_seconds (objects.fields_completed obj row)
  = TaskExecution.execution_time_seconds obj.
Proof. reflexivity. Qed.

(** X5: when the child process returns, its exit code decides the
    status: "success" for 0 and "failure" for anything else.  The
    execution row ends with that status, the exit code and the two
    output streams; the run is counted once, as successful exactly when
    the exit code is 0; and the returned dict carries the same five
    values as the row. *)
Theorem exit_code_decides_the_status (execution_id : string) (w : World)
    (e : TaskExecution.t) (t : TaskDefinition.t) (content path : string)
    (result : CompletedProcess) :
  objects.find_execution execution_id (executions w) = Some e ->
  objects.find_task (TaskExecution.task_id e) (tasks w) = Some t ->
  resolve_script (services w) t = Ok content ->
  PyStr.truthy content = true ->
  tmp_create (services w) content = Ok path ->
  subprocess_run (services w) path (get_environment_dict t ∪ os_environ (services w))
    (TaskDefinition.timeout_seconds t) = Ok result ->
  let status := if returncode result =? 0 then "success" else "failure" in
  let w' := fst (execute_python_script execution_id w) in
  exists row trow,
    objects.find_execution execution_id (executions w') = Some row
    /\ TaskExecution.status row = status
    /\ TaskExecution.exit_code row = Some (returncode result)
    /\ TaskExecution.output row = stdout result
    /\ TaskExecution.error_output row = stderr result
    /\ TaskExecution.terminal (TaskExecution.status row) = true
    /\ objects.find_task (TaskDefinition.id t) (tasks w') = Some trow
    /\ TaskDefinition.total_runs trow = TaskDefinition.total_runs t + 1
    /\ TaskDefinition.successful_runs trow
       = TaskDefinition.successful_runs t + (if returncode result =? 0 then 1 else 0)
    /\ TaskDefinition.failed_runs trow
       = TaskDefinition.failed_runs t + (if returncode result =? 0 then 0 else 1)
    /\ (clean_exit (services w) path ->
        exists d,
          snd (execute_python_script execution_id w) = Ok d
          /\ d !! "status" = Some (PyString status)
          /\ d !! "output" = Some (PyString (stdout result))
          /\ d !! "error_output" = Some (PyString (stderr result))
          /\ d !! "exit_code" = Some (PyInt (returncode result))
          /\ d !! "execution_time_seconds"
             = Some (pyval_of_option PyFloatV (TaskExecution.execution_time_seconds row))).
Proof.
  intros Hfe Hft Hres Hfull Htmp Hrun status w'.
  pose proof (worker_completed _ _ _ _ Hfe Hft _ _ Hres Hfull Htmp _ Hrun) as H.
  cbv zeta in H. fold status in H. unfold w'. rewrite H. cbn [fst snd]. clear H.
  destruct (started_world_rows _ _ _ _ Hfe Hft) as (He1 & Ht1 & Hk).
  destruct (completed_world_rows _ _ _ _ _ status (stdout result) (stderr result)
              (Some (returncode result)) He1 Ht1) as [Hrow Htrow].
  rewrite Hk in Hrow.
  eexists _, _. split; [ exact Hrow | ].
  split; [ reflexivity | ]. split; [ reflexivity | ]. split; [ reflexivity | ].
  split; [ reflexivity | ].
  split; [ unfold status; destruct (returncode result =? 0); reflexivity | ].
  split; [ exact Htrow | ].
  split; [ unfold status; destruct (returncode result =? 0); reflexivity | ].
  split; [ unfold status; destruct (returncode result =? 0); cbn; lia | ].
  split; [ unfold status; destruct (returncode result =? 0); cbn; lia | ].
  intros Hclean.
  pose proof (completed_dict_lookup status result
                (completed_object (now_of (started_world w e)) status (stdout result)
                   (stderr result) (Some (returncode result))
                   (started_object (now_of w) e))) as Hd.
  cbv zeta in Hd. destruct Hd as (H1 & H2 & H3 & H4 & H5).
  eexists. split.
  - unfold clean_exit in Hclean. unfold after_cleanup.
    destruct (os_unlink (services w) path) as [ [] | e' ]; [ reflexivity | ].
    rewrite Hclean. reflexivity.
  - split; [ exact H1 | ]. split; [ exact H2 | ]. split; [ exact H3 | ].
    split; [ exact H4 | ]. rewrite fields_completed_time. exact H5.
Qed.

Lemma exit_code_decides_the_status_witness :
  let sv := sample.with_process (Ok {| returncode := 2; stdout := ""; stderr := "Traceback" |}) in
  let w := sample.queued sv in
  let w' := fst (execute_python_script "exec-0" w) in
  exists row trow,
    objects.find_execution "exec-0" (executions w') = Some row
    /\ TaskExecution.status row = "failure"
    /\ TaskExecution.exit_code row = Some 2
    /\ TaskExecution.output row = ""
    /\ TaskExecution.error_output row = "Traceback"
    /\ TaskExecution.terminal (TaskExecution.status row) = true
    /\ objects.find_task "t1" (tasks w') = Some trow
    /\ TaskDefinition.total_runs trow = 0 + 1
    /\ TaskDefinition.successful_runs trow = 0 + 0
    /\ TaskDefinition.failed_runs trow = 0 + 1
    /\ (clean_exit (services w) "/tmp/tmpscript.py" ->
        exists d,
          snd (execute_python_script "exec-0" w) = Ok d
          /\ d !! "status" = Some (PyString "failure")
          /\ d !! "output" = Some (PyString "")
          /\ d !! "error_output" = Some (PyString "Traceback")
          /\ d !! "exit_code" = Some (PyInt 2)
          /\ d !! "execution_time_seconds"
             = Some (pyval_of_option PyFloatV (TaskExecution.execution_time_seconds row))).
Proof.
  intros sv w w'.
  apply (exit_code_decides_the_status "exec-0" w
           (sample.execution "exec-0" "t1") (sample.task "t1" "interval" "60")
           "print('Hello')" "/tmp/tmpscript.py"
           {| returncode := 2; stdout := ""; stderr := "Traceback" |});
    reflexivity.
Defined.

(* ===================================================================== *)
(** * The duration of an execution, [duration] *)
(* ===================================================================== *)

(** X6: after [mark_started] and [mark_completed], the duration of
    the execution is the time between the two clock readings, and
    [execution_time_seconds] is that duration in seconds, on the object
    and on its row.  An execution completed without having been
    started has no duration, and its [execution_time_seconds] is left
    as it was. *)
Theorem duration_is_between_the_two_readings
    (fr : Frame) (status output error_output : string) (exit_code : option Z)
    (er : TaskExecution.t) :
  objects.find_execution (TaskExecution.id (self fr)) (executions (world fr)) = Some er ->
  let fr1 := fst (mark_started fr) in
  let fr2 := fst (mark_completed status output error_output exit_code fr1) in
  let started := now_of (world fr) in
  let completed := now_of (world fr1) in
  (snd (mark_started fr) = Ok tt
   /\ TaskExecution.status (self fr1) = "running"
   /\ duration (self fr2) = Some (completed - started)
   /\ TaskExecution.execution_time_seconds (self fr2)
      = Some (total_seconds (completed - started))
   /\ exists row,
        objects.find_execution (TaskExecution.id (self fr)) (executions (world fr2)) = Some row
        /\ TaskExecution.started_at row = Some started
        /\ TaskExecution.completed_at row = Some completed
        /\ duration row = Some (completed - started)
        /\ TaskExecution.execution_time_seconds row
           = Some (total_seconds (completed - started)))
  /\ (TaskExecution.started_at (self fr) = None ->
      let fr' := fst (mark_completed status output error_output exit_code fr) in
      duration (self fr') = None
      /\ TaskExecution.execution_time_seconds (self fr')
         = TaskExecution.execution_time_seconds (self fr)).
Proof.
  intros He fr1 fr2 started completed.
  assert (mark_started fr
          = ({| world := set_executions
                           (objects.update_execution_rows (started_object started (self fr))
                              objects.fields_started (executions (world fr)))
                           (tick (world fr));
                self := started_object started (self fr);
                self_task := self_task fr |}, Ok tt)) as Hs.
  { rewrite mark_started_run. cbv zeta. rewrite started_object_id, He. reflexivity. }
  assert (objects.find_execution (TaskExecution.id (self fr)) (executions (world fr1))
          = Some (objects.fields_started (started_object started (self fr)) er)) as He1.
  { unfold fr1. rewrite Hs. cbn [fst world executions set_executions].
    rewrite <- (started_object_id started (self fr)) at 1.
    apply find_execution_updated; [ reflexivity | ].
    rewrite started_object_id. exact He. }
  split.
  - split; [ rewrite Hs; reflexivity | ].
    split; [ unfold fr1; rewrite Hs; reflexivity | ].
    unfold fr2. rewrite mark_completed_run. cbv zeta.
    rewrite completed_object_id.
    assert (TaskExecution.id (self fr1) = TaskExecution.id (self fr)) as ->
      by (unfold fr1; rewrite Hs; reflexivity).
    rewrite He1. fold completed.
    assert (self fr1 = started_object started (self fr)) as Hself
      by (unfold fr1; rewrite Hs; reflexivity).
    assert (exists row,
              objects.find_execution (TaskExecution.id (self fr))
                (objects.update_execution_rows
                   (completed_object completed status output error_output exit_code (self fr1))
                   objects.fields_completed (executions (world fr1))) = Some row
              /\ TaskExecution.started_at row = Some started
              /\ TaskExecution.completed_at row = Some completed
              /\ duration row = Some (completed - started)
              /\ TaskExecution.execution_time_seconds row
                 = Some (total_seconds (completed - started))) as Hrow.
    { eexists. split.
      - rewrite <- (started_object_id started (self fr)) at 1.
        rewrite <- Hself.
        rewrite <- (completed_object_id completed status output error_output exit_code
                      (self fr1)) at 1.
        apply find_execution_updated; [ reflexivity | ].
        rewrite completed_object_id, Hself, started_object_id. exact He1.
      - rewrite Hself. repeat split. }
    destruct (objects.find_task _ _); cbn [fst self world executions set_tasks set_executions];
      rewrite Hself; (split; [ reflexivity | split; [ reflexivity | ] ]);
      rewrite <- Hself; exact Hrow.
  - intros Hnone fr'. unfold fr'. rewrite mark_completed_run. cbv zeta.
    assert (duration (completed_object (now_of (world fr)) status output error_output
                        exit_code (self fr)) = None
            /\ TaskExecution.execution_time_seconds
                 (completed_object (now_of (world fr)) status output error_output
                    exit_code (self fr))
               = TaskExecution.execution_time_seconds (self fr)) as Hobj.
    { unfold completed_object, duration. cbn. rewrite Hnone. cbn. rewrite Hnone.
      split; reflexivity. }
    rewrite completed_object_id, He.
    destruct (objects.find_task _ _); exact Hobj.
Qed.

Lemma duration_is_between_the_two_readings_witness :
  let fr := {| world := sample.queued sample.default_services;
               self := sample.execution "exec-0" "t1";
               self_task := sample.task "t1" "interval" "60" |} in
  let fr2 := fst (mark_completed "success" "Hello" "" (Some 0) (fst (mark_started fr))) in
  duration (self fr2) = Some 0
  /\ TaskExecution.execution_time_seconds (self fr2) = Some (S754_zero false).
Proof.
  intros fr fr2.
  pose proof (duration_is_between_the_two_readings fr "success" "Hello" "" (Some 0)
                (sample.execution "exec-0" "t1") eq_refl) as H.
  cbv zeta in H. destruct H as [(_ & _ & H1 & H2 & _) _].
  split; [ exact H1 | exact H2 ].
Defined.

(* ===================================================================== *)
(** * The dispatch cycle: what a cycle changes *)
(* ===================================================================== *)

(** The row [dispatch] leaves for a task once the broker gave the
    message id [rid]. *)
Lemma dispatch_ok (task : TaskDefinition.t) (w w' : World) :
  dispatch task w = (w', Ok tt) ->
  exists rid next,
    let x := TaskExecution.set_celery_task_id rid (pending_row task w) in
    let wm := set_executions (x :: executions w) (tick (draw_uuid w)) in
    broker_delay (services w) (TaskExecution.id x) = Ok rid
    /\ calculate_next_run_time task wm = (tick wm, Ok next)
    /\ w' = set_tasks (map (reschedule (TaskDefinition.id task) next) (tasks w)) (tick wm).
Proof.
  unfold dispatch, objects.create_execution, objects.save_execution, objects.save_task,
    objects.update_execution_rows, objects.update_task_rows,
    uuid.uuid4, timezone.now, Py.bind, Py.ret, Py.raise, Py.modify.
  cbn [tasks executions draw_uuid tick set_executions set_tasks services].
  destruct (objects.find_execution _ _) eqn:Hfe; [ discriminate | ].
  destruct (broker_delay _ _) as [rid | e] eqn:Hb; [ | discriminate ].
  cbn [tasks executions draw_uuid tick set_executions set_tasks services TaskExecution.id
         TaskExecution.set_celery_task_id objects.find_execution find].
  rewrite String.eqb_refl.
  change (find _ (executions w)) with
    (objects.find_execution (uuid_source (services w) (uuids_drawn w)) (executions w)) in Hfe.
  cbn [map TaskExecution.id]. rewrite String.eqb_refl, (save_untouched _ _ _ Hfe).
  match goal with
  | |- context [calculate_next_run_time task ?wm] =>
      pose proof (calculate_state task wm) as Hst;
      destruct (calculate_next_run_time task wm) as [w1 [next | e]] eqn:Hc
  end; cbn [fst] in Hst; subst w1; [ | discriminate ].
  cbn [tasks tick set_executions TaskDefinition.id TaskDefinition.set_next_run_at].
  destruct (objects.find_task _ _) eqn:Hft; [ | discriminate ].
  intros H; injection H as <-. exists rid, next. cbv zeta.
  split; [ exact Hb | ]. split; [ exact Hc | reflexivity ].
Qed.

(** Whatever its outcome, [dispatch] adds at most one row, a pending
    one of its task, and touches no other execution row. *)
Lemma dispatch_new_row (task : TaskDefinition.t) (w w' : World) (o : outcome unit) :
  dispatch task w = (w', o) ->
  services w' = services w
  /\ (executions w' = executions w
      \/ exists rid,
           executions w'
           = TaskExecution.set_celery_task_id rid (pending_row task w) :: executions w).
Proof.
  unfold dispatch, objects.create_execution, objects.save_execution, objects.save_task,
    objects.update_execution_rows, objects.update_task_rows,
    uuid.uuid4, timezone.now, Py.bind, Py.ret, Py.raise, Py.modify.
  cbn [tasks executions draw_uuid tick set_executions set_tasks services].
  destruct (objects.find_execution _ _) eqn:Hfe.
  { intros H; injection H as <- _. split; [ reflexivity | left; reflexivity ]. }
  destruct (broker_delay _ _) as [rid | e] eqn:Hb.
  2:{ intros H; injection H as <- _. split; [ reflexivity | ].
      right. exists "". reflexivity. }
  cbn [tasks executions draw_uuid tick set_executions set_tasks services TaskExecution.id
         TaskExecution.set_celery_task_id objects.find_execution find].
  rewrite String.eqb_refl.
  change (find _ (executions w)) with
    (objects.find_execution (uuid_source (services w) (uuids_drawn w)) (executions w)) in Hfe.
  cbn [map TaskExecution.id]. rewrite String.eqb_refl, (save_untouched _ _ _ Hfe).
  match goal with
  | |- context [calculate_next_run_time task ?wm] =>
      pose proof (calculate_state task wm) as Hst;
      destruct (calculate_next_run_time task wm) as [w1 [next | e]] eqn:Hc
  end; cbn [fst] in Hst; subst w1.
  2:{ intros H; injection H as <- _. split; [ reflexivity | ].
      right. exists rid. reflexivity. }
  cbn [tasks tick set_executions TaskDefinition.id TaskDefinition.set_next_run_at].
  destruct (objects.find_task _ _);
    intros H; injection H as <- _; (split; [ reflexivity | ]);
    right; exists rid; reflexivity.
Qed.

Lemma erase_rescheduled (k : string) (next : option datetime.datetime)
    (rows : list TaskDefinition.t) :
  map (TaskDefinition.set_next_run_at None) (map (reschedule k next) rows)
  = map (TaskDefinition.set_next_run_at None) rows.
Proof.
  rewrite map_map. apply map_ext. intros r. unfold reschedule.
  destruct (String.eqb _ _); reflexivity.
Qed.

Lemma for_each_erased (l : list TaskDefinition.t) : forall w w' o,
  Py.for_each l dispatch w = (w', o) ->
  map (TaskDefinition.set_next_run_at None) (tasks w')
  = map (TaskDefinition.set_next_run_at None) (tasks w).
Proof.
  induction l as [ | a l IH ]; intros w w' o Hrun.
  - injection Hrun as <- _. reflexivity.
  - rewrite for_each_cons in Hrun.
    destruct (dispatch a w) as [w1 [ [] | e ]] eqn:Ha.
    + rewrite (IH _ _ _ Hrun). apply dispatch_tasks in Ha.
      destruct Ha as (wm & next & _ & ->). apply erase_rescheduled.
    + injection Hrun as <- _. apply dispatch_tasks in Ha. rewrite Ha. reflexivity.
Qed.

(** X7: whatever its outcome, a dispatch cycle changes no column of
    the task table but [next_run_at]: with that column erased the table
    is the same before and after, row by row.  In particular the run
    counters of every row still add up. *)
Theorem cycle_changes_only_next_run_at (w : World) :
  let w' := fst (schedule_periodic_tasks w) in
  map (TaskDefinition.set_next_run_at None) (tasks w')
  = map (TaskDefinition.set_next_run_at None) (tasks w)
  /\ map TaskDefinition.id (tasks w') = map TaskDefinition.id (tasks w)
  /\ (stats_consistent w -> stats_consistent w').
Proof.
  intros w'.
  assert (map (TaskDefinition.set_next_run_at None) (tasks w')
          = map (TaskDefinition.set_next_run_at None) (tasks w)) as H.
  { unfold w'. rewrite schedule_periodic_tasks_unfold.
    destruct (Py.for_each _ dispatch (tick w)) as [w1 o] eqn:Hrun.
    apply (for_each_erased _ _ _ _ Hrun). }
  split; [ exact H | ]. split.
  - apply (f_equal (map TaskDefinition.id)) in H. rewrite !map_map in H. exact H.
  - intros Hw row Hrow.
    apply (in_map (TaskDefinition.set_next_run_at None)) in Hrow. rewrite H in Hrow.
    apply in_map_iff in Hrow. destruct Hrow as (row0 & Heq & Hin).
    specialize (Hw row0 Hin). unfold consistent in *.
    apply (f_equal TaskDefinition.total_runs) in Heq as H1.
    apply (f_equal TaskDefinition.successful_runs) in Heq as H2.
    apply (f_equal TaskDefinition.failed_runs) in Heq as H3.
    cbn in H1, H2, H3. lia.
Qed.

Lemma for_each_new_rows (l : list TaskDefinition.t) : forall w w' o,
  Py.for_each l dispatch w = (w', o) ->
  services w' = services w
  /\ exists new,
       executions w' = (new ++ executions w)%list
       /\ (List.length new <= List.length l)%nat
       /\ forall x, In x new ->
            TaskExecution.status x = "pending"
            /\ TaskExecution.started_at x = None
            /\ In (TaskExecution.task_id x) (map TaskDefinition.id l).
Proof.
  induction l as [ | a l IH ]; intros w w' o Hrun.
  - injection Hrun as <- _. split; [ reflexivity | ].
    exists []. split; [ reflexivity | ]. split; [ cbn; lia | intros x [] ].
  - rewrite for_each_cons in Hrun.
    destruct (dispatch a w) as [w1 o1] eqn:Ha.
    destruct (dispatch_new_row _ _ _ _ Ha) as [Hsv Hx].
    assert (exists new1,
              executions w1 = (new1 ++ executions w)%list
              /\ (List.length new1 <= 1)%nat
              /\ forall x, In x new1 ->
                   TaskExecution.status x = "pending"
                   /\ TaskExecution.started_at x = None
                   /\ TaskExecution.task_id x = TaskDefinition.id a) as (new1 & H1 & Hl1 & Hp1).
    { destruct Hx as [Hx | (rid & Hx)].
      - exists []. split; [ exact Hx | ]. split; [ cbn; lia | intros x [] ].
      - eexists [_]. split; [ exact Hx | ]. split; [ cbn; lia | ].
        intros x [<- | []]. repeat split. }
    destruct o1 as [ [] | e ].
    + destruct (IH _ _ _ Hrun) as (Hsv' & new & Hnew & Hlen & Hown).
      split; [ congruence | ].
      exists (new ++ new1)%list. split; [ rewrite <- app_assoc, <- H1; exact Hnew | ].
      split; [ rewrite length_app; cbn [List.length]; lia | ].
      intros x Hx'. apply in_app_or in Hx'. destruct Hx' as [Hx' | Hx'].
      * destruct (Hown x Hx') as (? & ? & ?). repeat split; try assumption.
        right. assumption.
      * destruct (Hp1 x Hx') as (? & ? & ?). repeat split; try assumption.
        left. congruence.
    + injection Hrun as <- _. split; [ exact Hsv | ].
      exists new1. split; [ exact H1 | ]. split; [ cbn [List.length]; lia | ].
      intros x Hx'. destruct (Hp1 x Hx') as (? & ? & ?). repeat split; try assumption.
      left. congruence.
Qed.

(** X8: whatever its outcome, a dispatch cycle modifies and deletes no
    execution row.  The rows it adds are put in front, are at most as
    many as the due tasks, are all pending and not started, and each
    belongs to a task that was due. *)
Theorem cycle_only_adds_pending_rows (w : World) :
  let w' := fst (schedule_periodic_tasks w) in
  let due := List.filter (objects.is_due (now_of w)) (tasks w) in
  exists new,
    executions w' = (new ++ executions w)%list
    /\ (List.length new <= List.length due)%nat
    /\ forall x, In x new ->
         TaskExecution.status x = "pending"
         /\ TaskExecution.started_at x = None
         /\ exists t, In t (tasks w)
                      /\ objects.is_due (now_of w) t = true
                      /\ TaskExecution.task_id x = TaskDefinition.id t.
Proof.
  intros w' due. unfold w'. rewrite schedule_periodic_tasks_unfold. fold due.
  destruct (Py.for_each due dispatch (tick w)) as [w1 o] eqn:Hrun.
  destruct (for_each_new_rows _ _ _ _ Hrun) as (_ & new & Hnew & Hlen & Hown).
  exists new. split; [ exact Hnew | ]. split; [ exact Hlen | ].
  intros x Hx. destruct (Hown x Hx) as (Hs & Hst & Hin). repeat split; try assumption.
  apply in_map_iff in Hin. destruct Hin as (t & Hk & Ht).
  apply filter_In in Ht. destruct Ht as [Ht Hd]. exists t. repeat split; congruence.
Qed.

Lemma for_each_queued (l : list TaskDefinition.t) : forall w w',
  Py.for_each l dispatch w = (w', Ok tt) ->
  exists new,
    executions w' = (new ++ executions w)%list
    /\ map TaskExecution.task_id new = rev (map TaskDefinition.id l)
    /\ forall x, In x new ->
         TaskExecution.status x = "pending"
         /\ broker_delay (services w) (TaskExecution.id x)
            = Ok (TaskExecution.celery_task_id x).
Proof.
  induction l as [ | a l IH ]; intros w w' Hrun.
  - injection Hrun as <-. exists []. split; [ reflexivity | ]. split; [ reflexivity | ].
    intros x [].
  - rewrite for_each_cons in Hrun.
    destruct (dispatch a w) as [w1 [ [] | e ]] eqn:Ha; [ | discriminate ].
    destruct (dispatch_ok _ _ _ Ha) as (rid & next & Hb & _ & Hw1). cbv zeta in Hb, Hw1.
    destruct (IH _ _ Hrun) as (new & Hnew & Hids & Hq).
    assert (services w1 = services w) as Hsv by (rewrite Hw1; reflexivity).
    exists (new ++ [TaskExecution.set_celery_task_id rid (pending_row a w)])%list.
    split; [ | split ].
    + rewrite Hnew, Hw1, <- app_assoc. reflexivity.
    + rewrite map_app, Hids. reflexivity.
    + intros x Hx. apply in_app_or in Hx. destruct Hx as [Hx | [<- | []]].
      * destruct (Hq x Hx) as [Hs Hd]. split; [ exact Hs | ]. rewrite <- Hsv. exact Hd.
      * split; [ reflexivity | exact Hb ].
Qed.

(** X9: a dispatch cycle that ends without an exception has added
    exactly one execution row per due task, the last one dispatched in
    front; each is pending and carries the message id the broker gave
    for it. *)
Theorem completed_cycle_queues_every_due_task (w w' : World) :
  schedule_periodic_tasks w = (w', Ok tt) ->
  let due := List.filter (objects.is_due (now_of w)) (tasks w) in
  exists new,
    executions w' = (new ++ executions w)%list
    /\ map TaskExecution.task_id new = rev (map TaskDefinition.id due)
    /\ forall x, In x new ->
         TaskExecution.status x = "pending"
         /\ broker_delay (services w) (TaskExecution.id x)
            = Ok (TaskExecution.celery_task_id x).
Proof.
  intros Hrun due. rewrite schedule_periodic_tasks_unfold in Hrun. fold due in Hrun.
  apply (for_each_queued _ _ _ Hrun).
Qed.

Lemma completed_cycle_queues_every_due_task_witness :
  let w := sample.world sample.three_due in
  exists new,
    executions (fst (schedule_periodic_tasks w)) = (new ++ executions w)%list
    /\ map TaskExecution.task_id new = ["t3"; "t2"; "t1"]
    /\ forall x, In x new ->
         TaskExecution.status x = "pending"
         /\ broker_delay (services w) (TaskExecution.id x)
            = Ok (TaskExecution.celery_task_id x).
Proof.
  intros w.
  apply (completed_cycle_queues_every_due_task w (fst (schedule_periodic_tasks w))).
  vm_compute. reflexivity.
Defined.

Lemma NoDup_map_filter {A B} (f : A -> B) (p : A -> bool) (l : list A) :
  List.NoDup (map f l) -> List.NoDup (map f (List.filter p l)).
Proof.
  induction l as [ | x l IH ]; intros H; [ constructor | ].
  cbn [map] in H. apply List.NoDup_cons_iff in H. destruct H as [Hx Hl].
  cbn [List.filter]. destruct (p x); [ | apply IH, Hl ].
  cbn [map]. apply List.NoDup_cons_iff. split; [ | apply IH, Hl ].
  intros Hin. apply Hx. apply in_map_iff in Hin. destruct Hin as (y & Hy & Hin).
  apply filter_In in Hin. rewrite <- Hy. apply in_map, Hin.
Qed.

(** A task that is not due is left alone by the loop. *)
Lemma not_due_is_not_dispatched (w : World) (r t : TaskDefinition.t) :
  List.NoDup (map TaskDefinition.id (tasks w)) ->
  In r (tasks w) -> objects.is_due (now_of w) r = false ->
  In t (List.filter (objects.is_due (now_of w)) (tasks w)) ->
  TaskDefinition.id r <> TaskDefinition.id t.
Proof.
  intros Hpk Hr Hnd Ht Hk. apply filter_In in Ht. destruct Ht as [Ht Hd].
  rewrite (primary_key_inj _ r t Hpk Hr Ht Hk) in Hnd. congruence.
Qed.

(** X10: a task that is not due when the cycle reads the clock - not
    active, or with a [next_run_at] that is NULL or in the future - is
    neither changed nor dispatched by the cycle, whatever the outcome
    of the cycle: its row is as before and no execution of it is
    added. *)
Theorem not_due_task_is_left_alone (w : World) (r : TaskDefinition.t) :
  List.NoDup (map TaskDefinition.id (tasks w)) ->
  In r (tasks w) ->
  objects.is_due (now_of w) r = false ->
  let w' := fst (schedule_periodic_tasks w) in
  In r (tasks w')
  /\ forall x, In x (executions w') ->
       TaskExecution.task_id x = TaskDefinition.id r -> In x (executions w).
Proof.
  intros Hpk Hr Hnd w'. unfold w'. rewrite schedule_periodic_tasks_unfold.
  destruct (Py.for_each _ dispatch (tick w)) as [w1 o] eqn:Hrun. cbn [fst].
  split.
  - apply (for_each_other_rows r _ _ _ _ Hrun); [ | exact Hr ].
    intros t Ht. apply (not_due_is_not_dispatched w r t Hpk Hr Hnd Ht).
  - intros x Hx Hk.
    destruct (for_each_new_rows _ _ _ _ Hrun) as (_ & new & Hnew & _ & Hown).
    rewrite Hnew in Hx. apply in_app_or in Hx. destruct Hx as [Hx | Hx]; [ | exact Hx ].
    exfalso. destruct (Hown x Hx) as (_ & _ & Hin).
    apply in_map_iff in Hin. destruct Hin as (t & Hkt & Ht).
    apply (not_due_is_not_dispatched w r t Hpk Hr Hnd Ht). congruence.
Qed.

Lemma not_due_task_is_left_alone_witness :
  let paused := TaskDefinition.Build "t8" "sample" "paused" None (Some "print('Hello')")
                  "interval" "60" "" 3600 3 None (Some 0) 0 0 0 in
  let w := sample.world (paused :: sample.three_due) in
  let w' := fst (schedule_periodic_tasks w) in
  In paused (tasks w')
  /\ forall x, In x (executions w') ->
       TaskExecution.task_id x = "t8" -> In x (executions w).
Proof.
  intros paused w w'.
  apply (not_due_task_is_left_alone w paused).
  - vm_compute. repeat constructor; cbn; intuition discriminate.
  - left. reflexivity.
  - reflexivity.
Defined.

(** What the evaluator returns when it returns a time. *)
Lemma calculate_some (task : TaskDefinition.t) (w : World) (w1 : World)
    (next : datetime.datetime) :
  calculate_next_run_time task w = (w1, Ok (Some next)) ->
  (TaskDefinition.schedule_type task = "cron"
   /\ next = now_of w + 3600 * datetime.us_per_second)
  \/ (TaskDefinition.schedule_type task = "interval"
      /\ exists n, PyStr.int (TaskDefinition.schedule_value task) = Some n
                   /\ next = now_of w + n * datetime.us_per_second).
Proof.
  destruct (String.eqb (TaskDefinition.schedule_type task) "interval") eqn:Ei.
  - apply String.eqb_eq in Ei. rewrite (calculate_interval task w Ei).
    intros H. right. split; [ exact Ei | ].
    destruct (PyStr.int _) as [n | ]; [ | discriminate ].
    exists n. split; [ reflexivity | ].
    unfold datetime.timedelta_seconds, datetime.make_timedelta in H.
    destruct (_ && _) in H; [ | discriminate ].
    unfold datetime.add in H. destruct (_ && _) in H; [ | discriminate ].
    injection H as _ <-. reflexivity.
  - unfold calculate_next_run_time, Py.bind, timezone.now, Py.lift, Py.ret.
    rewrite Ei.
    destruct (String.eqb (TaskDefinition.schedule_type task) "once"); [ discriminate | ].
    destruct (String.eqb (TaskDefinition.schedule_type task) "cron") eqn:Ec; [ | discriminate ].
    apply String.eqb_eq in Ec. intros H. left. split; [ exact Ec | ].
    change (datetime.timedelta_hours 1) with (@Ok datetime.timedelta 3600000000) in H.
    cbv iota beta in H. unfold datetime.add in H.
    destruct (_ && _) in H; [ | discriminate ].
    injection H as _ <-. reflexivity.
Qed.

Lemma for_each_rescheduled (l : list TaskDefinition.t) : forall w w',
  Py.for_each l dispatch w = (w', Ok tt) ->
  List.NoDup (map TaskDefinition.id l) ->
  forall t row, In t l -> In row (tasks w') -> TaskDefinition.id row = TaskDefinition.id t ->
    exists wm next,
      services wm = services w /\ (ticks w <= ticks wm)%nat
      /\ calculate_next_run_time t wm = (tick wm, Ok next)
      /\ TaskDefinition.next_run_at row = next.
Proof.
  induction l as [ | a l IH ]; intros w w' Hrun Hnd t row Ht Hrow Hk; [ destruct Ht | ].
  rewrite for_each_cons in Hrun.
  destruct (dispatch a w) as [w1 [ [] | e ]] eqn:Ha; [ | discriminate ].
  destruct (dispatch_ok _ _ _ Ha) as (rid & next & _ & Hc & Hw1). cbv zeta in Hc, Hw1.
  cbn [map] in Hnd. apply List.NoDup_cons_iff in Hnd. destruct Hnd as [Ha' Hnd].
  destruct Ht as [<- | Ht].
  - eexists _, next. split; [ | split; [ | split; [ exact Hc | ] ] ].
    + reflexivity.
    + cbn [ticks set_executions tick draw_uuid]. lia.
    + assert (In row (tasks w1)) as Hin.
      { apply (for_each_other_rows row _ _ _ _ Hrun); [ | exact Hrow ].
        intros t' Ht' Hk'. apply Ha'. rewrite <- Hk, Hk'. apply in_map, Ht'. }
      rewrite Hw1 in Hin. cbn [tasks set_tasks] in Hin.
      apply (in_rescheduled_same _ _ _ _ Hin Hk).
  - destruct (IH _ _ Hrun Hnd t row Ht Hrow Hk) as (wm & next' & Hsv & Htk & Hc' & Hn).
    exists wm, next'. split; [ | split; [ | split; assumption ] ].
    + rewrite Hsv, Hw1. reflexivity.
    + rewrite Hw1 in Htk. cbn [ticks set_tasks set_executions tick draw_uuid] in Htk. lia.
Qed.

(** X11: after a dispatch cycle that ended without an exception, on a
    clock that never goes back, the only tasks that are still due at
    the time the cycle read are interval tasks whose interval reads as
    an integer that is zero or negative.  Every other task that was
    dispatched - once, cron, positive interval - is no longer due. *)
Theorem completed_cycle_leaves_only_bad_intervals_due (w w' : World) (row : TaskDefinition.t) :
  List.NoDup (map TaskDefinition.id (tasks w)) ->
  monotone_clock (services w) ->
  schedule_periodic_tasks w = (w', Ok tt) ->
  In row (tasks w') ->
  objects.is_due (now_of w) row = true ->
  exists t n,
    In t (tasks w)
    /\ TaskDefinition.id t = TaskDefinition.id row
    /\ TaskDefinition.schedule_type t = "interval"
    /\ PyStr.int (TaskDefinition.schedule_value t) = Some n
    /\ n <= 0.
Proof.
  intros Hpk Hclock Hrun Hrow Hdue. rewrite schedule_periodic_tasks_unfold in Hrun.
  set (due := List.filter (objects.is_due (now_of w)) (tasks w)) in *.
  destruct (existsb (fun t => String.eqb (TaskDefinition.id t) (TaskDefinition.id row)) due)
    eqn:E.
  - apply existsb_exists in E. destruct E as (t & Ht & Hk). apply String.eqb_eq in Hk.
    destruct (for_each_rescheduled _ _ _ Hrun (NoDup_map_filter _ _ _ Hpk) t row Ht Hrow
                (eq_sym Hk)) as (wm & next & Hsv & Htk & Hc & Hn).
    unfold objects.is_due in Hdue. apply andb_prop in Hdue. destruct Hdue as [_ Hdue].
    rewrite Hn in Hdue. destruct next as [nx | ]; [ | discriminate ].
    apply Z.leb_le in Hdue.
    assert (now_of w <= now_of wm) as Hlater.
    { unfold now_of. rewrite Hsv. apply Hclock. cbn [ticks tick] in Htk. lia. }
    apply filter_In in Ht. destruct Ht as [Ht _].
    destruct (calculate_some _ _ _ _ Hc) as [ [_ ->] | (Hi & n & Hint & ->) ].
    + unfold datetime.us_per_second in Hdue. lia.
    + exists t, n. repeat split; try assumption.
      unfold datetime.us_per_second in Hdue. lia.
  - exfalso.
    assert (In row (tasks w)) as Hin.
    { apply (for_each_other_rows row _ _ _ _ Hrun); [ | exact Hrow ].
      intros t Ht Hk.
      assert (existsb (fun t => String.eqb (TaskDefinition.id t) (TaskDefinition.id row)) due
              = true); [ | congruence ].
      apply existsb_exists. exists t. split; [ exact Ht | ].
      apply String.eqb_eq. congruence. }
    assert (existsb (fun t => String.eqb (TaskDefinition.id t) (TaskDefinition.id row)) due
            = true); [ | congruence ].
    apply existsb_exists. exists row. split; [ | apply String.eqb_refl ].
    apply filter_In. split; assumption.
Qed.

Lemma completed_cycle_leaves_only_bad_intervals_due_witness :
  let w := sample.world [sample.task "t1" "interval" "0"; sample.task "t2" "interval" "60"] in
  exists t n,
    In t (tasks w)
    /\ TaskDefinition.id t = "t1"
    /\ TaskDefinition.schedule_type t = "interval"
    /\ PyStr.int (TaskDefinition.schedule_value t) = Some n
    /\ n <= 0.
Proof.
  intros w.
  apply (completed_cycle_leaves_only_bad_intervals_due w (fst (schedule_periodic_tasks w))
           (TaskDefinition.set_next_run_at (Some sample.saturday_noon)
              (sample.task "t1" "interval" "0"))).
  - vm_compute. repeat constructor; cbn; intuition discriminate.
  - intros i j Hij. simpl. lia.
  - vm_compute. reflexivity.
  - vm_compute. left. reflexivity.
  - vm_compute. reflexivity.
Defined.

(* ===================================================================== *)
(** * The clean-up job, [cleanup_old_executions] *)
(* ===================================================================== *)

Section Cleanup.

Lemma filter_split_length {A} (p : A -> bool) (l : list A) :
  (List.length (List.filter p l) + List.length (List.filter (fun x => negb (p x)) l)
   = List.length l)%nat.
Proof.
  induction l as [ | x l IH ]; [ reflexivity | ].
  cbn [List.filter]. destruct (p x); cbn [negb List.length]; lia.
Qed.

Lemma filter_filter_same {A} (p : A -> bool) (l : list A) :
  List.filter p (List.filter p l) = List.filter p l.
Proof.
  induction l as [ | x l IH ]; [ reflexivity | ].
  cbn [List.filter]. destruct (p x) eqn:E; [ | exact IH ].
  cbn [List.filter]. rewrite E, IH. reflexivity.
Qed.

Lemma filter_filter_none {A} (p : A -> bool) (l : list A) :
  List.filter p (List.filter (fun x => negb (p x)) l) = [].
Proof.
  induction l as [ | x l IH ]; [ reflexivity | ].
  cbn [List.filter]. destruct (p x) eqn:E; cbn [negb]; [ exact IH | ].
  cbn [List.filter]. rewrite E. exact IH.
Qed.

(** The job, as a function of the clock reading. *)
Lemma cleanup_old_executions_run (w : World) :
  cleanup_old_executions w
  = match datetime.add (now_of w) (- (30 * datetime.us_per_day)) with
    | Raise e => (tick w, Raise e)
    | Ok cutoff =>
        let old := fun r => TaskExecution.created_at r <? cutoff in
        (set_executions (List.filter (fun r => negb (old r)) (executions w)) (tick w),
         Ok ("Cleaned up "
             +:+ PyStr.str_of_int (Z.of_nat (List.length (List.filter old (executions w))))
             +:+ " old execution records"))
    end.
Proof.
  unfold cleanup_old_executions, Py.bind, timezone.now, Py.lift, Py.ret.
  change (timedelta_days 30) with (@Ok datetime.timedelta (30 * datetime.us_per_day)).
  cbv iota beta. unfold datetime_sub.
  destruct (datetime.add _ _) as [cutoff | e]; reflexivity.
Qed.

Lemma cutoff_in_range (w : World) :
  datetime.in_range (now_of w - 30 * datetime.us_per_day) ->
  datetime.add (now_of w) (- (30 * datetime.us_per_day))
  = Ok (now_of w - 30 * datetime.us_per_day).
Proof.
  unfold datetime.in_range, datetime.add. intros [Hlo Hhi].
  replace (now_of w + - (30 * datetime.us_per_day))
    with (now_of w - 30 * datetime.us_per_day) by lia.
  apply Z.leb_le in Hlo, Hhi. rewrite Hlo, Hhi. reflexivity.
Qed.

Lemma execution_key_inj (rows : list TaskExecution.t) (a b : TaskExecution.t) :
  List.NoDup (map TaskExecution.id rows) -> In a rows -> In b rows ->
  TaskExecution.id a = TaskExecution.id b -> a = b.
Proof.
  induction rows as [ | r rows IH ]; intros Hnd Ha Hb Hk; [ destruct Ha | ].
  cbn [map] in Hnd. apply List.NoDup_cons_iff in Hnd. destruct Hnd as [Hr Hnd].
  destruct Ha as [<- | Ha], Hb as [<- | Hb]; [ reflexivity | .. ].
  - exfalso. apply Hr. rewrite Hk. apply in_map, Hb.
  - exfalso. apply Hr. rewrite <- Hk. apply in_map, Ha.
  - apply IH; assumption.
Qed.

End Cleanup.

(** X12: when the clock reads a time at least 30 days after
    [datetime.min], the clean-up job deletes exactly the executions
    created more than 30 days before the reading: a row is kept if and
    only if its [created_at] is not before the cut-off.  The number in
    the returned message is the number of rows removed, and the task
    table - the run counters included - is not touched. *)
Theorem cleanup_deletes_exactly_the_old_rows (w : World) :
  let cutoff := now_of w - 30 * datetime.us_per_day in
  datetime.in_range cutoff ->
  exists w' n,
    cleanup_old_executions w
    = (w', Ok ("Cleaned up " +:+ PyStr.str_of_int n +:+ " old execution records"))
    /\ (forall x, In x (executions w')
                  <-> In x (executions w) /\ cutoff <= TaskExecution.created_at x)
    /\ Z.of_nat (List.length (executions w)) = n + Z.of_nat (List.length (executions w'))
    /\ tasks w' = tasks w.
Proof.
  intros cutoff Hrange. rewrite cleanup_old_executions_run, (cutoff_in_range w Hrange). fold cutoff.
  cbv zeta. eexists _, _. split; [ reflexivity | ].
  cbn [executions tasks set_executions tick]. split; [ | split; [ | reflexivity ] ].
  - intros x. rewrite filter_In. rewrite negb_true_iff, Z.ltb_ge. reflexivity.
  - pose proof (filter_split_length (fun r => TaskExecution.created_at r <? cutoff)
                  (executions w)). lia.
Qed.

Lemma cleanup_deletes_exactly_the_old_rows_witness :
  let w := sample.queued sample.default_services in
  exists w' n,
    cleanup_old_executions w
    = (w', Ok ("Cleaned up " +:+ PyStr.str_of_int n +:+ " old execution records"))
    /\ (forall x, In x (executions w')
                  <-> In x (executions w)
                      /\ now_of w - 30 * datetime.us_per_day <= TaskExecution.created_at x)
    /\ Z.of_nat (List.length (executions w)) = n + Z.of_nat (List.length (executions w'))
    /\ tasks w' = tasks w.
Proof.
  intros w. apply (cleanup_deletes_exactly_the_old_rows w).
  unfold datetime.in_range. vm_compute. split; discriminate.
Defined.

(** X13: a second clean-up at the same clock reading deletes nothing
    and reports zero. *)
Theorem cleanup_again_deletes_nothing (w w1 : World) (message : string) :
  cleanup_old_executions w = (w1, Ok message) ->
  now_of w1 = now_of w ->
  cleanup_old_executions w1 = (tick w1, Ok "Cleaned up 0 old execution records").
Proof.
  intros Hrun Hsame. rewrite cleanup_old_executions_run in Hrun. rewrite cleanup_old_executions_run, Hsame.
  destruct (datetime.add (now_of w) _) as [cutoff | e]; [ | discriminate ].
  cbv zeta in Hrun. injection Hrun as <- _. cbv zeta.
  cbn [executions set_executions tick].
  rewrite filter_filter_none.
  rewrite (filter_filter_same (fun r => negb (TaskExecution.created_at r <? cutoff))).
  reflexivity.
Qed.

Lemma cleanup_again_deletes_nothing_witness :
  let w := sample.queued sample.default_services in
  let w1 := fst (cleanup_old_executions w) in
  cleanup_old_executions w1 = (tick w1, Ok "Cleaned up 0 old execution records").
Proof.
  intros w w1.
  apply (cleanup_again_deletes_nothing w w1 "Cleaned up 0 old execution records");
    reflexivity.
Defined.

(** X14: the clean-up selects by age alone.  An execution created
    more than 30 days before the reading is deleted whatever its
    status, also when it is still pending or running; a worker that
    takes its message afterwards finds no row, changes nothing and
    returns the not-found failure. *)
Theorem cleaned_up_execution_is_not_found (w : World) (k : string) (e : TaskExecution.t) :
  datetime.in_range (now_of w - 30 * datetime.us_per_day) ->
  List.NoDup (map TaskExecution.id (executions w)) ->
  objects.find_execution k (executions w) = Some e ->
  TaskExecution.created_at e < now_of w - 30 * datetime.us_per_day ->
  let w1 := fst (cleanup_old_executions w) in
  objects.find_execution k (executions w1) = None
  /\ execute_python_script k w1
     = (w1, Ok (failure_dict ("TaskExecution with id " +:+ k +:+ " not found"))).
Proof.
  intros Hrange Hpk Hfe Hold w1.
  assert (objects.find_execution k (executions w1) = None) as Hnone.
  { unfold w1. rewrite cleanup_old_executions_run, (cutoff_in_range w Hrange). cbv zeta.
    cbn [fst executions set_executions tick].
    destruct (objects.find_execution k (List.filter _ (executions w))) as [x | ] eqn:Hx;
      [ exfalso | reflexivity ].
    pose proof (find_execution_id _ _ _ Hx) as Hkx.
    pose proof (find_execution_id _ _ _ Hfe) as Hke.
    unfold objects.find_execution in Hx, Hfe.
    apply find_some in Hx, Hfe. destruct Hx as [Hx _], Hfe as [Hfe _].
    apply filter_In in Hx. destruct Hx as [Hx Hkeep].
    assert (x = e) as -> by (apply (execution_key_inj _ _ _ Hpk Hx Hfe); congruence).
    apply negb_true_iff, Z.ltb_ge in Hkeep. lia. }
  split; [ exact Hnone | apply worker_not_found, Hnone ].
Qed.

Lemma cleaned_up_execution_is_not_found_witness :
  let stale := TaskExecution.Build "exec-0" "t1" "pending" "celery-exec-0" None None
                 (sample.saturday_noon - 31 * datetime.us_per_day) "" "" None None in
  let w := set_executions [stale] (sample.queued sample.default_services) in
  let w1 := fst (cleanup_old_executions w) in
  objects.find_execution "exec-0" (executions w1) = None
  /\ execute_python_script "exec-0" w1
     = (w1, Ok (failure_dict "TaskExecution with id exec-0 not found")).
Proof.
  intros stale w w1.
  apply (cleaned_up_execution_is_not_found w "exec-0" stale).
  - unfold datetime.in_range. vm_compute. split; discriminate.
  - vm_compute. repeat constructor; cbn; intuition discriminate.
  - reflexivity.
  - vm_compute. reflexivity.
Defined.

(* ===================================================================== *)
(** * The submission form, [TaskSubmissionForm.clean] *)
(* ===================================================================== *)

Lemma truthy_empty (s : string) : PyStr.truthy s = false <-> s = "".
Proof. destruct s; cbn; split; congruence. Qed.

Lemma clean_schedule_raises (schedule_type schedule_value : string) (e : exn) :
  clean_schedule schedule_type schedule_value = Raise e -> exn_cls e = ValidationError.
Proof.
  unfold clean_schedule, py_int.
  destruct (_ && _); [ | discriminate ].
  destruct (String.eqb schedule_type "cron").
  - destruct (negb _); [ intros [= <-]; reflexivity | discriminate ].
  - destruct (String.eqb schedule_type "interval"); [ | discriminate ].
    destruct (PyStr.int schedule_value) as [n | ]; cbn [obind].
    + destruct (n <=? 0); [ | discriminate ]. cbn. intros [= <-]. reflexivity.
    + cbn. intros [= <-]. reflexivity.
Qed.

Lemma clean_schedule_accepts (schedule_type schedule_value : string) :
  clean_schedule schedule_type schedule_value = Ok tt
  <-> schedule_ok schedule_type schedule_value.
Proof.
  unfold schedule_ok.
  destruct (PyStr.truthy schedule_type) eqn:Ht.
  2:{ apply truthy_empty in Ht. subst. split; [ left; reflexivity | reflexivity ]. }
  destruct (PyStr.truthy schedule_value) eqn:Hv.
  2:{ apply truthy_empty in Hv. subst. unfold clean_schedule. rewrite Ht.
      split; [ right; left; reflexivity | reflexivity ]. }
  assert (schedule_type <> "") as Ht' by (intros ->; discriminate).
  assert (schedule_value <> "") as Hv' by (intros ->; discriminate).
  destruct (String.eqb schedule_type "cron") eqn:Ec.
  - apply String.eqb_eq in Ec. subst schedule_type.
    unfold clean_schedule. rewrite Hv. cbn [PyStr.truthy andb String.eqb Ascii.eqb Bool.eqb].
    destruct (_validate_cron_expression schedule_value); cbn [negb].
    + split; [ intros _; right; right; left; split; reflexivity | reflexivity ].
    + split; [ discriminate | ].
      intros [H | [H | [[_ H] | [[H _] | [H _]]]]]; congruence.
  - destruct (String.eqb schedule_type "interval") eqn:Ei.
    + apply String.eqb_eq in Ei. subst schedule_type.
      rewrite (validated_interval_is_positive _ Hv). split.
      * intros H. right; right; right; left. split; [ reflexivity | exact H ].
      * intros [H | [H | [[H _] | [[_ H] | [_ H]]]]]; first [ exact H | congruence ].
    + unfold clean_schedule. rewrite Ht, Hv, Ec, Ei. cbn [andb].
      apply String.eqb_neq in Ec, Ei.
      split; [ intros _; right; right; right; right; split; assumption | reflexivity ].
Qed.

(** X15: [clean] accepts the data exactly when a script is named - an
    uploaded file or pasted code - and the schedule passes: a cron
    value must pass the validator and an interval value must read as a
    positive integer, while an empty value, an empty type and any
    other type pass unchecked.  Accepted data are returned unchanged,
    and whatever is refused is refused with a [ValidationError]; a
    missing script is reported before the schedule is looked at. *)
Theorem clean_accepts (data : cleaned_data.t) :
  let schedule_type := or_empty (cleaned_data.schedule_type data) in
  let schedule_value := or_empty (cleaned_data.schedule_value data) in
  (clean data = Ok data
   <-> has_script data = true /\ schedule_ok schedule_type schedule_value)
  /\ (forall d, clean data = Ok d -> d = data)
  /\ (forall e, clean data = Raise e -> exn_cls e = ValidationError)
  /\ (has_script data = false ->
      clean data
      = Raise (MkExn ValidationError
                 "Please provide either a Python script file or paste your code.")).
Proof.
  intros schedule_type schedule_value. unfold clean, has_script.
  fold schedule_type schedule_value.
  rewrite <- negb_orb.
  destruct (file_field_truthy _ || truthy_opt _); cbn [negb].
  - pose proof (clean_schedule_accepts schedule_type schedule_value) as Hs.
    pose proof (clean_schedule_raises schedule_type schedule_value) as Hr.
    destruct (clean_schedule schedule_type schedule_value) as [ [] | e ]; cbn [obind].
    + split; [ | split; [ | split ] ].
      * split; [ intros _; split; [ reflexivity | apply Hs; reflexivity ] | reflexivity ].
      * intros d [= <-]. reflexivity.
      * discriminate.
      * discriminate.
    + split; [ | split; [ | split ] ].
      * split; [ discriminate | ]. intros [_ H]. apply Hs in H. discriminate.
      * discriminate.
      * intros e' [= <-]. apply (Hr e). reflexivity.
      * discriminate.
  - split; [ | split; [ | split ] ].
    + split; [ discriminate | intros [H _]; discriminate ].
    + discriminate.
    + intros e [= <-]. reflexivity.
    + reflexivity.
Qed.

(** X16: an interval value that the form accepts never schedules a run
    in the past: the evaluator returns a time strictly after its clock
    reading; or [None], and then the value is empty; or it raises, and
    then what it raises is an [OverflowError], which its
    [except (ValueError, TypeError)] clause lets through. *)
Theorem accepted_interval_is_never_in_the_past (task : TaskDefinition.t) (w : World) :
  TaskDefinition.schedule_type task = "interval" ->
  clean_schedule "interval" (TaskDefinition.schedule_value task) = Ok tt ->
  match snd (calculate_next_run_time task w) with
  | Ok (Some next) => now_of w < next
  | Ok None => TaskDefinition.schedule_value task = ""
  | Raise e =>
      exn_cls e = OverflowError
      /\ isinstance e ValueError || isinstance e TypeError = false
  end.
Proof.
  intros Hk Hclean. rewrite (calculate_interval task w Hk). cbn [snd].
  destruct (PyStr.truthy (TaskDefinition.schedule_value task)) eqn:Hv.
  - apply (validated_interval_is_positive _ Hv) in Hclean.
    destruct Hclean as (n & -> & Hn).
    unfold datetime.timedelta_seconds, datetime.make_timedelta.
    destruct (_ && _); [ | split; reflexivity ].
    unfold datetime.add. destruct (_ && _); [ | split; reflexivity ].
    unfold datetime.us_per_second. lia.
  - apply truthy_empty in Hv. rewrite Hv. reflexivity.
Qed.

Lemma accepted_interval_is_never_in_the_past_witness :
  now_of (sample.world [])
  < sample.saturday_noon + 60 * datetime.us_per_second.
Proof.
  exact (accepted_interval_is_never_in_the_past (sample.task "t1" "interval" "60")
           (sample.world []) eq_refl eq_refl).
Defined.

(* ===================================================================== *)
(** * Intervals beyond the range of [timedelta] *)
(* ===================================================================== *)

Lemma dispatch_calculate_fault (task : TaskDefinition.t) (w : World) (rid : string) (e : exn) :
  objects.find_execution (uuid_source (services w) (uuids_drawn w)) (executions w) = None ->
  broker_delay (services w) (uuid_source (services w) (uuids_drawn w)) = Ok rid ->
  let x := TaskExecution.set_celery_task_id rid (pending_row task w) in
  let wm := set_executions (x :: executions w) (tick (draw_uuid w)) in
  snd (calculate_next_run_time task wm) = Raise e ->
  dispatch task w = (tick wm, Raise e).
Proof.
  intros Hfe Hb x wm Hc.
  unfold dispatch, objects.create_execution, objects.save_execution,
    objects.update_execution_rows, uuid.uuid4, timezone.now, Py.bind, Py.ret, Py.raise, Py.modify.
  cbn [tasks executions draw_uuid tick set_executions set_tasks services].
  rewrite Hfe. cbn [services set_executions tick draw_uuid TaskExecution.id].
  rewrite Hb.
  cbn [tasks executions draw_uuid tick set_executions set_tasks services TaskExecution.id
         TaskExecution.set_celery_task_id objects.find_execution find].
  rewrite String.eqb_refl.
  cbn [map TaskExecution.id]. rewrite String.eqb_refl.
  change (find _ (executions w)) with
    (objects.find_execution (uuid_source (services w) (uuids_drawn w)) (executions w)) in Hfe.
  rewrite (save_untouched _ _ _ Hfe).
  change (set_executions _ _) with wm.
  pose proof (calculate_state task wm) as Hst.
  destruct (calculate_next_run_time task wm) as [w1 o]. cbn [fst snd] in Hst, Hc.
  subst w1 o. reflexivity.
Qed.

Lemma timedelta_seconds_overflow (n : Z) :
  86400 * 1000000000 <= n ->
  exists message, datetime.timedelta_seconds n = Raise (MkExn OverflowError message).
Proof.
  intros Hn. unfold datetime.timedelta_seconds, datetime.make_timedelta,
    datetime.us_per_day, datetime.us_per_second, datetime.overflow.
  rewrite Z.div_mul_cancel_r by lia.
  assert (1000000000 <= n / 86400) as Hd by (apply Z.div_le_lower_bound; lia).
  replace (n / 86400 <=? 999999999) with false by (symmetry; apply Z.leb_gt; lia).
  rewrite andb_false_r. eexists. reflexivity.
Qed.

(** X17: an interval of 86400000000000 seconds or more is a positive
    integer, so the form accepts it, but it is beyond the range of
    [timedelta].  When such a task is due and its message has been
    queued, the evaluator raises [OverflowError] and the cycle ends
    with it: the pending execution stays queued, and the task table is
    as the tasks dispatched before left it, so the task keeps its
    [next_run_at] and the tasks after it are not dispatched. *)
Theorem overflowing_interval_stops_the_cycle
    (w w1 : World) (pre post : list TaskDefinition.t) (t : TaskDefinition.t)
    (n : Z) (rid : string) :
  List.filter (objects.is_due (now_of w)) (tasks w) = (pre ++ t :: post)%list ->
  Py.for_each pre dispatch (tick w) = (w1, Ok tt) ->
  objects.find_execution (uuid_source (services w1) (uuids_drawn w1)) (executions w1) = None ->
  broker_delay (services w1) (uuid_source (services w1) (uuids_drawn w1)) = Ok rid ->
  TaskDefinition.schedule_type t = "interval" ->
  PyStr.int (TaskDefinition.schedule_value t) = Some n ->
  86400 * 1000000000 <= n ->
  clean_schedule "interval" (TaskDefinition.schedule_value t) = Ok tt
  /\ exists w2 e,
       schedule_periodic_tasks w = (w2, Raise e)
       /\ exn_cls e = OverflowError
       /\ executions w2
          = TaskExecution.set_celery_task_id rid (pending_row t w1) :: executions w1
       /\ tasks w2 = tasks w1.
Proof.
  intros Hdue Hpre Hfresh Hb Hk Hint Hn. split.
  - assert (PyStr.truthy (TaskDefinition.schedule_value t) = true) as Hv.
    { destruct (TaskDefinition.schedule_value t); [ discriminate | reflexivity ]. }
    apply (validated_interval_is_positive _ Hv). exists n. split; [ exact Hint | lia ].
  - destruct (timedelta_seconds_overflow n Hn) as (message & Hover).
    exists (tick (set_executions
                    (TaskExecution.set_celery_task_id rid (pending_row t w1) :: executions w1)
                    (tick (draw_uuid w1)))), (MkExn OverflowError message).
    split; [ | split; [ reflexivity | split; reflexivity ] ].
    rewrite schedule_periodic_tasks_unfold, Hdue, (for_each_app _ _ _ _ _ Hpre), for_each_cons.
    rewrite (dispatch_calculate_fault t w1 rid (MkExn OverflowError message) Hfresh Hb).
    + reflexivity.
    + rewrite (calculate_interval t _ Hk), Hint, Hover. reflexivity.
Qed.

Lemma overflowing_interval_stops_the_cycle_witness :
  let t := sample.task "t1" "interval" "86400000000000" in
  let w := sample.world [t; sample.task "t2" "interval" "60"] in
  clean_schedule "interval" (TaskDefinition.schedule_value t) = Ok tt
  /\ exists w2 e,
       schedule_periodic_tasks w = (w2, Raise e)
       /\ exn_cls e = OverflowError
       /\ executions w2
          = TaskExecution.set_celery_task_id "celery-exec-0" (pending_row t (tick w))
            :: executions (tick w)
       /\ tasks w2 = tasks (tick w).
Proof.
  intros t w.
  apply (overflowing_interval_stops_the_cycle w (tick w) [] [sample.task "t2" "interval" "60"]
           t 86400000000000 "celery-exec-0").
  - reflexivity.
  - reflexivity.
  - reflexivity.
  - reflexivity.
  - reflexivity.
  - vm_compute. reflexivity.
  - lia.
Defined.

(* ===================================================================== *)
(** * The numbers the five patterns accept *)
(* ===================================================================== *)

Section Patterns.

(** A character is one of the twelve the patterns can consume, or it
    fails every test the patterns make. *)
Lemma char_cases (c : ascii) :
  In c ["0"; "1"; "2"; "3"; "4"; "5"; "6"; "7"; "8"; "9"; "*"; ascii_of_nat 10]%char
  \/ (PyStr.isdigit c = false
      /\ Ascii.eqb "*" c = false
      /\ Ascii.eqb c (ascii_of_nat 10) = false
      /\ Ascii.eqb "0" c = false /\ Ascii.eqb "1" c = false
      /\ Ascii.eqb "2" c = false /\ Ascii.eqb "3" c = false
      /\ re.in_range "0" "5" c = false
      /\ re.in_range "0" "3" c = false
      /\ re.in_range "0" "6" c = false).
Proof.
  destruct c as [[] [] [] [] [] [] [] []];
    first [ right; repeat split; reflexivity
          | left; cbn [In ascii_of_nat]; repeat (first [ left; reflexivity | right ]) ].
Qed.

End Patterns.

(** Closes a goal about a subject that is known in full. *)
Ltac subject_known Hm :=
  first [ let H := fresh in (assert (H := Hm); vm_compute in H; discriminate H)
        | vm_compute; reflexivity ].

(** A character that fails every test. *)
Ltac subject_other Hm Hc s :=
  let h1 := fresh in let h2 := fresh in let h3 := fresh in let h4 := fresh in
  let h5 := fresh in let h6 := fresh in let h7 := fresh in let h8 := fresh in
  let h9 := fresh in let h10 := fresh in
  destruct Hc as (h1 & h2 & h3 & h4 & h5 & h6 & h7 & h8 & h9 & h10);
  unfold re.matches, patterns.minute, patterns.hour, patterns.day_of_month,
    patterns.month, patterns.day_of_week, patterns.anchored in Hm;
  cbn [re.run] in Hm;
  rewrite ?h1, ?h2, ?h3, ?h4, ?h5, ?h6, ?h7, ?h8, ?h9, ?h10 in Hm;
  destruct s; vm_compute in Hm; discriminate Hm.

(** Reads the subject character by character, as far as a match can go. *)
Ltac read_subject Hm s depth :=
  let c := fresh "c" in let s' := fresh "s" in let Hc := fresh "Hc" in
  destruct s as [ | c s' ];
  [ subject_known Hm
  | first
      [ let H := fresh in (assert (H := Hm); vm_compute in H; discriminate H)
      | lazymatch depth with
        | O => fail
        | S ?d =>
            destruct (char_cases c) as [Hc | Hc];
            [ cbn [In] in Hc;
              repeat (destruct Hc as [Hc | Hc]; [ subst c; read_subject Hm s' d | ]);
              destruct Hc
            | subject_other Hm Hc s' ]
        end ] ].

Lemma minute_is_at_most_59 (s : string) :
  re.matches patterns.minute s = true ->
  match PyStr.int s with Some v => v <=? 59 | None => true end = true.
Proof. intros Hm. read_subject Hm s 3%nat. Qed.

Lemma hour_is_at_most_23 (s : string) :
  re.matches patterns.hour s = true ->
  match PyStr.int s with Some v => v <=? 23 | None => true end = true.
Proof. intros Hm. read_subject Hm s 3%nat. Qed.

Lemma day_of_month_is_at_most_31 (s : string) :
  re.matches patterns.day_of_month s = true ->
  match PyStr.int s with Some v => v <=? 31 | None => true end = true.
Proof. intros Hm. read_subject Hm s 3%nat. Qed.

Lemma month_is_at_most_19 (s : string) :
  re.matches patterns.month s = true ->
  match PyStr.int s with Some v => v <=? 19 | None => true end = true.
Proof. intros Hm. read_subject Hm s 3%nat. Qed.

Lemma day_of_week_is_at_most_6 (s : string) :
  re.matches patterns.day_of_week s = true ->
  match PyStr.int s with Some v => v <=? 6 | None => true end = true.
Proof. intros Hm. read_subject Hm s 3%nat. Qed.

(** The decimal text of every number up to the bound matches. *)
Ltac every_number_up_to n :=
  let p := fresh "p" in
  destruct n as [ | p | p ]; [ reflexivity | | lia ];
  do 6 (try (destruct p as [ p | p | ]; try lia; try reflexivity)).

(** X18: written as a plain number, a field is accepted by the
    pattern of its position exactly for these values: minute 0 to 59,
    hour 0 to 23, day of month 0 to 31, month 0 to 19, day of week 0
    to 6.  So the day-of-month and month patterns admit 0, and the
    month pattern admits 13 to 19. *)
Theorem plain_numbers_accepted (n : Z) :
  0 <= n ->
  (re.matches patterns.minute (PyStr.str_of_int n) = true <-> n <= 59)
  /\ (re.matches patterns.hour (PyStr.str_of_int n) = true <-> n <= 23)
  /\ (re.matches patterns.day_of_month (PyStr.str_of_int n) = true <-> n <= 31)
  /\ (re.matches patterns.month (PyStr.str_of_int n) = true <-> n <= 19)
  /\ (re.matches patterns.day_of_week (PyStr.str_of_int n) = true <-> n <= 6).
Proof.
  intros Hn.
  split; [ | split; [ | split; [ | split ] ] ]; split.
  - intros Hm. apply minute_is_at_most_59 in Hm.
    rewrite int_str_of_int in Hm. apply Z.leb_le, Hm.
  - intros Hb. every_number_up_to n.
  - intros Hm. apply hour_is_at_most_23 in Hm.
    rewrite int_str_of_int in Hm. apply Z.leb_le, Hm.
  - intros Hb. every_number_up_to n.
  - intros Hm. apply day_of_month_is_at_most_31 in Hm.
    rewrite int_str_of_int in Hm. apply Z.leb_le, Hm.
  - intros Hb. every_number_up_to n.
  - intros Hm. apply month_is_at_most_19 in Hm.
    rewrite int_str_of_int in Hm. apply Z.leb_le, Hm.
  - intros Hb. every_number_up_to n.
  - intros Hm. apply day_of_week_is_at_most_6 in Hm.
    rewrite int_str_of_int in Hm. apply Z.leb_le, Hm.
  - intros Hb. every_number_up_to n.
Qed.

Lemma plain_numbers_accepted_witness :
  (re.matches patterns.minute (PyStr.str_of_int 60) = true <-> 60 <= 59)
  /\ (re.matches patterns.hour (PyStr.str_of_int 60) = true <-> 60 <= 23)
  /\ (re.matches patterns.day_of_month (PyStr.str_of_int 60) = true <-> 60 <= 31)
  /\ (re.matches patterns.month (PyStr.str_of_int 60) = true <-> 60 <= 19)
  /\ (re.matches patterns.day_of_week (PyStr.str_of_int 60) = true <-> 60 <= 6).
Proof. apply (plain_numbers_accepted 60). lia. Defined.

(* ===================================================================== *)
(** * The views: manual execution, [task_execute_view] *)
(* ===================================================================== *)

Lemma create_execution_run (t : TaskDefinition.t) (w : World) :
  objects.create_execution t w
  = match objects.find_execution (uuid_source (services w) (uuids_drawn w)) (executions w) with
    | Some _ =>
        (tick (draw_uuid w),
         Raise (MkExn IntegrityError "UNIQUE constraint failed: tasks_taskexecution.id"))
    | None =>
        (set_executions (pending_row t w :: executions w) (tick (draw_uuid w)),
         Ok (pending_row t w))
    end.
Proof.
  unfold objects.create_execution, uuid.uuid4, timezone.now, Py.bind, Py.ret, Py.raise,
    Py.modify.
  cbn [tasks executions draw_uuid tick set_executions set_tasks services].
  destruct (objects.find_execution _ _); reflexivity.
Qed.

(** The new row is the only one with its key. *)
Lemma update_new_row (x : TaskExecution.t) (rows : list TaskExecution.t)
    (obj : TaskExecution.t) (copy : TaskExecution.t -> TaskExecution.t -> TaskExecution.t) :
  TaskExecution.id obj = TaskExecution.id x ->
  objects.find_execution (TaskExecution.id x) rows = None ->
  objects.update_execution_rows obj copy (x :: rows) = copy obj x :: rows.
Proof.
  intros Hk Hfresh. unfold objects.update_execution_rows. cbn [map].
  rewrite Hk, String.eqb_refl. f_equal. apply save_untouched, Hfresh.
Qed.

(** The two ways [queue_execution] ends, for an execution [x] that was
    just inserted. *)
Lemma queue_execution_run (s : Site) (x : TaskExecution.t) (t tr : TaskDefinition.t)
    (rows : list TaskExecution.t) :
  executions (db s) = x :: rows ->
  objects.find_execution (TaskExecution.id x) rows = None ->
  objects.find_task (TaskDefinition.id t) (tasks (db s)) = Some tr ->
  with_view_objects x t queue_execution s
  = match broker_delay (services (db s)) (TaskExecution.id x) with
    | Ok rid =>
        ({| db := set_executions (TaskExecution.set_celery_task_id rid x :: rows) (db s);
            task_user := task_user s;
            flashed := (flashed s
                        ++ [("success",
                             "Task " +:+ dquote +:+ TaskDefinition.name t +:+ dquote
                             +:+ " has been queued for execution!")])%list |}, Ok tt)
    | Raise e =>
        ({| db := set_tasks
                    (objects.update_task_rows (counted_task (now_of (db s)) "failure" t)
                       objects.fields_statistics (tasks (db s)))
                    (set_executions
                       (objects.fields_completed
                          (completed_object (now_of (db s)) "failure" "" (exn_str e) None x) x
                        :: rows)
                       (tick (db s)));
            task_user := task_user s;
            flashed := (flashed s
                        ++ [("error", "Failed to queue task: " +:+ exn_str e)])%list |}, Ok tt)
    end.
Proof.
  intros Hrows Hfresh Hft.
  assert (objects.find_execution (TaskExecution.id x) (executions (db s)) = Some x) as Hfe.
  { rewrite Hrows. unfold objects.find_execution. cbn [find]. rewrite String.eqb_refl.
    reflexivity. }
  unfold with_view_objects, queue_execution, Py.try_except.
  unfold Py.bind at 1. cbn [execution site].
  unfold Py.bind at 1. cbn [site].
  destruct (broker_delay (services (db s)) (TaskExecution.id x)) as [rid | e].
  - unfold Py.bind at 1. unfold on_objects at 1, update_self, Py.modify.
    cbn [site execution task world self self_task].
    unfold Py.bind at 1. cbn [execution].
    unfold Py.bind at 1. unfold on_objects at 1, in_world, objects.save_execution.
    cbn [site execution task world self self_task db TaskExecution.id
           TaskExecution.set_celery_task_id].
    rewrite Hfe. cbn [world self self_task].
    unfold Py.bind at 1. cbn [task].
    unfold on_site, messages.success, messages.add, Py.modify.
    cbn [site db task_user flashed]. rewrite Hrows.
    rewrite (update_new_row x rows (TaskExecution.set_celery_task_id rid x) _ eq_refl Hfresh).
    reflexivity.
  - rewrite isinstance_exception. unfold Py.bind at 1. unfold on_objects at 1.
    cbn [site execution task].
    rewrite mark_completed_run. cbv zeta. cbn [world self self_task].
    rewrite completed_object_id, Hfe.
    cbn [tasks set_executions tick]. rewrite counted_task_id, Hft.
    unfold on_site, messages.error, messages.add, Py.modify.
    cbn [site db task_user flashed]. rewrite Hrows.
    rewrite (update_new_row x rows _ _ (completed_object_id _ _ _ _ _ _) Hfresh).
    reflexivity.
Qed.

(** X19: a confirmed POST of the owner to [task_execute_view] inserts
    one execution of the task and always answers with the redirect to
    the task's page.  When the broker takes the message, the row stays
    pending with the broker's message id and the task row is not
    touched.  When the broker raises, the view - unlike the periodic
    dispatch - catches the exception: the row is completed as a
    "failure" with the text of the exception, without exit code and
    without execution time, the task counts one more failed run, and the
    error is flashed. *)
Theorem manual_execution_is_queued_or_recorded
    (request : HttpRequest.t) (pk user : string) (s : Site) (t : TaskDefinition.t) :
  HttpRequest.user request = Some user ->
  HttpRequest.method request = "POST" ->
  HttpRequest.confirmed request = true ->
  objects.find_task pk (tasks (db s)) = Some t ->
  task_user s !! pk = Some user ->
  let w := db s in
  let uid := uuid_source (services w) (uuids_drawn w) in
  objects.find_execution uid (executions w) = None ->
  let s' := fst (task_execute_view request pk s) in
  snd (task_execute_view request pk s) = Ok (Redirect "tasks:detail" (Some pk))
  /\ match broker_delay (services w) uid with
     | Ok rid =>
         executions (db s')
         = TaskExecution.set_celery_task_id rid (pending_row t w) :: executions w
         /\ tasks (db s') = tasks w
         /\ exists text, flashed s' = (flashed s ++ [("success", text)])%list
     | Raise e =>
         (exists row,
            executions (db s') = row :: executions w
            /\ TaskExecution.id row = uid
            /\ TaskExecution.task_id row = pk
            /\ TaskExecution.status row = "failure"
            /\ TaskExecution.error_output row = exn_str e
            /\ TaskExecution.exit_code row = None
            /\ TaskExecution.execution_time_seconds row = None
            /\ TaskExecution.celery_task_id row = "")
         /\ (exists trow,
               objects.find_task pk (tasks (db s')) = Some trow
               /\ TaskDefinition.total_runs trow = TaskDefinition.total_runs t + 1
               /\ TaskDefinition.failed_runs trow = TaskDefinition.failed_runs t + 1
               /\ TaskDefinition.successful_runs trow = TaskDefinition.successful_runs t)
         /\ flashed s'
            = (flashed s ++ [("error", "Failed to queue task: " +:+ exn_str e)])%list
     end.
Proof.
  intros Hu Hm Hc Hft Howner w uid Hfresh s'. subst w uid.
  set (w := db s) in *.
  set (uid := uuid_source (services w) (uuids_drawn w)) in *.
  pose proof (find_task_id _ _ _ Hft) as Hk.
  assert (task_execute_view request pk s
          = let s1 := {| db := set_executions (pending_row t w :: executions w)
                                 (tick (draw_uuid w));
                         task_user := task_user s; flashed := flashed s |} in
            let '(s2, o) := with_view_objects (pending_row t w) t queue_execution s1 in
            match o with
            | Ok _ => (s2, Ok (Redirect "tasks:detail" (Some pk)))
            | Raise e => (s2, Raise e)
            end) as Hview.
  { unfold task_execute_view. rewrite Hu, Hm, Hc. cbn [String.eqb Ascii.eqb Bool.eqb negb].
    unfold Py.bind at 1. unfold get_object_or_404. fold w. rewrite Hft, Howner.
    rewrite String.eqb_refl.
    unfold Py.bind at 1. unfold Py.bind at 1. unfold in_db at 1. fold w.
    rewrite create_execution_run. fold uid. rewrite Hfresh. cbv zeta.
    destruct (with_view_objects _ _ _ _) as [s2 [ [] | e ]]; [ | reflexivity ].
    unfold Py.ret. rewrite Hk. reflexivity. }
  unfold s'. rewrite Hview. cbv zeta.
  rewrite (queue_execution_run _ (pending_row t w) t t (executions w));
    [ | reflexivity | exact Hfresh | cbn [db tasks set_executions tick draw_uuid]; rewrite Hk;
                                     exact Hft ].
  cbn [db services set_executions tick draw_uuid TaskExecution.id pending_row].
  fold uid.
  destruct (broker_delay (services w) uid) as [rid | e]; cbn [fst snd db flashed].
  - split; [ reflexivity | ]. split; [ reflexivity | ]. split; [ reflexivity | eauto ].
  - split; [ reflexivity | ]. split; [ | split; [ | reflexivity ] ].
    + eexists. split; [ reflexivity | ]. repeat split. exact Hk.
    + cbn [tasks set_tasks]. eexists. split.
      * rewrite <- Hk at 1. rewrite <- (counted_task_id (now_of
          (set_executions (pending_row t w :: executions w) (tick (draw_uuid w)))) "failure" t) at 1.
        apply find_task_updated; [ reflexivity | ].
        rewrite counted_task_id, Hk. exact Hft.
      * repeat split.
Qed.

Lemma manual_execution_is_queued_or_recorded_witness :
  let s := sample_site (sample.faulty_broker "exec-0") in
  let s' := fst (task_execute_view (request_of (Some "alice") "POST" true) "t1" s) in
  snd (task_execute_view (request_of (Some "alice") "POST" true) "t1" s)
  = Ok (Redirect "tasks:detail" (Some "t1"))
  /\ (exists row,
        executions (db s') = row :: executions (db s)
        /\ TaskExecution.id row = "exec-0"
        /\ TaskExecution.task_id row = "t1"
        /\ TaskExecution.status row = "failure"
        /\ TaskExecution.error_output row = "broker unreachable"
        /\ TaskExecution.exit_code row = None
        /\ TaskExecution.execution_time_seconds row = None
        /\ TaskExecution.celery_task_id row = "")
  /\ (exists trow,
        objects.find_task "t1" (tasks (db s')) = Some trow
        /\ TaskDefinition.total_runs trow = 0 + 1
        /\ TaskDefinition.failed_runs trow = 0 + 1
        /\ TaskDefinition.successful_runs trow = 0)
  /\ flashed s' = [("error", "Failed to queue task: broker unreachable")].
Proof.
  intros s s'.
  exact (manual_execution_is_queued_or_recorded (request_of (Some "alice") "POST" true)
           "t1" "alice" s (sample.task "t1" "interval" "60")
           eq_refl eq_refl eq_refl eq_refl eq_refl eq_refl).
Defined.

(* ===================================================================== *)
(** * The views: who may touch a task *)
(* ===================================================================== *)

Lemma get_object_or_404_foreign (pk user : string) (s : Site) :
  task_user s !! pk <> Some user -> get_object_or_404 pk user s = (s, Ok None).
Proof.
  intros Hne. unfold get_object_or_404.
  destruct (objects.find_task pk (tasks (db s))); [ | reflexivity ].
  destruct (task_user s !! pk) as [u | ] eqn:E; [ | reflexivity ].
  destruct (String.eqb u user) eqn:Eu; [ | reflexivity ].
  apply String.eqb_eq in Eu. congruence.
Qed.

(** X20: the three views that change a task serve its owner only.  A
    request of anybody else - anonymous, or signed in as a user who is
    not the task's - changes nothing in the database and flashes
    nothing, whatever it posts: it is answered by the redirect to the
    login page, by a 404, or for [task_execute_view] by a 405 when it
    is not a POST. *)
Theorem foreign_requests_change_nothing (request : HttpRequest.t) (pk : string) (s : Site) :
  (forall user, HttpRequest.user request = Some user -> task_user s !! pk <> Some user) ->
  let refused := match HttpRequest.user request with
                 | None => RedirectToLogin
                 | Some _ => NotFound
                 end in
  task_update_view request pk s = (s, Ok refused)
  /\ task_delete_view request pk s = (s, Ok refused)
  /\ task_execute_view request pk s
     = (s, Ok match HttpRequest.user request with
              | None => RedirectToLogin
              | Some _ =>
                  if String.eqb (HttpRequest.method request) "POST"
                  then NotFound else NotAllowed
              end).
Proof.
  intros Hforeign refused. unfold refused.
  unfold task_update_view, task_delete_view, task_execute_view.
  destruct (HttpRequest.user request) as [user | ]; [ | repeat split ].
  specialize (Hforeign user eq_refl).
  unfold Py.bind. rewrite (get_object_or_404_foreign _ _ _ Hforeign).
  split; [ reflexivity | ]. split; [ reflexivity | ].
  destruct (String.eqb (HttpRequest.method request) "POST"); cbn [negb]; [ | reflexivity ].
  rewrite (get_object_or_404_foreign _ _ _ Hforeign). reflexivity.
Qed.

Lemma foreign_requests_change_nothing_witness :
  let s := sample_site sample.default_services in
  let request := request_of (Some "bob") "POST" true in
  task_update_view request "t1" s = (s, Ok NotFound)
  /\ task_delete_view request "t1" s = (s, Ok NotFound)
  /\ task_execute_view request "t1" s = (s, Ok NotFound).
Proof.
  intros s request.
  apply (foreign_requests_change_nothing request "t1" s).
  intros user [= <-]. vm_compute. discriminate.
Defined.

(* ===================================================================== *)
(** * The views: deleting a task, [task_delete_view] *)
(* ===================================================================== *)

(** X21: a POST of the owner to [task_delete_view] removes the task
    and, with it, every execution of the task, whatever its status;
    the other tasks and their executions stay.  A worker that later
    takes the message of one of the removed executions finds no row and
    returns the not-found failure. *)
Theorem deleted_task_takes_its_executions
    (request : HttpRequest.t) (pk user : string) (s : Site) (t : TaskDefinition.t) :
  HttpRequest.user request = Some user ->
  HttpRequest.method request = "POST" ->
  objects.find_task pk (tasks (db s)) = Some t ->
  task_user s !! pk = Some user ->
  let s' := fst (task_delete_view request pk s) in
  snd (task_delete_view request pk s) = Ok (Redirect "tasks:dashboard" None)
  /\ objects.find_task pk (tasks (db s')) = None
  /\ (forall x, In x (executions (db s'))
                <-> In x (executions (db s)) /\ TaskExecution.task_id x <> pk)
  /\ (forall r, In r (tasks (db s')) <-> In r (tasks (db s)) /\ TaskDefinition.id r <> pk)
  /\ task_user s' !! pk = None
  /\ (forall k e,
        objects.find_execution k (executions (db s)) = Some e ->
        TaskExecution.task_id e = pk ->
        List.NoDup (map TaskExecution.id (executions (db s))) ->
        execute_python_script k (db s')
        = (db s', Ok (failure_dict ("TaskExecution with id " +:+ k +:+ " not found")))).
Proof.
  intros Hu Hm Hft Howner s'.
  pose proof (find_task_id _ _ _ Hft) as Hk.
  assert (task_delete_view request pk s
          = ({| db := set_tasks
                        (List.filter (fun r => negb (String.eqb (TaskDefinition.id r) pk))
                           (tasks (db s)))
                        (set_executions
                           (List.filter (fun x => negb (String.eqb (TaskExecution.task_id x) pk))
                              (executions (db s))) (db s));
                task_user := delete pk (task_user s);
                flashed := (flashed s
                            ++ [("success",
                                 "Task " +:+ dquote +:+ TaskDefinition.name t +:+ dquote
                                 +:+ " has been deleted successfully!")])%list |},
             Ok (Redirect "tasks:dashboard" None))) as Hview.
  { unfold task_delete_view. rewrite Hu, Hm. cbn [String.eqb Ascii.eqb Bool.eqb].
    unfold Py.bind at 1. unfold get_object_or_404. rewrite Hft, Howner, String.eqb_refl.
    cbv zeta. unfold Py.bind, delete_task, messages.success, messages.add, Py.modify, Py.ret.
    cbn [db task_user flashed]. rewrite Hk. reflexivity. }
  unfold s'. rewrite Hview. cbn [fst snd db task_user tasks executions set_tasks set_executions].
  assert (forall x, In x (List.filter
                            (fun x => negb (String.eqb (TaskExecution.task_id x) pk))
                            (executions (db s)))
                    <-> In x (executions (db s)) /\ TaskExecution.task_id x <> pk) as Hx.
  { intros x. rewrite filter_In, negb_true_iff, String.eqb_neq. reflexivity. }
  split; [ reflexivity | ]. split; [ | split; [ exact Hx | split; [ | split ] ] ].
  - destruct (objects.find_task pk (List.filter _ _)) as [r | ] eqn:E; [ exfalso | reflexivity ].
    pose proof (find_task_id _ _ _ E) as Hr.
    unfold objects.find_task in E. apply find_some in E. destruct E as [E _].
    apply filter_In in E. destruct E as [_ E].
    apply negb_true_iff, String.eqb_neq in E. congruence.
  - intros r. rewrite filter_In, negb_true_iff, String.eqb_neq. reflexivity.
  - apply lookup_delete_eq.
  - intros k e Hfe Hke Hpk. apply worker_not_found.
    cbn [executions set_tasks set_executions].
    destruct (objects.find_execution k (List.filter _ _)) as [x | ] eqn:E;
      [ exfalso | reflexivity ].
    pose proof (find_execution_id _ _ _ E) as Hkx.
    pose proof (find_execution_id _ _ _ Hfe) as Hkk.
    unfold objects.find_execution in E, Hfe. apply find_some in E, Hfe.
    destruct E as [E _], Hfe as [Hfe _]. apply Hx in E. destruct E as [E Hne].
    assert (x = e) by (apply (execution_key_inj _ _ _ Hpk E Hfe); congruence).
    congruence.
Qed.

Lemma deleted_task_takes_its_executions_witness :
  let s := {| db := sample.queued sample.default_services;
              task_user := {[ "t1" := "alice" ]}; flashed := [] |} in
  let s' := fst (task_delete_view (request_of (Some "alice") "POST" false) "t1" s) in
  objects.find_task "t1" (tasks (db s')) = None
  /\ executions (db s') = []
  /\ execute_python_script "exec-0" (db s')
     = (db s', Ok (failure_dict "TaskExecution with id exec-0 not found")).
Proof.
  intros s s'.
  pose proof (deleted_task_takes_its_executions (request_of (Some "alice") "POST" false)
                "t1" "alice" s (sample.task "t1" "interval" "60")
                eq_refl eq_refl eq_refl eq_refl) as H.
  cbv zeta in H. destruct H as (_ & H1 & _ & _ & _ & H2).
  split; [ exact H1 | ]. split; [ reflexivity | ].
  apply (H2 "exec-0" (sample.execution "exec-0" "t1")); [ reflexivity | reflexivity | ].
  vm_compute. repeat constructor. intros [].
Defined.

(* ===================================================================== *)
(** * What no event does: rows and columns that are never written *)
(* ===================================================================== *)

Section Events.

(** The statuses the code writes. *)
Lemma written_statuses (status : string) :
  In status ["success"; "failure"; "timeout"] ->
  In status ["pending"; "running"; "success"; "failure"; "timeout"].
Proof. intros H. right. right. exact H. Qed.

(** A row of the task table after a run of the worker has the key and
    the next run time of a row before it; an execution row is as
    before or has a status the worker writes. *)
Lemma worker_rows (k : string) (w : World) :
  let w' := fst (execute_python_script k w) in
  (forall row', In row' (tasks w') ->
     exists row, In row (tasks w)
                 /\ TaskDefinition.id row = TaskDefinition.id row'
                 /\ TaskDefinition.next_run_at row = TaskDefinition.next_run_at row')
  /\ (forall x', In x' (executions w') ->
        In x' (executions w)
        \/ In (TaskExecution.status x') ["pending"; "running"; "success"; "failure"; "timeout"]).
Proof.
  intros w'. unfold w'.
  destruct (worker_worlds k w) as [-> | (e & Hfe & [-> | H])].
  - split; [ intros row' H; exists row'; repeat split; exact H | intros x' H; left; exact H ].
  - split; [ intros row' H; exists row'; repeat split; exact H | ].
    intros x' H. unfold started_world, objects.update_execution_rows in H.
    cbn [executions set_executions] in H. apply in_map_iff in H.
    destruct H as (x & <- & Hx). destruct (String.eqb _ _); [ | left; exact Hx ].
    right. right. left. reflexivity.
  - destruct H as (t & status & output & error_output & exit_code & Hft & Hs & ->). split.
    + intros row' H. unfold completed_world, objects.update_task_rows in H.
      cbn [tasks set_tasks set_executions started_world tick] in H.
      apply in_map_iff in H. destruct H as (r & <- & Hr). exists r.
      destruct (String.eqb _ _); repeat split; exact Hr.
    + intros x' H.
      unfold completed_world, started_world, objects.update_execution_rows in H.
      cbn [executions set_tasks set_executions tick] in H. rewrite map_map in H.
      apply in_map_iff in H. destruct H as (x & <- & Hx).
      destruct (String.eqb (TaskExecution.id x) _).
      * destruct (String.eqb _ _).
        -- right. apply written_statuses. exact Hs.
        -- right. right. left. reflexivity.
      * destruct (String.eqb _ _); [ | left; exact Hx ].
        right. apply written_statuses. exact Hs.
Qed.

Lemma find_task_none (k : string) (rows : list TaskDefinition.t) (r : TaskDefinition.t) :
  objects.find_task k rows = None -> In r rows -> TaskDefinition.id r <> k.
Proof.
  unfold objects.find_task. intros H Hin Hk.
  apply (find_none _ _ H) in Hin. apply String.eqb_neq in Hin. congruence.
Qed.

(** The database after [task_execute_view]. *)
Lemma task_execute_view_db (request : HttpRequest.t) (pk : string) (s : Site) :
  let w := db s in
  let w' := db (fst (task_execute_view request pk s)) in
  (tasks w' = tasks w
   /\ (executions w' = executions w
       \/ exists x, executions w' = x :: executions w /\ TaskExecution.status x = "pending"))
  \/ (exists t now x,
        In t (tasks w)
        /\ tasks w' = objects.update_task_rows (counted_task now "failure" t)
                        objects.fields_statistics (tasks w)
        /\ executions w' = x :: executions w
        /\ TaskExecution.status x = "failure").
Proof.
  intros w w'. unfold w', w.
  destruct (task_execute_view request pk s) as [s1 o1] eqn:Hview. cbn [fst].
  unfold task_execute_view in Hview.
  destruct (HttpRequest.user request) as [user | ];
    [ | injection Hview as <- _; left; split; [ | left ]; reflexivity ].
  destruct (String.eqb (HttpRequest.method request) "POST"); cbn [negb] in Hview;
    [ | injection Hview as <- _; left; split; [ | left ]; reflexivity ].
  unfold Py.bind at 1 in Hview. unfold get_object_or_404 in Hview.
  destruct (objects.find_task pk (tasks (db s))) as [t | ] eqn:Hft;
    [ | injection Hview as <- _; left; split; [ | left ]; reflexivity ].
  destruct (task_user s !! pk) as [u | ];
    [ | injection Hview as <- _; left; split; [ | left ]; reflexivity ].
  destruct (String.eqb u user);
    [ | injection Hview as <- _; left; split; [ | left ]; reflexivity ].
  pose proof (find_task_id _ _ _ Hft) as Hk.
  unfold Py.bind at 1 in Hview.
  destruct (HttpRequest.confirmed request).
  2:{ injection Hview as <- _. left. split; [ | left ]; reflexivity. }
  unfold Py.bind at 1 in Hview. unfold in_db at 1 in Hview.
  rewrite create_execution_run in Hview.
  destruct (objects.find_execution _ _) eqn:Hfresh.
  { injection Hview as <- _. left. split; [ | left ]; reflexivity. }
  rewrite (queue_execution_run _ (pending_row t (db s)) t t (executions (db s))) in Hview;
    [ | reflexivity | exact Hfresh
      | cbn [db tasks set_executions tick draw_uuid]; rewrite Hk; exact Hft ].
  cbn [db services set_executions tick draw_uuid] in Hview.
  destruct (broker_delay _ _) as [rid | e]; injection Hview as <- _; cbn [db].
  - left. split; [ reflexivity | ]. right. eexists. split; reflexivity.
  - right. exists t. eexists _, _. split; [ | split; [ reflexivity | split; reflexivity ] ].
    unfold objects.find_task in Hft. apply find_some in Hft. apply Hft.
Qed.

(** The database after [task_update_view]. *)
Lemma task_update_view_db (request : HttpRequest.t) (pk : string) (s : Site) :
  let w := db s in
  let w' := db (fst (task_update_view request pk s)) in
  executions w' = executions w
  /\ (tasks w' = tasks w
      \/ exists t data,
           In t (tasks w)
           /\ tasks w' = objects.update_task_rows (construct_updated data t)
                           (fun obj _ => obj) (tasks w)).
Proof.
  intros w w'. unfold w', w.
  destruct (task_update_view request pk s) as [s1 o1] eqn:Hview. cbn [fst].
  unfold task_update_view in Hview.
  destruct (HttpRequest.user request) as [user | ];
    [ | injection Hview as <- _; split; [ | left ]; reflexivity ].
  unfold Py.bind at 1 in Hview. unfold get_object_or_404 in Hview.
  destruct (objects.find_task pk (tasks (db s))) as [t | ] eqn:Hft;
    [ | injection Hview as <- _; split; [ | left ]; reflexivity ].
  destruct (task_user s !! pk) as [u | ];
    [ | injection Hview as <- _; split; [ | left ]; reflexivity ].
  destruct (String.eqb u user);
    [ | injection Hview as <- _; split; [ | left ]; reflexivity ].
  destruct (String.eqb (HttpRequest.method request) "POST");
    [ | injection Hview as <- _; split; [ | left ]; reflexivity ].
  destruct (HttpRequest.updated request) as [data | ];
    [ | injection Hview as <- _; split; [ | left ]; reflexivity ].
  pose proof (find_task_id _ _ _ Hft) as Hk.
  cbv zeta in Hview.
  unfold Py.bind, in_db, save_all_columns, messages.success, messages.add, Py.modify,
    Py.ret in Hview.
  cbn [db TaskDefinition.id construct_updated] in Hview. rewrite Hk, Hft in Hview.
  injection Hview as <- _. cbn [db tasks executions set_tasks]. split; [ reflexivity | ].
  right. exists t, data. split; [ | reflexivity ].
  unfold objects.find_task in Hft. apply find_some in Hft. apply Hft.
Qed.

(** The database after [task_delete_view]: rows are only removed. *)
Lemma task_delete_view_db (request : HttpRequest.t) (pk : string) (s : Site) :
  let w := db s in
  let w' := db (fst (task_delete_view request pk s)) in
  (forall r, In r (tasks w') -> In r (tasks w))
  /\ (forall x, In x (executions w') -> In x (executions w)).
Proof.
  intros w w'. unfold w', w.
  destruct (task_delete_view request pk s) as [s1 o1] eqn:Hview. cbn [fst].
  unfold task_delete_view in Hview.
  destruct (HttpRequest.user request) as [user | ];
    [ | injection Hview as <- _; split; intros ? H; exact H ].
  unfold Py.bind at 1 in Hview. unfold get_object_or_404 in Hview.
  destruct (objects.find_task pk (tasks (db s))) as [t | ];
    [ | injection Hview as <- _; split; intros ? H; exact H ].
  destruct (task_user s !! pk) as [u | ];
    [ | injection Hview as <- _; split; intros ? H; exact H ].
  destruct (String.eqb u user);
    [ | injection Hview as <- _; split; intros ? H; exact H ].
  destruct (String.eqb (HttpRequest.method request) "POST");
    [ | injection Hview as <- _; split; intros ? H; exact H ].
  cbv zeta in Hview.
  unfold Py.bind, delete_task, messages.success, messages.add, Py.modify, Py.ret in Hview.
  injection Hview as <- _.
  cbn [db tasks executions set_tasks set_executions].
  split; intros ? H; apply filter_In in H; apply H.
Qed.

(** The database after [home_view]: at most one row is added, a draft
    with no next run time and a key that was free; the redirect to the
    page of a task is the answer for that case only. *)
Lemma home_view_db (request : HttpRequest.t) (s : Site) :
  let w := db s in
  let w' := db (fst (home_view request s)) in
  executions w' = executions w
  /\ ((tasks w' = tasks w
       /\ forall k, snd (home_view request s) <> Ok (Redirect "tasks:detail" (Some k)))
      \/ exists task,
           tasks w' = task :: tasks w
           /\ TaskDefinition.status task = "draft"
           /\ TaskDefinition.next_run_at task = None
           /\ consistent task
           /\ objects.find_task (TaskDefinition.id task) (tasks w) = None
           /\ snd (home_view request s)
              = Ok (Redirect "tasks:detail" (Some (TaskDefinition.id task)))).
Proof.
  intros w w'. unfold w', w.
  destruct (home_view request s) as [s1 o1] eqn:Hview. cbn [fst snd].
  unfold home_view in Hview.
  destruct (String.eqb (HttpRequest.method request) "POST").
  2:{ unfold Py.bind, in_db, uuid.uuid4, Py.ret in Hview. injection Hview as <- <-.
      split; [ reflexivity | left; split; [ reflexivity | discriminate ] ]. }
  destruct (HttpRequest.user request) as [user | ].
  2:{ unfold Py.bind, messages.error, messages.add, Py.modify, Py.ret in Hview.
      injection Hview as <- <-.
      split; [ reflexivity | left; split; [ reflexivity | discriminate ] ]. }
  unfold Py.bind at 1 in Hview. unfold in_db at 1, uuid.uuid4 in Hview. cbv zeta in Hview.
  destruct (HttpRequest.submitted_valid request && _).
  2:{ unfold Py.bind, messages.error, messages.add, Py.modify, Py.ret in Hview.
      injection Hview as <- <-.
      split; [ reflexivity | left; split; [ reflexivity | discriminate ] ]. }
  unfold Py.bind at 1 in Hview. unfold TaskSubmissionForm_save in Hview. cbv zeta in Hview.
  unfold Py.bind at 1 in Hview. unfold insert_task in Hview.
  cbn [db tasks draw_uuid TaskDefinition.id task_with_status construct_submitted new_task]
    in Hview.
  destruct (objects.find_task _ (tasks (db s))) eqn:Hfree.
  { injection Hview as <- <-.
    split; [ reflexivity | left; split; [ reflexivity | discriminate ] ]. }
  unfold Py.bind, Py.ret, messages.success, messages.add, Py.modify in Hview.
  injection Hview as <- <-.
  cbn [db tasks executions set_tasks draw_uuid].
  split; [ reflexivity | ]. right. eexists. split; [ reflexivity | ].
  split; [ reflexivity | ]. split; [ reflexivity | ]. split; [ reflexivity | ].
  split; [ exact Hfree | reflexivity ].
Qed.

Lemma cleanup_rows (w : World) :
  let w' := fst (cleanup_old_executions w) in
  tasks w' = tasks w /\ (forall x, In x (executions w') -> In x (executions w)).
Proof.
  intros w'. unfold w'. rewrite cleanup_old_executions_run.
  destruct (datetime.add _ _); cbv zeta; cbn [fst tasks executions set_executions tick].
  - split; [ reflexivity | ]. intros x H. apply filter_In in H. apply H.
  - split; [ reflexivity | intros x H; exact H ].
Qed.

Lemma cycle_rows (w : World) :
  let w' := fst (schedule_periodic_tasks w) in
  forall x, In x (executions w') ->
    In x (executions w) \/ TaskExecution.status x = "pending".
Proof.
  intros w' x H. unfold w' in H. rewrite schedule_periodic_tasks_unfold in H.
  destruct (Py.for_each _ dispatch (tick w)) as [w1 o] eqn:Hrun. cbn [fst] in H.
  destruct (for_each_new_rows _ _ _ _ Hrun) as (_ & new & Hnew & _ & Hown).
  rewrite Hnew in H. apply in_app_or in H. destruct H as [H | H]; [ | left; exact H ].
  right. apply (Hown x H).
Qed.

(** No event writes a status outside the five. *)
Lemma event_keeps_status_unused (status : string) (ev : event) (s : Site) :
  ~ In status ["pending"; "running"; "success"; "failure"; "timeout"] ->
  status_unused status (db s) -> status_unused status (db (run_event ev s)).
Proof.
  intros Hnot Hs.
  assert (forall w' : World,
            (forall x, In x (executions w') ->
               In x (executions (db s))
               \/ In (TaskExecution.status x)
                    ["pending"; "running"; "success"; "failure"; "timeout"]) ->
            status_unused status w') as Hstep.
  { intros w' H x Hx Hst. destruct (H x Hx) as [Hold | Hnew].
    - apply (Hs x Hold Hst).
    - apply Hnot. rewrite <- Hst. exact Hnew. }
  apply Hstep. destruct ev as [ [ | k | ] | request | request pk | request pk | request pk ];
    cbn [run_event run_job db].
  - intros x Hx. destruct (cycle_rows (db s) x Hx) as [H | H]; [ left; exact H | ].
    right. left. symmetry. exact H.
  - apply (proj2 (worker_rows k (db s))).
  - intros x Hx. left. apply (proj2 (cleanup_rows (db s)) x Hx).
  - intros x Hx. left. rewrite (proj1 (home_view_db request s)) in Hx. exact Hx.
  - intros x Hx. left. rewrite (proj1 (task_update_view_db request pk s)) in Hx. exact Hx.
  - intros x Hx.
    destruct (task_execute_view_db request pk s)
      as [ [_ [He | (y & He & Hy)]] | (t & now & y & _ & _ & He & Hy) ];
      rewrite He in Hx.
    + left. exact Hx.
    + destruct Hx as [<- | Hx]; [ right; left; symmetry; exact Hy | left; exact Hx ].
    + destruct Hx as [<- | Hx]; [ | left; exact Hx ].
      right. right. right. right. left. symmetry. exact Hy.
  - intros x Hx. left. apply (proj2 (task_delete_view_db request pk s) x Hx).
Qed.

(** No event gives a next run time to a task that has none. *)
Lemma event_keeps_unscheduled (k : string) (ev : event) (s : Site) :
  unscheduled k (db s) -> unscheduled k (db (run_event ev s)).
Proof.
  intros Hs.
  assert (forall w' : World,
            (forall row', In row' (tasks w') ->
               TaskDefinition.next_run_at row' = None
               \/ exists row, In row (tasks (db s))
                              /\ TaskDefinition.id row = TaskDefinition.id row'
                              /\ TaskDefinition.next_run_at row
                                 = TaskDefinition.next_run_at row') ->
            unscheduled k w') as Hstep.
  { intros w' H row' Hin Hk. destruct (H row' Hin) as [Hnone | (row & Hrow & Hid & Hnext)].
    - exact Hnone.
    - rewrite <- Hnext. apply (Hs row Hrow). congruence. }
  destruct ev as [ [ | execution_id | ] | request | request pk | request pk | request pk ];
    cbn [run_event run_job db].
  - (* the cycle dispatches due tasks only, and a due task has a next run time *)
    intros row' Hin Hk. apply (Hs row'); [ | exact Hk ].
    rewrite schedule_periodic_tasks_unfold in Hin.
    destruct (Py.for_each _ dispatch (tick (db s))) as [w1 o] eqn:Hrun. cbn [fst] in Hin.
    apply (for_each_other_rows row' _ _ _ _ Hrun); [ | exact Hin ].
    intros t Ht Hid. apply filter_In in Ht. destruct Ht as [Ht Hdue].
    rewrite (null_is_never_due _ t) in Hdue; [ discriminate | ].
    apply (Hs t Ht). congruence.
  - apply Hstep. intros row' Hin. right. apply (proj1 (worker_rows execution_id (db s))), Hin.
  - apply Hstep. intros row' Hin. right. rewrite (proj1 (cleanup_rows (db s))) in Hin.
    exists row'. repeat split. exact Hin.
  - apply Hstep. intros row' Hin.
    destruct (proj2 (home_view_db request s)) as [ [Ht _] | (task & Ht & _ & Hnone & _)];
      rewrite Ht in Hin.
    + right. exists row'. repeat split. exact Hin.
    + destruct Hin as [<- | Hin]; [ left; exact Hnone | ].
      right. exists row'. repeat split. exact Hin.
  - apply Hstep. intros row' Hin.
    destruct (proj2 (task_update_view_db request pk s)) as [Ht | (t & data & Hin' & Ht)];
      rewrite Ht in Hin.
    + right. exists row'. repeat split. exact Hin.
    + unfold objects.update_task_rows in Hin. apply in_map_iff in Hin.
      destruct Hin as (r & <- & Hr). right.
      destruct (String.eqb _ _) eqn:E; [ | exists r; repeat split; exact Hr ].
      exists t. repeat split. exact Hin'.
  - apply Hstep. intros row' Hin. right.
    destruct (task_execute_view_db request pk s) as [ [Ht _] | (t & now' & y & _ & Ht & _) ];
      rewrite Ht in Hin.
    + exists row'. repeat split. exact Hin.
    + unfold objects.update_task_rows in Hin. apply in_map_iff in Hin.
      destruct Hin as (r & <- & Hr). exists r.
      destruct (String.eqb _ _); repeat split; exact Hr.
  - apply Hstep. intros row' Hin. right. exists row'. repeat split.
    apply (proj1 (task_delete_view_db request pk s) row' Hin).
Qed.

Lemma events_keep (I : World -> Prop) (events : list event) :
  (forall ev s, I (db s) -> I (db (run_event ev s))) ->
  forall s, I (db s) -> I (db (run_events events s)).
Proof.
  intros Hstep. unfold run_events.
  induction events as [ | ev events IH ]; intros s Hs; [ exact Hs | ].
  cbn [fold_left]. apply IH, Hstep, Hs.
Qed.

End Events.

(** X22: a task created through the submission form is never selected
    by the scheduler.  [home_view] stores it as a draft without a next
    run time, and nothing that can happen afterwards - dispatch cycles,
    worker runs, clean-ups, further submissions, updates through the
    update form (which can make it active), manual executions,
    deletions - gives it one: no field list of a form and no statement
    of a view sets [next_run_at], and the dispatch cycle sets it only
    for tasks that already have one.  So at no time is the task due. *)
Theorem submitted_task_is_never_due
    (request : HttpRequest.t) (s : Site) (k : string) (events : list event) :
  snd (home_view request s) = Ok (Redirect "tasks:detail" (Some k)) ->
  let s' := fst (home_view request s) in
  (exists task,
     tasks (db s') = task :: tasks (db s)
     /\ TaskDefinition.id task = k
     /\ TaskDefinition.status task = "draft"
     /\ TaskDefinition.next_run_at task = None)
  /\ forall row now,
       In row (tasks (db (run_events events s'))) ->
       TaskDefinition.id row = k ->
       TaskDefinition.next_run_at row = None /\ objects.is_due now row = false.
Proof.
  intros Hanswer s'.
  destruct (proj2 (home_view_db request s))
    as [ [_ Hno] | (task & Ht & Hdraft & Hnone & _ & Hfree & Hredirect) ];
    [ exfalso; apply (Hno k Hanswer) | ].
  assert (TaskDefinition.id task = k) as Hk by congruence.
  fold s' in Ht.
  split; [ exists task; repeat split; assumption | ].
  assert (unscheduled k (db s')) as Hstart.
  { intros row Hin Hrow. rewrite Ht in Hin. destruct Hin as [<- | Hin]; [ exact Hnone | ].
    exfalso. apply (find_task_none _ _ row Hfree Hin). congruence. }
  intros row now Hin Hrow.
  assert (TaskDefinition.next_run_at row = None) as Hnull.
  { apply (events_keep (unscheduled k) events (event_keeps_unscheduled k) s' Hstart row Hin Hrow). }
  split; [ exact Hnull | apply null_is_never_due, Hnull ].
Qed.

Lemma submitted_task_is_never_due_witness :
  let row := TaskDefinition.Build "exec-0" "nightly" "active" None (Some "print('Hello')")
               "interval" "60" "" 3600 3 None None 0 0 0 in
  TaskDefinition.next_run_at row = None
  /\ objects.is_due sample.saturday_noon row = false.
Proof.
  intros row.
  pose (s := sample_site sample.default_services).
  pose (request := request_of (Some "alice") "POST" false).
  pose (activate := HttpRequest.Build "POST" (Some "alice") (HttpRequest.submitted request)
                      true
                      (Some (update_data.Build "nightly" "active" "print('Hello')"
                               "interval" "60" "" 3600 3)) false).
  apply (proj2 (submitted_task_is_never_due request s "exec-0"
                  [Update activate "exec-0"; Job Beat] eq_refl) row sample.saturday_noon).
  - vm_compute. left. reflexivity.
  - reflexivity.
Defined.

Example activated_submission_is_not_dispatched :
  let s := sample_site sample.default_services in
  let request := request_of (Some "alice") "POST" false in
  let activate := HttpRequest.Build "POST" (Some "alice") (HttpRequest.submitted request) true
                    (Some (update_data.Build "nightly" "active" "print('Hello')"
                             "interval" "60" "" 3600 3)) false in
  let s2 := run_events [Home request; Update activate "exec-0"; Job Beat] s in
  map (fun r => (TaskDefinition.id r, TaskDefinition.status r, TaskDefinition.next_run_at r))
      (tasks (db s2))
  = [("exec-0", "active", None);
     ("t1", "active", Some (sample.saturday_noon + 60 * datetime.us_per_second))]
  /\ map TaskExecution.task_id (executions (db s2)) = ["t1"].
Proof. vm_compute. split; reflexivity. Qed.

(** X23: the code never writes the status "failed": the rows it
    inserts are "pending", and the only statuses it sets are
    "running", "success", "failure" and "timeout".  So on a table
    without such a row, after any sequence of events, the
    [failed_count] that the detail page and the log page compute by
    filtering on [status='failed'] is 0 for every task, however many
    runs have failed. *)
Theorem failed_count_is_always_zero
    (s : Site) (events : list event) (task : TaskDefinition.t) :
  status_unused "failed" (db s) ->
  let w := db (run_events events s) in
  status_unused "failed" w /\ failed_count task w = 0.
Proof.
  intros Hs w.
  assert (status_unused "failed" w) as Hw.
  { apply (events_keep (status_unused "failed") events); [ | exact Hs ].
    intros ev s0. apply event_keeps_status_unused.
    intros [H | [H | [H | [H | [H | []]]]]]; discriminate. }
  split; [ exact Hw | ].
  unfold failed_count, executions_count.
  replace (List.filter _ (executions w)) with (@nil TaskExecution.t); [ reflexivity | ].
  symmetry.
  destruct (List.filter _ (executions w)) as [ | x l ] eqn:E; [ reflexivity | exfalso ].
  assert (In x (List.filter
                  (fun x => String.eqb (TaskExecution.task_id x) (TaskDefinition.id task)
                            && String.eqb (TaskExecution.status x) "failed")
                  (executions w))) as Hx by (rewrite E; left; reflexivity).
  apply filter_In in Hx. destruct Hx as [Hx Hb]. apply andb_prop in Hb.
  destruct Hb as [_ Hb]. apply String.eqb_eq in Hb. apply (Hw x Hx Hb).
Qed.

Lemma failed_count_is_always_zero_witness :
  let s := sample_site (sample.with_process (Ok {| returncode := 1; stdout := "";
                                                   stderr := "Traceback" |})) in
  let events := [Execute (request_of (Some "alice") "POST" true) "t1"; Job (Work "exec-0")] in
  let w := db (run_events events s) in
  status_unused "failed" w /\ failed_count (sample.task "t1" "interval" "60") w = 0.
Proof.
  intros s events w.
  apply (failed_count_is_always_zero s events (sample.task "t1" "interval" "60")).
  intros x [].
Defined.

Example failed_runs_are_counted_elsewhere :
  let s := sample_site (sample.with_process (Ok {| returncode := 1; stdout := "";
                                                   stderr := "Traceback" |})) in
  let events := [Execute (request_of (Some "alice") "POST" true) "t1"; Job (Work "exec-0")] in
  let w := db (run_events events s) in
  map TaskExecution.status (executions w) = ["failure"]
  /\ map TaskDefinition.failed_runs (tasks w) = [1]
  /\ failed_count (sample.task "t1" "interval" "60") w = 0.
Proof. vm_compute. repeat split. Qed.

(* ===================================================================== *)
(** * The run counters, over every event *)
(* ===================================================================== *)

Lemma erased_consistent (rows rows' : list TaskDefinition.t) :
  map (TaskDefinition.set_next_run_at None) rows'
  = map (TaskDefinition.set_next_run_at None) rows ->
  (forall r, In r rows -> consistent r) -> forall r, In r rows' -> consistent r.
Proof.
  intros H Hrows r Hr.
  apply (in_map (TaskDefinition.set_next_run_at None)) in Hr. rewrite H in Hr.
  apply in_map_iff in Hr. destruct Hr as (r0 & Heq & Hin).
  specialize (Hrows r0 Hin). unfold consistent in *.
  apply (f_equal TaskDefinition.total_runs) in Heq as H1.
  apply (f_equal TaskDefinition.successful_runs) in Heq as H2.
  apply (f_equal TaskDefinition.failed_runs) in Heq as H3.
  cbn in H1, H2, H3. lia.
Qed.

Lemma event_keeps_consistent (ev : event) (s : Site) :
  stats_consistent (db s) -> stats_consistent (db (run_event ev s)).
Proof.
  intros Hs.
  destruct ev as [ [ | execution_id | ] | request | request pk | request pk | request pk ];
    cbn [run_event run_job db].
  - rewrite schedule_periodic_tasks_unfold.
    destruct (Py.for_each _ dispatch (tick (db s))) as [w1 o] eqn:Hrun. cbn [fst].
    exact (erased_consistent (tasks (db s)) (tasks w1) (for_each_erased _ _ _ _ Hrun) Hs).
  - apply keeps_fst; [ apply keeps_execute_python_script | exact Hs ].
  - intros r Hr. rewrite (proj1 (cleanup_rows (db s))) in Hr. apply Hs, Hr.
  - intros r Hr.
    destruct (proj2 (home_view_db request s)) as [ [Ht _] | (task & Ht & _ & _ & Hc & _)];
      rewrite Ht in Hr.
    + apply Hs, Hr.
    + destruct Hr as [<- | Hr]; [ exact Hc | apply Hs, Hr ].
  - intros r Hr.
    destruct (proj2 (task_update_view_db request pk s)) as [Ht | (t & data & Hin & Ht)];
      rewrite Ht in Hr.
    + apply Hs, Hr.
    + unfold objects.update_task_rows in Hr. apply in_map_iff in Hr.
      destruct Hr as (r0 & <- & Hr0).
      destruct (String.eqb _ _); [ | apply Hs, Hr0 ].
      apply (Hs t Hin).
  - intros r Hr.
    destruct (task_execute_view_db request pk s)
      as [ [Ht _] | (t & now & y & Hin & Ht & _) ]; rewrite Ht in Hr.
    + apply Hs, Hr.
    + apply in_updated_tasks in Hr. destruct Hr as [Hr | (r0 & ->)]; [ apply Hs, Hr | ].
      apply (counted_task_consistent now "failure" t (Hs t Hin)).
  - intros r Hr. apply Hs. apply (proj1 (task_delete_view_db request pk s) r Hr).
Qed.

(** X24: the run counters of every task add up - [total_runs] is
    [successful_runs] plus [failed_runs] - after any sequence of events
    when they did before: the worker and the manual execution count
    every completion once and in one of the two, the update form does
    not expose the counters, a new task starts at zero, and the
    dispatch cycle and the clean-up do not touch them. *)
Theorem counters_always_add_up (s : Site) (events : list event) :
  stats_consistent (db s) -> stats_consistent (db (run_events events s)).
Proof. apply (events_keep stats_consistent events event_keeps_consistent). Qed.

Lemma counters_always_add_up_witness :
  let row := TaskDefinition.Build "t1" "sample" "active" None (Some "print('Hello')")
               "interval" "60" "" 3600 3 (Some sample.saturday_noon)
               (Some (sample.saturday_noon - 1 * datetime.us_per_second)) 1 0 1 in
  consistent row.
Proof.
  intros row.
  pose (s := sample_site (sample.faulty_broker "exec-0")).
  pose (events := [Execute (request_of (Some "alice") "POST" true) "t1"]).
  apply (counters_always_add_up s events).
  - intros r [<- | []]. reflexivity.
  - vm_compute. left. reflexivity.
Defined.

(* ===================================================================== *)
(** * The views: submitting a task, [home_view] *)
(* ===================================================================== *)

Lemma clean_refuses (data : cleaned_data.t) :
  has_script data = false
  \/ ~ schedule_ok (or_empty (cleaned_data.schedule_type data))
                   (or_empty (cleaned_data.schedule_value data)) ->
  returns (clean data) = false.
Proof.
  unfold clean, has_script. rewrite <- negb_orb.
  destruct (file_field_truthy _ || truthy_opt _); cbn [negb].
  - intros [H | H]; [ discriminate | ].
    pose proof (clean_schedule_accepts (or_empty (cleaned_data.schedule_type data))
                  (or_empty (cleaned_data.schedule_value data))) as Hs.
    destruct (clean_schedule _ _) as [ [] | e ]; [ | reflexivity ].
    exfalso. apply H, Hs. reflexivity.
  - intros _. reflexivity.
Qed.

(** X25: a submission that [clean] refuses - no script, a cron value
    the validator rejects, an interval that is not a positive integer -
    stores nothing: [home_view] leaves both tables and the owners as
    they were, flashes one error and answers with the form again (or,
    for an anonymous request, with the redirect to the login page). *)
Theorem refused_submission_stores_nothing (request : HttpRequest.t) (s : Site) :
  HttpRequest.method request = "POST" ->
  has_script (HttpRequest.submitted request) = false
  \/ ~ schedule_ok (or_empty (cleaned_data.schedule_type (HttpRequest.submitted request)))
                   (or_empty (cleaned_data.schedule_value (HttpRequest.submitted request))) ->
  let s' := fst (home_view request s) in
  tasks (db s') = tasks (db s)
  /\ executions (db s') = executions (db s)
  /\ task_user s' = task_user s
  /\ match HttpRequest.user request with
     | None =>
         snd (home_view request s) = Ok (Redirect "account_login" None)
         /\ flashed s' = (flashed s ++ [("error", "Please sign in to submit tasks.")])%list
     | Some _ =>
         snd (home_view request s) = Ok (Render "pages/home.html")
         /\ flashed s'
            = (flashed s
               ++ [("error", "Please correct the errors below and try again.")])%list
     end.
Proof.
  intros Hm Hbad s'. unfold s', home_view. rewrite Hm.
  cbn [String.eqb Ascii.eqb Bool.eqb].
  destruct (HttpRequest.user request) as [user | ]; [ | repeat split ].
  rewrite (clean_refuses _ Hbad), andb_false_r.
  repeat split.
Qed.

Lemma refused_submission_stores_nothing_witness :
  let s := sample_site sample.default_services in
  let request := HttpRequest.Build "POST" (Some "alice")
                   (cleaned_data.Build "nightly" None (Some "print('Hello')")
                      (Some "interval") (Some "0") "")
                   true None false in
  let s' := fst (home_view request s) in
  tasks (db s') = tasks (db s)
  /\ executions (db s') = executions (db s)
  /\ task_user s' = task_user s
  /\ snd (home_view request s) = Ok (Render "pages/home.html")
  /\ flashed s' = [("error", "Please correct the errors below and try again.")].
Proof.
  intros s request s'.
  apply (refused_submission_stores_nothing request s eq_refl).
  right. intros [H | [H | [[H _] | [[_ (n & Hn & Hpos)] | [_ H]]]]];
    try discriminate; [ | apply H; reflexivity ].
  vm_compute in Hn. injection Hn as <-. lia.
Defined.

(* ===================================================================== *)
(** * The worker: failures before the launch *)
(* ===================================================================== *)

(** X26: when the worker fails after [mark_started] but before the
    launch - the script cannot be read, the script is empty, or the
    temporary file cannot be written - it returns a failure dict, but
    [mark_completed] is never called: the execution row stays
    "running", with a start time and without a completion time of this
    run, and the task table is not touched, so the failure is counted
    nowhere. *)
Theorem early_failure_leaves_the_row_running
    (execution_id : string) (w : World) (e : TaskExecution.t) (t : TaskDefinition.t) :
  objects.find_execution execution_id (executions w) = Some e ->
  objects.find_task (TaskExecution.task_id e) (tasks w) = Some t ->
  match resolve_script (services w) t with
  | Raise _ => True
  | Ok content =>
      PyStr.truthy content = false
      \/ exists ex, tmp_create (services w) content = Raise ex
  end ->
  let w' := fst (execute_python_script execution_id w) in
  failure_report (snd (execute_python_script execution_id w))
  /\ (exists row,
        objects.find_execution execution_id (executions w') = Some row
        /\ TaskExecution.status row = "running"
        /\ TaskExecution.terminal (TaskExecution.status row) = false
        /\ TaskExecution.started_at row = Some (now_of w)
        /\ TaskExecution.completed_at row = TaskExecution.completed_at e
        /\ TaskExecution.exit_code row = TaskExecution.exit_code e)
  /\ tasks w' = tasks w.
Proof.
  intros Hfe Hft Hearly w'.
  destruct (started_world_rows _ _ _ _ Hfe Hft) as (Hrow & _ & Hk). rewrite Hk in Hrow.
  assert (exists d, execute_python_script execution_id w = (started_world w e, Ok d)
                    /\ failure_report (Ok d)) as (d & Hrun & Hd).
  { destruct (resolve_script (services w) t) as [content | ex] eqn:Hres.
    - destruct (PyStr.truthy content) eqn:Hfull.
      + destruct Hearly as [Hempty | (ex & Htmp)]; [ discriminate | ].
        eexists. split; [ apply (worker_no_tempfile _ _ _ _ Hfe Hft _ Hres Hfull _ Htmp) | ].
        apply error_dict_report.
      + eexists. split; [ apply (worker_no_content _ _ _ _ Hfe Hft _ Hres Hfull) | ].
        eexists. split; [ | reflexivity ]. discriminate.
    - eexists. split; [ apply (worker_no_script _ _ _ _ _ Hfe Hft Hres) | ].
      apply error_dict_report. }
  unfold w'. rewrite Hrun. cbn [fst snd].
  split; [ exact Hd | ]. split; [ | reflexivity ].
  eexists. split; [ exact Hrow | ]. repeat split.
Qed.

Lemma early_failure_leaves_the_row_running_witness :
  let empty := TaskDefinition.Build "t1" "sample" "active" None (Some "")
                 "interval" "60" "" 3600 3 None None 0 0 0 in
  let w := set_tasks [empty] (sample.queued sample.default_services) in
  let w' := fst (execute_python_script "exec-0" w) in
  failure_report (snd (execute_python_script "exec-0" w))
  /\ (exists row,
        objects.find_execution "exec-0" (executions w') = Some row
        /\ TaskExecution.status row = "running"
        /\ TaskExecution.terminal (TaskExecution.status row) = false
        /\ TaskExecution.started_at row = Some (now_of w)
        /\ TaskExecution.completed_at row = None
        /\ TaskExecution.exit_code row = None)
  /\ tasks w' = tasks w.
Proof.
  intros empty w w'.
  apply (early_failure_leaves_the_row_running "exec-0" w
           (sample.execution "exec-0" "t1") empty eq_refl eq_refl).
  left. reflexivity.
Defined.

(* ===================================================================== *)
(** * The worker: a message delivered twice *)
(* ===================================================================== *)

Lemma worker_completed_rows (k : string) (w : World)
    (e : TaskExecution.t) (t : TaskDefinition.t) (content path : string)
    (result : CompletedProcess) :
  objects.find_execution k (executions w) = Some e ->
  objects.find_task (TaskExecution.task_id e) (tasks w) = Some t ->
  resolve_script (services w) t = Ok content ->
  PyStr.truthy content = true ->
  tmp_create (services w) content = Ok path ->
  subprocess_run (services w) path (get_environment_dict t ∪ os_environ (services w))
    (TaskDefinition.timeout_seconds t) = Ok result ->
  let status := if returncode result =? 0 then "success" else "failure" in
  let e1 := started_object (now_of w) e in
  let w1 := started_world w e in
  let obj := completed_object (now_of w1) status (stdout result) (stderr result)
               (Some (returncode result)) e1 in
  let w' := fst (execute_python_script k w) in
  w' = completed_world w1 e1 t status (stdout result) (stderr result)
         (Some (returncode result))
  /\ objects.find_execution k (executions w')
     = Some (objects.fields_completed obj (objects.fields_started e1 e))
  /\ objects.find_task (TaskDefinition.id t) (tasks w')
     = Some (objects.fields_statistics (counted_task (now_of w1) status t) t).
Proof.
  intros Hfe Hft Hres Hfull Htmp Hrun status e1 w1 obj w'.
  pose proof (worker_completed _ _ _ _ Hfe Hft _ _ Hres Hfull Htmp _ Hrun) as H.
  cbv zeta in H. fold status in H. unfold w'. rewrite H. cbn [fst]. clear H.
  destruct (started_world_rows _ _ _ _ Hfe Hft) as (He1 & Ht1 & Hk).
  destruct (completed_world_rows _ _ _ _ _ status (stdout result) (stderr result)
              (Some (returncode result)) He1 Ht1) as [Hrow Htrow].
  rewrite Hk in Hrow. split; [ reflexivity | ]. split; [ exact Hrow | exact Htrow ].
Qed.

Lemma counted_row_script (now : datetime.datetime) (status : string)
    (t : TaskDefinition.t) (sv : Services) :
  let row := objects.fields_statistics (counted_task now status t) t in
  resolve_script sv row = resolve_script sv t
  /\ get_environment_dict row = get_environment_dict t
  /\ TaskDefinition.timeout_seconds row = TaskDefinition.timeout_seconds t
  /\ TaskDefinition.id row = TaskDefinition.id t
  /\ TaskDefinition.total_runs row = TaskDefinition.total_runs t + 1
  /\ TaskDefinition.successful_runs row + TaskDefinition.failed_runs row
     = TaskDefinition.successful_runs t + TaskDefinition.failed_runs t + 1.
Proof.
  unfold counted_task. destruct (String.eqb status "success"); cbn; repeat split; lia.
Qed.

(** X27: the worker is not idempotent.  When the message of an
    execution is delivered twice and the child process returns both
    times, the one execution row is started again - its start time is
    overwritten by the later clock reading - and the run is counted
    twice in the task's counters. *)
Theorem redelivered_message_counts_twice (execution_id : string) (w : World)
    (e : TaskExecution.t) (t : TaskDefinition.t) (content path : string)
    (result : CompletedProcess) :
  objects.find_execution execution_id (executions w) = Some e ->
  objects.find_task (TaskExecution.task_id e) (tasks w) = Some t ->
  resolve_script (services w) t = Ok content ->
  PyStr.truthy content = true ->
  tmp_create (services w) content = Ok path ->
  subprocess_run (services w) path (get_environment_dict t ∪ os_environ (services w))
    (TaskDefinition.timeout_seconds t) = Ok result ->
  let w1 := fst (execute_python_script execution_id w) in
  let w2 := fst (execute_python_script execution_id w1) in
  exists row trow,
    objects.find_execution execution_id (executions w2) = Some row
    /\ TaskExecution.started_at row = Some (clock (services w) (2 + ticks w))
    /\ TaskExecution.completed_at row = Some (clock (services w) (3 + ticks w))
    /\ objects.find_task (TaskDefinition.id t) (tasks w2) = Some trow
    /\ TaskDefinition.total_runs trow = TaskDefinition.total_runs t + 2
    /\ TaskDefinition.successful_runs trow + TaskDefinition.failed_runs trow
       = TaskDefinition.successful_runs t + TaskDefinition.failed_runs t + 2.
Proof.
  intros Hfe Hft Hres Hfull Htmp Hrun w1 w2.
  pose proof (worker_completed_rows _ _ _ _ _ _ _ Hfe Hft Hres Hfull Htmp Hrun) as H1.
  cbv zeta in H1. fold w1 in H1. destruct H1 as (Hw1 & Hrow1 & Htrow1).
  set (status := if returncode result =? 0 then "success" else "failure") in *.
  set (now1 := now_of (started_world w e)) in *.
  set (t1 := objects.fields_statistics (counted_task now1 status t) t) in *.
  destruct (counted_row_script now1 status t (services w))
    as (Hscript & Henv & Htimeout & Hid & Htotal & Hsum).
  fold t1 in Hscript, Henv, Htimeout, Hid, Htotal, Hsum.
  assert (services w1 = services w) as Hsv by (rewrite Hw1; reflexivity).
  assert (ticks w1 = (2 + ticks w)%nat) as Hticks by (rewrite Hw1; reflexivity).
  match type of Hrow1 with _ = Some ?r => set (e1 := r) in * end.
  assert (objects.find_task (TaskExecution.task_id e1) (tasks w1) = Some t1) as Hft1.
  { change (TaskExecution.task_id e1) with (TaskExecution.task_id e).
    rewrite <- (find_task_id _ _ _ Hft). exact Htrow1. }
  pose proof (worker_completed_rows execution_id w1 e1 t1 content path result Hrow1 Hft1) as H2.
  rewrite Hsv, Hscript, Henv, Htimeout in H2.
  specialize (H2 Hres Hfull Htmp Hrun). cbv zeta in H2. fold w2 in H2. fold status in H2.
  destruct H2 as (_ & Hrow2 & Htrow2).
  destruct (counted_row_script (now_of (started_world w1 e1)) status t1 (services w))
    as (_ & _ & _ & _ & Htotal2 & Hsum2).
  eexists _, _. split; [ exact Hrow2 | ].
  split; [ rewrite <- Hsv, <- Hticks; reflexivity | ].
  split; [ replace (3 + ticks w)%nat with (S (ticks w1)) by lia;
           rewrite <- Hsv; reflexivity | ].
  split; [ rewrite <- Hid; exact Htrow2 | ].
  split; lia.
Qed.

Lemma redelivered_message_counts_twice_witness :
  let w := sample.queued sample.default_services in
  let w2 := fst (execute_python_script "exec-0" (fst (execute_python_script "exec-0" w))) in
  exists row trow,
    objects.find_execution "exec-0" (executions w2) = Some row
    /\ TaskExecution.started_at row = Some (clock (services w) (2 + ticks w))
    /\ TaskExecution.completed_at row = Some (clock (services w) (3 + ticks w))
    /\ objects.find_task "t1" (tasks w2) = Some trow
    /\ TaskDefinition.total_runs trow = 0 + 2
    /\ TaskDefinition.successful_runs trow + TaskDefinition.failed_runs trow = 0 + 0 + 2.
Proof.
  intros w w2.
  apply (redelivered_message_counts_twice "exec-0" w
           (sample.execution "exec-0" "t1") (sample.task "t1" "interval" "60")
           "print('Hello')" "/tmp/tmpscript.py"
           {| returncode := 0; stdout := "Hello"; stderr := "" |});
    reflexivity.
Defined.
